(** * Medical chart backend: extraction reconciliation and review triage

    A shallow embedding of the Python backend
    ([app/services/similarity_service.py], [app/tasks/process_chart.py],
    [app/services/db_service.py], [app/services/chart_service.py] and
    [app/routers/review.py]) together with the properties of the
    review-triage engine that are checked against it.

    Conventions of the embedding:
    - a Python [float] is a binary64 primitive float, [<] is [PrimFloat.ltb];
    - a Python [str] is a [string] of UTF-8 bytes (byte-wise lexicographic
      order is code-point order);
    - a JSON document is a [json] value, a Python [dict] with string keys is
      an association list in insertion order ([dset] keeps the position of an
      existing key and appends a new one, as [d[k] = v] does);
    - an exception is a value of [exn]; a function that may raise returns a
      [pyresult];
    - the database rows of the one chart id the functions are called with are
      the state [Db] that is passed explicitly. *)

From Stdlib Require Import Ascii String List Bool ZArith Floats Uint63 Lia Permutation.
Import ListNotations.
Open Scope string_scope.

Set Implicit Arguments.
Set Warnings "-register-all,-inexact-float,-notation-for-abbreviation".

(** ** Exceptions and results *)

Inductive exn : Type :=
| PyExc (kind : string) (msg : string)
| HTTPException (status_code : nat) (detail : string).

(** [str(e)] *)
Definition exn_str (e : exn) : string :=
  match e with
  | PyExc _ msg => msg
  | HTTPException _ detail => detail
  end.

Definition TypeError : exn := PyExc "TypeError" "unsupported operand".
Definition KeyError (k : string) : exn := PyExc "KeyError" k.
Definition AttributeError : exn := PyExc "AttributeError" "no such attribute".
Definition IndexError : exn := PyExc "IndexError" "list index out of range".
Definition IntegrityError : exn := PyExc "IntegrityError" "foreign key violation".

Inductive pyresult (A : Type) : Type :=
| Returned (a : A)
| Raised (e : exn).
Arguments Returned {A} a.
Arguments Raised {A} e.

Definition bind {A B} (r : pyresult A) (k : A -> pyresult B) : pyresult B :=
  match r with
  | Returned a => k a
  | Raised e => Raised e
  end.

Notation "x <- r ;; k" := (bind r (fun x => k))
  (at level 61, r at next level, right associativity).

(** ** JSON values and Python dictionaries *)

Definition dict (V : Type) : Type := list (string * V).

Inductive json : Type :=
| JNull
| JBool (b : bool)
| JInt (n : Z)
| JNum (x : float)
| JStr (s : string)
| JList (l : list json)
| JDict (d : list (string * json)).

Definition pydict : Type := dict json.

Section Dict.
Variable V : Type.

(** [d.get(k)] as an option; [k in d] *)
Fixpoint dget (k : string) (d : dict V) : option V :=
  match d with
  | [] => None
  | (k', v) :: d' => if String.eqb k k' then Some v else dget k d'
  end.

Definition dmem (k : string) (d : dict V) : bool :=
  match dget k d with Some _ => true | None => false end.

(** [d.get(k, default)] *)
Definition dget_default (k : string) (default : V) (d : dict V) : V :=
  match dget k d with Some v => v | None => default end.

(** [d[k] = v] *)
Fixpoint dset (k : string) (v : V) (d : dict V) : dict V :=
  match d with
  | [] => [(k, v)]
  | (k', v') :: d' =>
      if String.eqb k k' then (k, v) :: d' else (k', v') :: dset k v d'
  end.

(** [d.update(other)] *)
Definition dupdate (other d : dict V) : dict V :=
  fold_left (fun acc kv => dset (fst kv) (snd kv) acc) other d.

Definition dkeys (d : dict V) : list string := map fst d.
End Dict.

(** [d.get(k)] on a JSON dictionary: [None] when the key is absent *)
Definition jget (k : string) (d : pydict) : json := dget_default k JNull d.

(** Truth value of a JSON value, as Python's [bool(v)] *)
Definition truthy (v : json) : bool :=
  match v with
  | JNull => false
  | JBool b => b
  | JInt n => negb (Z.eqb n 0)
  | JNum x => negb (PrimFloat.eqb x 0%float)
  | JStr s => negb (String.eqb s "")
  | JList l => match l with [] => false | _ => true end
  | JDict d => match d with [] => false | _ => true end
  end.

Definition is_dict (v : json) : bool :=
  match v with JDict _ => true | _ => false end.

Definition is_list (v : json) : bool :=
  match v with JList _ => true | _ => false end.

(** [v == s] for a string [s] *)
Definition json_eq_str (v : json) (s : string) : bool :=
  match v with JStr s' => String.eqb s' s | _ => false end.

(** An [Optional[str]] as a JSON value *)
Definition json_of_text (t : option string) : json :=
  match t with Some s => JStr s | None => JNull end.

Definition float_of_Z (n : Z) : float := PrimFloat.of_uint63 (Uint63.of_Z n).
Definition float_of_nat (n : nat) : float := float_of_Z (Z.of_nat n).

(** The number a JSON value stands for in arithmetic ([bool] is an [int]) *)
Definition json_number (v : json) : option float :=
  match v with
  | JNum x => Some x
  | JInt n => Some (float_of_Z n)
  | JBool b => Some (if b then 1%float else 0%float)
  | _ => None
  end.

(** ** similarity_service.py *)

Module similarity_service.

Definition SIMILARITY_THRESHOLD : float := 0.8%float.
Definition CONFIDENCE_THRESHOLD : float := 0.7%float.

Definition should_review
    (similarity_score confidence_score : option float)
    (error_occurred : bool) : bool :=
  if error_occurred then true
  else
    match similarity_score, confidence_score with
    | Some s, Some c =>
        PrimFloat.ltb s SIMILARITY_THRESHOLD
        || PrimFloat.ltb c CONFIDENCE_THRESHOLD
    | _, _ => true
    end.

Section Metrics.
(** [str.strip], [len] on code points, and the two rapidfuzz metrics
    [distance.Levenshtein.distance] and [fuzz.ratio] are library
    functions outside the repository. *)
Variable strip : string -> string.
Variable len : string -> nat.
Variable Levenshtein_distance : string -> string -> nat.
Variable fuzz_ratio : string -> string -> float.

Definition is_empty (s : string) : bool := String.eqb s "".

Definition calculate_levenshtein_similarity
    (raw_text interpreted_text : option string) : float :=
  match raw_text, interpreted_text with
  | None, None => 1%float
  | None, Some _ | Some _, None => 0%float
  | Some r, Some i =>
      if is_empty r && is_empty i then 1%float
      else if is_empty r || is_empty i then 0%float
      else
        let r := strip r in
        let i := strip i in
        let max_len := Nat.max (len r) (len i) in
        if Nat.eqb max_len 0 then 1%float
        else
          (1 - float_of_nat (Levenshtein_distance r i)
               / float_of_nat max_len)%float
  end.

Definition calculate_semantic_similarity
    (raw_text interpreted_text : option string) : float :=
  match raw_text, interpreted_text with
  | None, None => 1%float
  | None, Some _ | Some _, None => 0%float
  | Some r, Some i =>
      let r := strip r in
      let i := strip i in
      if is_empty r && is_empty i then 1%float
      else if is_empty r || is_empty i then 0%float
      else (fuzz_ratio r i / 100)%float
  end.
End Metrics.

End similarity_service.

(** ** db/models.py: the rows of one chart *)

Inductive ProcessStatus : Type :=
| PENDING | PROCESSING | COMPLETED | FAILED | PARTIAL_SUCCESS.

Record Chart : Type := {
  status : ProcessStatus;
  error_message : option string;
  overall_confidence_score : option float;
  needs_review : bool;
  reviewed_by : json;
  reviewed_at : option string;
  template_id : option string
}.

Record ExtractedData : Type := {
  id : Z;
  data : pydict
}.

(** The [charts] row and the [extracted_data] row of the chart id at hand *)
Record Db : Type := {
  chart_row : option Chart;
  extracted_row : option ExtractedData
}.

Definition set_status (c : Chart) (s : ProcessStatus) : Chart :=
  {| status := s; error_message := error_message c;
     overall_confidence_score := overall_confidence_score c;
     needs_review := needs_review c; reviewed_by := reviewed_by c;
     reviewed_at := reviewed_at c; template_id := template_id c |}.

Definition set_error_message (c : Chart) (m : string) : Chart :=
  {| status := status c; error_message := Some m;
     overall_confidence_score := overall_confidence_score c;
     needs_review := needs_review c; reviewed_by := reviewed_by c;
     reviewed_at := reviewed_at c; template_id := template_id c |}.

Definition set_needs_review (c : Chart) (b : bool) : Chart :=
  {| status := status c; error_message := error_message c;
     overall_confidence_score := overall_confidence_score c;
     needs_review := b; reviewed_by := reviewed_by c;
     reviewed_at := reviewed_at c; template_id := template_id c |}.

Definition set_overall_confidence_score (c : Chart) (x : float) : Chart :=
  {| status := status c; error_message := error_message c;
     overall_confidence_score := Some x;
     needs_review := needs_review c; reviewed_by := reviewed_by c;
     reviewed_at := reviewed_at c; template_id := template_id c |}.

Definition set_reviewed (c : Chart) (who : json) (when : string) : Chart :=
  {| status := status c; error_message := error_message c;
     overall_confidence_score := overall_confidence_score c;
     needs_review := needs_review c; reviewed_by := who;
     reviewed_at := Some when; template_id := template_id c |}.

Definition with_chart (db : Db) (c : Chart) : Db :=
  {| chart_row := Some c; extracted_row := extracted_row db |}.

Definition with_extracted (db : Db) (e : ExtractedData) : Db :=
  {| chart_row := chart_row db; extracted_row := Some e |}.

Definition with_data (e : ExtractedData) (d : pydict) : ExtractedData :=
  {| id := id e; data := d |}.

(** ** db_service.py: chart status and review aggregate *)

Module db_service.

Definition get_chart_by_id (db : Db) : option Chart := chart_row db.

Definition get_extracted_data_by_chart_id (db : Db) : option ExtractedData :=
  extracted_row db.

(** The writes of the chart row, a status, a message and the review
    flags, are taken to succeed; the write the database can refuse is the
    insert of the document, see [create_extracted_data_jsonb]. *)
Definition update_chart_status
    (db : Db) (st : ProcessStatus) (error_message : option string) : Db :=
  match get_chart_by_id db with
  | None => db
  | Some chart =>
      let chart := set_status chart st in
      let chart :=
        match error_message with
        | Some m => if String.eqb m "" then chart else set_error_message chart m
        | None => chart
        end in
      with_chart db chart
  end.

(** [now] is the value [datetime.now()] returns at the call. *)
Definition update_chart_review_status
    (now : string) (db : Db) (needs_review : bool)
    (overall_confidence_score : option float) (reviewed_by : json) : Db :=
  match get_chart_by_id db with
  | None => db
  | Some chart =>
      let chart := set_needs_review chart needs_review in
      let chart :=
        match overall_confidence_score with
        | Some x => set_overall_confidence_score chart x
        | None => chart
        end in
      let chart :=
        if truthy reviewed_by && negb needs_review
        then set_reviewed chart reviewed_by now
        else chart in
      with_chart db chart
  end.

(** The row of [extracted_data] references [charts.id]: the insert is
    refused when the chart row is missing.  [commit] is what [db.add] and
    [db.commit] do with the document: the database may refuse it, as
    PostgreSQL refuses a text that holds the character U+0000.  Whatever
    is raised is raised again after [db.rollback()], which also undoes
    the deletion of the row that was there.  [new_id] is the key the
    sequence gives the new row. *)
Definition create_extracted_data_jsonb
    (commit : pydict -> pyresult unit)
    (now : string) (new_id : Z) (db : Db) (data : pydict)
    (overall_confidence_score : option float) (needs_review : bool)
    : Db * pyresult ExtractedData :=
  match chart_row db with
  | None => (db, Raised IntegrityError)
  | Some _ =>
      match commit data with
      | Raised e => (db, Raised e)
      | Returned _ =>
          let extracted_data := {| id := new_id; data := data |} in
          let db := with_extracted db extracted_data in
          let db :=
            update_chart_review_status now db needs_review
              overall_confidence_score JNull in
          (db, Returned extracted_data)
      end
  end.

(** *** Reading the two layouts *)

(** Values the model does not follow: a non-string key of a set or of a
    dictionary, a comparison of containers or of an [int] with a [float]. *)
Definition Unmodelled : exn := PyExc "Unmodelled" "outside the JSON document type".

Definition special_keys : list string :=
  ["raw_items"; "interpreted_items"; "template_id"; "template_name";
   "review_items"].

(** [key in ["raw_items", "interpreted_items", ...]] *)
Definition is_special_key (key : string) : bool :=
  existsb (String.eqb key) special_keys.

(** The elements a [for] loop sees.  The characters of a string are given
    as one-byte strings; only their not being dictionaries matters. *)
Definition py_iter (v : json) : pyresult (list json) :=
  match v with
  | JList l => Returned l
  | JDict d => Returned (map JStr (dkeys d))
  | JStr s => Returned (map (fun c => JStr (String c EmptyString))
                          (list_ascii_of_string s))
  | _ => Raised TypeError
  end.

Definition hashable (v : json) : bool :=
  match v with
  | JList _ | JDict _ => false
  | _ => true
  end.

(** [data["review_items"]] when the key is present and holds a list *)
Definition review_items_array (data : pydict) : option (list json) :=
  match dget "review_items" data with
  | Some (JList l) => Some l
  | _ => None
  end.

Definition unified_item (extracted_id : Z) (name : json) (item : pydict)
    : pydict :=
  [ ("id", JInt extracted_id);
    ("item_name", name);
    ("raw_text", jget "raw_text" item);
    ("interpreted_text", jget "interpreted_text" item);
    ("similarity_score", jget "similarity_score" item);
    ("confidence_score", jget "confidence_score" item);
    ("needs_review", dget_default "needs_review" (JBool false) item);
    ("review_comment", jget "review_comment" item);
    ("reviewed_by", jget "reviewed_by" item);
    ("reviewed_at", jget "reviewed_at" item);
    ("threshold", dget_default "threshold" (JNum 0.7%float) item);
    ("error_occurred", dget_default "error_occurred" (JBool false) item) ].

(** Step 1 of [get_all_items_unified] *)
Definition unified_from_array (extracted_id : Z) (review_items : list json)
    : list pydict :=
  flat_map
    (fun item =>
       match item with
       | JDict d =>
           if truthy (jget "item_name" d)
           then [unified_item extracted_id (jget "item_name" d) d]
           else []
       | _ => []
       end)
    review_items.

(** Step 2 of [get_all_items_unified] *)
Definition unified_from_legacy (extracted_id : Z) (existing_names : list json)
    (data : pydict) : list pydict :=
  flat_map
    (fun kv =>
       let key := fst kv in
       if is_special_key key then []
       else if existsb (fun n => json_eq_str n key) existing_names then []
       else
         match snd kv with
         | JDict value => [unified_item extracted_id (JStr key) value]
         | _ => []
         end)
    data.

Definition get_all_items_unified (db : Db) : pyresult (list pydict) :=
  match get_extracted_data_by_chart_id db with
  | None => Returned []
  | Some extracted_data =>
      let unified_items :=
        match review_items_array (data extracted_data) with
        | Some review_items => unified_from_array (id extracted_data) review_items
        | None => []
        end in
      let existing_names := map (jget "item_name") unified_items in
      if forallb hashable existing_names
      then Returned
             (unified_items
              ++ unified_from_legacy (id extracted_data) existing_names
                   (data extracted_data))%list
      else Raised TypeError
  end.

Definition find_item_by_name (items : list pydict) (item_name : string)
    : option pydict :=
  find (fun item => json_eq_str (jget "item_name" item) item_name) items.

(** *** [get_review_items] *)

(** [dict.setdefault]-like step of [get_review_items]:
    [if k not in item_copy: item_copy[k] = v] *)
Definition set_if_missing (k : string) (v : json) (d : pydict) : pydict :=
  if dmem k d then d else dset k v d.

(** The elements of a set comprehension over [item.get("item_name")] that
    can equal a string *)
Fixpoint string_names (values : list json) : pyresult (list string) :=
  match values with
  | [] => Returned []
  | v :: rest =>
      match v with
      | JStr s => names <- string_names rest ;; Returned (s :: names)
      | JList _ | JDict _ => Raised TypeError
      | _ => string_names rest
      end
  end.

(** The names collected from [raw_items] or [interpreted_items]; a name
    that is not a string is not followed. *)
Fixpoint mirror_names (items : list json) : pyresult (list string) :=
  match items with
  | [] => Returned []
  | JDict d :: rest =>
      match dget "item_name" d with
      | None => mirror_names rest
      | Some (JStr s) => names <- mirror_names rest ;; Returned (s :: names)
      | Some (JList _) | Some (JDict _) => Raised TypeError
      | Some _ => Raised Unmodelled
      end
  | _ :: rest => mirror_names rest
  end.

(** [{item["item_name"]: item.get(field) for item in items if ...}] *)
Definition mirror_dict (field : string) (items : list json) : pydict :=
  fold_left
    (fun acc item =>
       match item with
       | JDict d =>
           match dget "item_name" d with
           | Some (JStr s) => dset s (jget field d) acc
           | _ => acc
           end
       | _ => acc
       end)
    items [].

Definition restored_item (extracted_id : Z) (item_name : string)
    (raw_text interpreted_text : json) : pydict :=
  [ ("id", JInt extracted_id);
    ("item_name", JStr item_name);
    ("raw_text", raw_text);
    ("interpreted_text", interpreted_text);
    ("similarity_score", JNum 1%float);
    ("confidence_score", JNum 0.8%float);
    ("needs_review", JBool false);
    ("review_comment", JNull);
    ("reviewed_by", JNull);
    ("reviewed_at", JNull);
    ("error_occurred", JBool false);
    ("threshold", JNum 0.7%float) ].

Section ReviewItems.
(** The iteration order of the set [item_names] *)
Variable set_order : list string -> list string.

Definition get_review_items (db : Db) (get_all_items : bool)
    : pyresult (list pydict) :=
  match get_extracted_data_by_chart_id db with
  | None => Returned []
  | Some extracted_data =>
      let data := data extracted_data in
      let extracted_id := id extracted_data in
      let review_items_from_array :=
        match review_items_array data with
        | Some l =>
            flat_map
              (fun item =>
                 match item with
                 | JDict d =>
                     if get_all_items
                        || truthy (dget_default "needs_review" (JBool false) d)
                     then [dset "id" (JInt extracted_id) d]
                     else []
                 | _ => []
                 end)
              l
        | None => []
        end in
      items_in_array <-
        string_names
          (filter truthy (map (jget "item_name") review_items_from_array)) ;;
      raw_items <- py_iter (dget_default "raw_items" (JList []) data) ;;
      raw_names <- mirror_names raw_items ;;
      interpreted_items <-
        py_iter (dget_default "interpreted_items" (JList []) data) ;;
      interpreted_names <- mirror_names interpreted_items ;;
      let item_names :=
        set_order (nodup string_dec (raw_names ++ interpreted_names)%list) in
      let raw_dict := mirror_dict "raw_text" raw_items in
      let interpreted_dict := mirror_dict "interpreted_text" interpreted_items in
      let review_items :=
        flat_map
          (fun kv =>
             let key := fst kv in
             if is_special_key key then []
             else if existsb (String.eqb key) items_in_array then []
             else
               match snd kv with
               | JDict value =>
                   if get_all_items
                      || truthy (dget_default "needs_review" (JBool false) value)
                   then
                     let item_copy := dset "id" (JInt extracted_id) value in
                     let item_copy := dset "item_name" (JStr key) item_copy in
                     let item_copy :=
                       set_if_missing "threshold" (JNum 0.7%float) item_copy in
                     let item_copy := set_if_missing "review_comment" JNull item_copy in
                     let item_copy := set_if_missing "reviewed_by" JNull item_copy in
                     let item_copy := set_if_missing "reviewed_at" JNull item_copy in
                     [set_if_missing "error_occurred" (JBool false) item_copy]
                   else []
               | _ => []
               end)
          data in
      let review_items :=
        match review_items with
        | [] =>
            if get_all_items
            then
              flat_map
                (fun item_name =>
                   if existsb (String.eqb item_name) items_in_array then []
                   else [restored_item extracted_id item_name
                           (jget item_name raw_dict)
                           (jget item_name interpreted_dict)])
                item_names
            else []
        | _ => review_items
        end in
      Returned (review_items ++ review_items_from_array)%list
  end.
End ReviewItems.

(** *** The chart aggregate after an item update *)

Definition as_int (v : json) : Z :=
  match v with
  | JInt n => n
  | JBool true => 1%Z
  | _ => 0%Z
  end.

(** [a > b] *)
Definition py_gt (a b : json) : pyresult bool :=
  match a, b with
  | JStr x, JStr y => Returned (String.ltb y x)
  | JNum x, JNum y => Returned (PrimFloat.ltb y x)
  | (JInt _ | JBool _), (JInt _ | JBool _) =>
      Returned (Z.ltb (as_int b) (as_int a))
  | (JInt _ | JBool _), JNum _ | JNum _, (JInt _ | JBool _) => Raised Unmodelled
  | JList _, JList _ => Raised Unmodelled
  | _, _ => Raised TypeError
  end.

(** [max(rest, key=key)] once [best] is the largest so far: an element
    replaces it only when its key is strictly greater. *)
Fixpoint max_from (key : pydict -> json) (best : pydict) (rest : list pydict)
    : pyresult pydict :=
  match rest with
  | [] => Returned best
  | x :: rest' =>
      gt <- py_gt (key x) (key best) ;;
      max_from key (if gt then x else best) rest'
  end.

(** [max(items, key=key, default=None)] *)
Definition py_max (key : pydict -> json) (items : list pydict)
    : pyresult (option pydict) :=
  match items with
  | [] => Returned None
  | x :: rest => best <- max_from key x rest ;; Returned (Some best)
  end.

(** The two values [update_chart_review_status_after_item_update] computes
    from the list of items: [needs_review] and [reviewed_by]. *)
Definition review_aggregate (review_items : list pydict)
    : pyresult (bool * json) :=
  let needs_review :=
    existsb
      (fun item => truthy (dget_default "needs_review" (JBool false) item))
      review_items in
  if negb needs_review && negb (Nat.eqb (length review_items) 0)
  then
    latest_item <-
      py_max (fun x => dget_default "reviewed_at" (JStr "") x)
        (filter (fun item => truthy (jget "reviewed_at" item)) review_items) ;;
    match latest_item with
    | Some item =>
        if truthy (JDict item)
        then Returned (needs_review, jget "reviewed_by" item)
        else Returned (needs_review, JNull)
    | None => Returned (needs_review, JNull)
    end
  else Returned (needs_review, JNull).

Definition update_chart_review_status_after_item_update
    (set_order : list string -> list string) (now : string) (db : Db)
    : Db * pyresult unit :=
  match get_review_items set_order db true with
  | Raised e => (db, Raised e)
  | Returned review_items =>
      match review_aggregate review_items with
      | Raised e => (db, Raised e)
      | Returned (needs_review, reviewed_by) =>
          (update_chart_review_status now db needs_review None reviewed_by,
           Returned tt)
      end
  end.

(** *** [update_item_review_status] *)

(** [dict(v)] *)
Definition py_dict (v : json) : pyresult pydict :=
  match v with
  | JDict d => Returned d
  | JList [] => Returned []
  | JStr EmptyString => Returned []
  | JList (_ :: _) => Raised Unmodelled
  | JStr (String _ _) => Raised (PyExc "ValueError" "dictionary update sequence")
  | _ => Raised TypeError
  end.

(** [l[i] = v] for an index within the list *)
Fixpoint list_set (A : Type) (i : nat) (v : A) (l : list A) : list A :=
  match l, i with
  | [], _ => []
  | _ :: rest, O => v :: rest
  | x :: rest, S i' => x :: list_set i' v rest
  end.

(** The index of the first dictionary of the list that carries the name *)
Fixpoint find_index (item_name : string) (l : list json) : option nat :=
  match l with
  | [] => None
  | item :: rest =>
      match item with
      | JDict d =>
          if json_eq_str (jget "item_name" d) item_name then Some O
          else option_map S (find_index item_name rest)
      | _ => option_map S (find_index item_name rest)
      end
  end.

Definition text_or (default : string) (t : option string) : string :=
  match t with
  | Some s => if String.eqb s "" then default else s
  | None => default
  end.

Definition review_patch (now : string)
    (interpreted_text review_comment reviewed_by : option string)
    (item : pydict) : pydict :=
  let item :=
    match interpreted_text with
    | Some t => dset "interpreted_text" (JStr t) item
    | None => item
    end in
  let item :=
    match review_comment with
    | Some c => dset "review_comment" (JStr c) item
    | None => item
    end in
  let item := dset "needs_review" (JBool false) item in
  let item := dset "reviewed_by" (JStr (text_or "システム" reviewed_by)) item in
  dset "reviewed_at" (JStr now) item.

Definition update_item_review_status (now later : string) (db : Db)
    (item_name : string)
    (interpreted_text review_comment reviewed_by : option string)
    : Db * pyresult (option ExtractedData * bool) :=
  match get_extracted_data_by_chart_id db with
  | None => (db, Returned (None, false))
  | Some extracted_data =>
      let updated :=
        match review_items_array (data extracted_data) with
        | Some review_items =>
            match find_index item_name review_items with
            | None => Returned None
            | Some item_index =>
                updated_item_copy <- py_dict (nth item_index review_items JNull) ;;
                let updated_item_copy :=
                  review_patch now interpreted_text review_comment reviewed_by
                    updated_item_copy in
                let review_items :=
                  list_set item_index (JDict updated_item_copy) review_items in
                let updated_data_copy :=
                  dset "review_items" (JList review_items) (data extracted_data) in
                let still_needs_review :=
                  existsb
                    (fun item =>
                       match item with
                       | JDict d =>
                           truthy (dget_default "needs_review" (JBool false) d)
                       | _ => false
                       end)
                    review_items in
                Returned (Some (updated_data_copy, still_needs_review))
            end
        | None =>
            match dget item_name (data extracted_data) with
            | None => Returned None
            | Some item_data =>
                updated_item_copy <- py_dict item_data ;;
                let updated_item_copy :=
                  review_patch now interpreted_text review_comment reviewed_by
                    updated_item_copy in
                let updated_data_copy :=
                  dset item_name (JDict updated_item_copy) (data extracted_data) in
                let still_needs_review :=
                  existsb
                    (fun v =>
                       match v with
                       | JDict d =>
                           truthy (dget_default "needs_review" (JBool false) d)
                       | _ => false
                       end)
                    (map snd updated_data_copy) in
                Returned (Some (updated_data_copy, still_needs_review))
            end
        end in
      match updated with
      | Raised e => (db, Raised e)
      | Returned None => (db, Returned (None, false))
      | Returned (Some (updated_data_copy, still_needs_review)) =>
          let extracted_data := with_data extracted_data updated_data_copy in
          let db := with_extracted db extracted_data in
          let db :=
            update_chart_review_status later db still_needs_review None
              (if still_needs_review then JNull else json_of_text reviewed_by) in
          (db, Returned (Some extracted_data, still_needs_review))
      end
  end.

(** *** [convert_to_standard_format] *)

(** The first loop: one top-level entry per named record of the array *)
Fixpoint standard_entries (review_items : list json) (standard_format : pydict)
    : pyresult pydict :=
  match review_items with
  | [] => Returned standard_format
  | JDict item :: rest =>
      match dget "item_name" item with
      | None => standard_entries rest standard_format
      | Some (JStr item_name) =>
          let item_data :=
            filter (fun kv => negb (String.eqb (fst kv) "item_name")) item in
          standard_entries rest (dset item_name (JDict item_data) standard_format)
      | Some (JList _) | Some (JDict _) => Raised TypeError
      | Some _ => Raised Unmodelled
      end
  | _ :: rest => standard_entries rest standard_format
  end.

(** The second loop: the other top-level keys are kept *)
Definition keep_metadata (data standard_format : pydict) : pydict :=
  fold_left
    (fun acc kv =>
       if negb (String.eqb (fst kv) "review_items") && negb (dmem (fst kv) acc)
       then dset (fst kv) (snd kv) acc
       else acc)
    data standard_format.

Definition to_standard_format (data : pydict) : pyresult pydict :=
  match review_items_array data with
  | None => Returned data
  | Some review_items =>
      standard_format <- standard_entries review_items [] ;;
      Returned (keep_metadata data standard_format)
  end.

Definition convert_to_standard_format (db : Db) : Db * pyresult bool :=
  match get_extracted_data_by_chart_id db with
  | None => (db, Returned false)
  | Some extracted_data =>
      match review_items_array (data extracted_data) with
      | None => (db, Returned true)
      | Some _ =>
          match to_standard_format (data extracted_data) with
          | Raised e => (db, Raised e)
          | Returned standard_format =>
              (with_extracted db (with_data extracted_data standard_format),
               Returned true)
          end
      end
  end.

End db_service.

(** ** gemini_service.py: the retry loop around one provider call *)

Module gemini_service.

(** What one pass through the body of the [while] loop does: it returns a
    value, raises, or falls through to the [break]. *)
Inductive attempt (A : Type) : Type :=
| AttemptReturns (a : A)
| AttemptRaises (e : exn)
| AttemptBreaks.
Arguments AttemptReturns {A} a.
Arguments AttemptRaises {A} e.
Arguments AttemptBreaks {A}.

Definition max_retries : nat := 3.

(** [while retries <= max_retries], with [remaining] the number of passes
    the condition still allows, [max_retries + 1 - retries].  The sleep
    between two passes has no effect on the result. *)
Fixpoint retry_from (A : Type) (unexpected : string)
    (outcome : nat -> attempt A) (retries remaining : nat) : pyresult A :=
  match remaining with
  | O => Raised (PyExc "RuntimeError" unexpected)
  | S remaining' =>
      match outcome retries with
      | AttemptReturns a => Returned a
      | AttemptBreaks => Raised (PyExc "RuntimeError" unexpected)
      | AttemptRaises e =>
          match remaining' with
          | O => Raised e
          | S _ => retry_from unexpected outcome (S retries) remaining'
          end
      end
  end.

Definition extract_raw_data_from_image (A : Type)
    (outcome : nat -> attempt A) : pyresult A :=
  retry_from "Unexpected execution flow in extract_raw_data_from_image"
    outcome 0 (S max_retries).

Definition interpret_extracted_data (A : Type)
    (outcome : nat -> attempt A) : pyresult A :=
  retry_from "Unexpected execution flow in interpret_extracted_data"
    outcome 0 (S max_retries).

End gemini_service.

(** ** tasks/process_chart.py *)

(** The items of the two stages, [{item_name, raw_text}] and
    [{item_name, interpreted_text}], objects with a name that is a string
    and a text that is a string or null; [None] is the null.
    [process_extracted_items] reads the text with [item.get], so there an
    item without the key of the text is the item whose text is null.  The
    run with a template subscripts the key of the text: there the items
    are the ones that carry it, an item without it raises [KeyError] in
    the [try] block and is no item of this type. *)
Record RawItem : Type := {
  item_name : string;
  raw_text : option string
}.

Record InterpretedItem : Type := {
  interpreted_item_name : string;
  interpreted_text : option string
}.

Module process_chart.

Import similarity_service.

Definition default_keys : list string :=
  ["主訴"; "現病歴"; "既往歴"; "家族歴"; "生活歴"; "内服薬"; "身体所見"].

Definition default_raw_items : list RawItem :=
  map (fun k => {| item_name := k; raw_text := Some "" |}) default_keys.

(** [d.get(key)] on a dictionary of optional texts *)
Definition text_get (key : string) (d : dict (option string)) : option string :=
  match dget key d with Some t => t | None => None end.

Definition is_None (A : Type) (o : option A) : bool :=
  match o with None => true | Some _ => false end.

(** [v.get(k)] for a record stored in the document *)
Definition record_get (k : string) (v : json) : json :=
  match v with JDict d => jget k d | _ => JNull end.

(** The generator of the [elif any(...)] in [run_extraction_task] *)
Definition any_error_occurred (jsonb_data : pydict) : bool :=
  existsb
    (fun item_data =>
       match item_data with
       | JDict d =>
           dmem "error_occurred" d
           && truthy (dget_default "error_occurred" (JBool false) d)
       | _ => false
       end)
    (map snd jsonb_data).

Definition py_sum (l : list float) : float :=
  fold_left PrimFloat.add l 0%float.

Definition confidence_of (item : json) : float :=
  match json_number (record_get "confidence_score" item) with
  | Some x => x
  | None => 0%float
  end.

(** The locals of one pass of the loop of [process_extracted_items] *)
Record ItemScore : Type := {
  sc_raw_text : option string;
  sc_interpreted_text : option string;
  sc_similarity_score : float;
  sc_confidence_score : float;
  sc_needs_review : bool;
  sc_error_occurred : bool
}.

Definition item_data (sc : ItemScore) : pydict :=
  [ ("raw_text", json_of_text (sc_raw_text sc));
    ("interpreted_text", json_of_text (sc_interpreted_text sc));
    ("similarity_score", JNum (sc_similarity_score sc));
    ("confidence_score", JNum (sc_confidence_score sc));
    ("needs_review", JBool (sc_needs_review sc));
    ("review_comment", JNull);
    ("reviewed_by", JNull);
    ("reviewed_at", JNull);
    ("error_occurred", JBool (sc_error_occurred sc));
    ("threshold", JNum 0.7%float) ].

Section Task.
Variable strip : string -> string.
Variable len : string -> nat.
Variable Levenshtein_distance : string -> string -> nat.
Variable fuzz_ratio : string -> string -> float.

(** The order in which a Python [set] of strings is iterated is not
    specified: any arrangement of its elements. *)
Variable set_order : list string -> list string.
Hypothesis set_order_perm : forall l, Permutation (set_order l) l.

(** The elements of [set(l)], in iteration order *)
Definition py_set (l : list string) : list string :=
  set_order (nodup string_dec l).

Definition raw_dict_of (raw_items : list RawItem) : dict (option string) :=
  fold_left (fun d item => dset (item_name item) (raw_text item) d)
    raw_items [].

Definition interpreted_dict_of (interpreted_items : list InterpretedItem)
    : dict (option string) :=
  fold_left
    (fun d item => dset (interpreted_item_name item) (interpreted_text item) d)
    interpreted_items [].

(** The body of [for key in all_keys]: the locals up to
    [item_needs_review], then [item_data] *)
Definition score_item (raw_dict interpreted_dict : dict (option string))
    (key : string) : ItemScore :=
  let raw_text := text_get key raw_dict in
  let interpreted_text := text_get key interpreted_dict in
  let error_occurred := is_None raw_text || is_None interpreted_text in
  let fallback := is_None interpreted_text && negb (is_None raw_text) in
  let interpreted_text := if fallback then raw_text else interpreted_text in
  let error_occurred := if fallback then true else error_occurred in
  let similarity_score :=
    if negb error_occurred
    then calculate_levenshtein_similarity strip len Levenshtein_distance
           raw_text interpreted_text
    else 0%float in
  let confidence_score :=
    if negb error_occurred
    then calculate_semantic_similarity strip fuzz_ratio
           raw_text interpreted_text
    else 0%float in
  let item_needs_review :=
    should_review (Some similarity_score) (Some confidence_score)
      error_occurred in
  {| sc_raw_text := raw_text;
     sc_interpreted_text := interpreted_text;
     sc_similarity_score := similarity_score;
     sc_confidence_score := confidence_score;
     sc_needs_review := item_needs_review;
     sc_error_occurred := error_occurred |}.

Definition item_data_of (raw_dict interpreted_dict : dict (option string))
    (key : string) : pydict :=
  item_data (score_item raw_dict interpreted_dict key).

Definition loop_body (raw_dict interpreted_dict : dict (option string))
    (acc : pydict * bool * list json) (key : string)
    : pydict * bool * list json :=
  let '(jsonb_data, needs_review, review_items) := acc in
  let sc := score_item raw_dict interpreted_dict key in
  let needs_review := if sc_needs_review sc then true else needs_review in
  let jsonb_data := dset key (JDict (item_data sc)) jsonb_data in
  let review_item := dset "item_name" (JStr key) (item_data sc) in
  (jsonb_data, needs_review, (review_items ++ [JDict review_item])%list).

Definition process_extracted_items
    (raw_items : list RawItem) (interpreted_items : list InterpretedItem)
    : pydict * bool * float :=
  let raw_dict := raw_dict_of raw_items in
  let interpreted_dict := interpreted_dict_of interpreted_items in
  let all_keys := py_set (dkeys raw_dict ++ dkeys interpreted_dict)%list in
  let all_keys :=
    if Nat.eqb (length all_keys) 0 then py_set default_keys else all_keys in
  let '(jsonb_data, needs_review, review_items) :=
    fold_left (loop_body raw_dict interpreted_dict) all_keys
      ([], false, []) in
  let unified_data : pydict :=
    [ ("review_items", JList review_items);
      ("template_id", JNull);
      ("template_name", JNull);
      ("raw_items",
        JList (map (fun kv =>
                      JDict [ ("item_name", JStr (fst kv));
                              ("raw_text", record_get "raw_text" (snd kv)) ])
                   jsonb_data));
      ("interpreted_items",
        JList (map (fun kv =>
                      JDict [ ("item_name", JStr (fst kv));
                              ("interpreted_text",
                                record_get "interpreted_text" (snd kv)) ])
                   jsonb_data)) ] in
  let jsonb_data := dupdate unified_data jsonb_data in
  let average_confidence :=
    match review_items with
    | [] => 1%float
    | _ => (py_sum (map confidence_of review_items)
            / float_of_nat (length review_items))%float
    end in
  (jsonb_data, needs_review, average_confidence).

(** What the database does with the document it is asked to store *)
Variable commit : pydict -> pyresult unit.

(** [download] is what [gcs_service.download_file_from_gcs] does,
    [stage1] and [stage2] what the passes of the two provider calls do. *)
Definition run_extraction_task (now : string) (new_id : Z)
    (gcs_uri : string)
    (download : pyresult (option string))
    (stage1 : nat -> gemini_service.attempt (list RawItem))
    (stage2 : nat -> gemini_service.attempt (list InterpretedItem))
    (db : Db) : Db :=
  let failed db (message : string) :=
    db_service.update_chart_status db FAILED (Some message) in
  let db := db_service.update_chart_status db PROCESSING None in
  match download with
  | Raised e => failed db ("Error processing chart: " ++ exn_str e)
  | Returned image_data =>
      if negb (truthy (json_of_text image_data))
      then failed db ("Failed to download image from " ++ gcs_uri)
      else
        match gemini_service.extract_raw_data_from_image stage1 with
        | Raised e =>
            failed db ("Error during raw text extraction: " ++ exn_str e)
        | Returned [] => failed db "Failed to extract raw data from image"
        | Returned ((_ :: _) as raw_items) =>
            let raw_items :=
              if Nat.eqb (length raw_items) 0
              then default_raw_items else raw_items in
            let '(interpreted_items, interpretation_error) :=
              match gemini_service.interpret_extracted_data stage2 with
              | Returned items => (items, None)
              | Raised e => ([], Some (exn_str e))
              end in
            let '(jsonb_data, needs_review, overall_confidence) :=
              process_extracted_items raw_items interpreted_items in
            let '(st, error_message, needs_review) :=
              if truthy (json_of_text interpretation_error)
              then (PARTIAL_SUCCESS,
                    Some ("Text interpretation failed: "
                          ++ match interpretation_error with
                             | Some m => m | None => "" end),
                    true)
              else if any_error_occurred jsonb_data
              then (PARTIAL_SUCCESS,
                    Some "Some items failed to process correctly",
                    needs_review)
              else (COMPLETED, None, needs_review) in
            match db_service.create_extracted_data_jsonb commit now new_id db
                    jsonb_data (Some overall_confidence) needs_review with
            | (db, Raised e) =>
                failed db ("Error processing chart: " ++ exn_str e)
            | (db, Returned _) =>
                db_service.update_chart_status db st error_message
            end
        end
  end.

End Task.

End process_chart.

(** ** routers/review.py *)

Record ItemUpdateRequest : Type := {
  req_item_name : string;
  req_interpreted_text : option string;
  req_review_comment : option string;
  req_reviewed_by : string
}.

Module review.

(** The assignments both update steps make to the record; [now] is
    [datetime.now().isoformat()]. *)
Definition apply_request (now : string) (item_update : ItemUpdateRequest)
    (item : pydict) : pydict :=
  let item :=
    match req_interpreted_text item_update with
    | Some t => dset "interpreted_text" (JStr t) item
    | None => item
    end in
  let item :=
    match req_review_comment item_update with
    | Some c => dset "review_comment" (JStr c) item
    | None => item
    end in
  let item := dset "reviewed_by" (JStr (req_reviewed_by item_update)) item in
  let item := dset "reviewed_at" (JStr now) item in
  dset "needs_review" (JBool false) item.

(** Step 1: the first record of [review_items] with the name is updated in
    place; [None] when no record carries the name. *)
Fixpoint update_in_array (now : string) (item_update : ItemUpdateRequest)
    (review_items : list json) : option (list json) :=
  match review_items with
  | [] => None
  | item :: rest =>
      match item with
      | JDict d =>
          if json_eq_str (jget "item_name" d) (req_item_name item_update)
          then Some (JDict (apply_request now item_update d) :: rest)
          else option_map (cons item) (update_in_array now item_update rest)
      | _ => option_map (cons item) (update_in_array now item_update rest)
      end
  end.

(** Step 2: the legacy entry is updated and mirrored into [review_items].
    An iterable that is not a list holds no dictionary, so no index is
    found in it and [append] is looked up on it. *)
Definition update_legacy (now : string) (item_update : ItemUpdateRequest)
    (item_data : pydict) (data : pydict) : pyresult pydict :=
  let item_name := req_item_name item_update in
  let item_data := apply_request now item_update item_data in
  let data := dset item_name (JDict item_data) data in
  let data :=
    if dmem "review_items" data then data
    else dset "review_items" (JList []) data in
  let review_items := jget "review_items" data in
  elements <- db_service.py_iter review_items ;;
  let existing_item_index := db_service.find_index item_name elements in
  let review_item := dset "item_name" (JStr item_name) item_data in
  match review_items with
  | JList l =>
      let l :=
        match existing_item_index with
        | Some i => db_service.list_set i (JDict review_item) l
        | None => (l ++ [JDict review_item])%list
        end in
      Returned (dset "review_items" (JList l) data)
  | _ => Raised AttributeError
  end.

(** Steps 1 to 3 on the document *)
Definition apply_update (now : string) (item_update : ItemUpdateRequest)
    (data : pydict) : pyresult pydict :=
  let item_name := req_item_name item_update in
  let step1 :=
    match db_service.review_items_array data with
    | Some review_items =>
        match update_in_array now item_update review_items with
        | Some review_items => Some (dset "review_items" (JList review_items) data)
        | None => None
        end
    | None => None
    end in
  match step1 with
  | Some data => Returned data
  | None =>
      match dget item_name data with
      | Some (JDict item_data) => update_legacy now item_update item_data data
      | _ =>
          Raised (HTTPException 500
                    ("Failed to update item '" ++ item_name ++ "'"))
      end
  end.

(** The fields of [ItemUpdateResponse] *)
Definition response (updated_item : pydict) : pydict :=
  [ ("id", dget_default "id" (JInt 0) updated_item);
    ("item_name", dget_default "item_name" (JStr "") updated_item);
    ("raw_text", jget "raw_text" updated_item);
    ("interpreted_text", jget "interpreted_text" updated_item);
    ("similarity_score", jget "similarity_score" updated_item);
    ("confidence_score", jget "confidence_score" updated_item);
    ("needs_review", dget_default "needs_review" (JBool false) updated_item);
    ("review_comment", jget "review_comment" updated_item);
    ("reviewed_by", jget "reviewed_by" updated_item);
    ("reviewed_at", jget "reviewed_at" updated_item) ].

(** [now] stamps the record, [later] is the reading of the clock when the
    chart row is written.  The document in memory is saved by the commit
    only; an exception before it leaves the stored rows as they were. *)
Definition update_item (set_order : list string -> list string)
    (now later : string) (item_id : Z) (item_update : ItemUpdateRequest)
    (db : Db) : Db * pyresult pydict :=
  let item_name := req_item_name item_update in
  match db_service.get_chart_by_id db with
  | None => (db, Raised (HTTPException 404 "Chart not found"))
  | Some _ =>
  match db_service.get_extracted_data_by_chart_id db with
  | None => (db, Raised (HTTPException 404 "Extracted data not found"))
  | Some extracted_data =>
  if negb (Z.eqb (id extracted_data) item_id)
  then (db, Raised (HTTPException 404 "Item ID does not match extracted data ID"))
  else
  match db_service.get_all_items_unified db with
  | Raised e => (db, Raised e)
  | Returned all_items =>
  match db_service.find_item_by_name all_items item_name with
  | None =>
      (db, Raised (HTTPException 404 ("Item '" ++ item_name ++ "' not found")))
  | Some _ =>
  match apply_update now item_update (data extracted_data) with
  | Raised e => (db, Raised e)
  | Returned data' =>
  let db := with_extracted db (with_data extracted_data data') in
  match db_service.get_all_items_unified db with
  | Raised e => (db, Raised e)
  | Returned updated_items =>
  match db_service.find_item_by_name updated_items item_name with
  | None => (db, Raised (HTTPException 500 "Failed to retrieve updated item"))
  | Some updated_item =>
  match db_service.update_chart_review_status_after_item_update
          set_order later db with
  | (db, Raised e) => (db, Raised e)
  | (db, Returned _) => (db, Returned (response updated_item))
  end end end end end end end end.

End review.

(** The read endpoint of routers/review.py *)

Module review_routes.

(** The fields of [ExtractedItemDetail] *)
Definition item_detail (item : pydict) : pydict :=
  [ ("id", dget_default "id" (JInt 0) item);
    ("item_name", dget_default "item_name" (JStr "") item);
    ("raw_text", jget "raw_text" item);
    ("interpreted_text", jget "interpreted_text" item);
    ("similarity_score", jget "similarity_score" item);
    ("confidence_score", jget "confidence_score" item);
    ("needs_review", dget_default "needs_review" (JBool true) item);
    ("review_comment", jget "review_comment" item);
    ("reviewed_by", jget "reviewed_by" item);
    ("reviewed_at", jget "reviewed_at" item) ].

(** [GET /{chart_id}/review-items] *)
Definition get_review_items (set_order : list string -> list string)
    (get_all_items : bool) (db : Db) : pyresult (list pydict) :=
  match db_service.get_chart_by_id db with
  | None => Raised (HTTPException 404 "Chart not found")
  | Some chart =>
      match status chart with
      | COMPLETED | PARTIAL_SUCCESS =>
          review_items <- db_service.get_review_items set_order db get_all_items ;;
          Returned (map item_detail review_items)
      | _ => Returned []
      end
  end.

End review_routes.

(** ** services/chart_service.py: the thresholds of a template run *)

Module chart_service.

(** [next((item for item in template_items if item['name'] == item_name),
    None)] *)
Fixpoint find_template_item (template_items : list pydict) (item_name : string)
    : pyresult (option pydict) :=
  match template_items with
  | [] => Returned None
  | item :: rest =>
      match dget "name" item with
      | None => Raised (KeyError "name")
      | Some name =>
          if json_eq_str name item_name then Returned (Some item)
          else find_template_item rest item_name
      end
  end.

(** The two thresholds of a field, lines 203 to 209 *)
Definition item_thresholds (template_item : option pydict) : json * json :=
  match template_item with
  | None => (JNum 0.85%float, JNum 0.90%float)
  | Some item =>
      let text_similarity_threshold :=
        dget_default "text_similarity_threshold" (JNum 0.85%float) item in
      let vector_similarity_threshold :=
        dget_default "vector_similarity_threshold" (JNum 0.90%float) item in
      let text_similarity_threshold :=
        if negb (truthy (jget "text_similarity_threshold" item))
        then dget_default "confidence_threshold" (JNum 0.85%float) item
        else text_similarity_threshold in
      let vector_similarity_threshold :=
        if negb (truthy (jget "vector_similarity_threshold" item))
        then dget_default "confidence_threshold" (JNum 0.90%float) item
        else vector_similarity_threshold in
      (text_similarity_threshold, vector_similarity_threshold)
  end.

(** [score < threshold] for a score that is a float *)
Definition score_lt (score : float) (threshold : json) : pyresult bool :=
  match json_number threshold with
  | Some t => Returned (PrimFloat.ltb score t)
  | None => Raised TypeError
  end.

(** [item_needs_review], lines 229 to 232; the second comparison is made
    only when the first is false. *)
Definition item_needs_review (text_similarity_score vector_similarity_score : float)
    (text_similarity_threshold vector_similarity_threshold : json)
    : pyresult bool :=
  below <- score_lt text_similarity_score text_similarity_threshold ;;
  if below then Returned true
  else score_lt vector_similarity_score vector_similarity_threshold.

Section TemplateRun.
Variable strip : string -> string.
Variable len : string -> nat.
Variable Levenshtein_distance : string -> string -> nat.
Variable fuzz_ratio : string -> string -> float.

(** One pass of the loop over [raw_items]: the record of the field and
    its review decision.  [raw_item["raw_text"]] and
    [interpreted_items[i]["interpreted_text"]] are read from items that
    carry the key; a text that is [None] is the JSON null. *)
Definition review_item_of (template_items : list pydict)
    (raw_item : RawItem) (interpreted : InterpretedItem)
    : pyresult (pydict * bool * float) :=
  let item_name := item_name raw_item in
  template_item <- find_template_item template_items item_name ;;
  let '(text_similarity_threshold, vector_similarity_threshold) :=
    item_thresholds template_item in
  let raw_text := raw_text raw_item in
  let interpreted_text := interpreted_text interpreted in
  let error_occurred :=
    process_chart.is_None raw_text || process_chart.is_None interpreted_text in
  let text_similarity_score :=
    if negb error_occurred
    then similarity_service.calculate_levenshtein_similarity strip len
           Levenshtein_distance raw_text interpreted_text
    else 0%float in
  let vector_similarity_score :=
    if negb error_occurred
    then similarity_service.calculate_semantic_similarity strip fuzz_ratio
           raw_text interpreted_text
    else 0%float in
  needs_review <-
    item_needs_review text_similarity_score vector_similarity_score
      text_similarity_threshold vector_similarity_threshold ;;
  let combined_confidence :=
    ((text_similarity_score + vector_similarity_score) / 2)%float in
  Returned
    ([ ("item_name", JStr item_name);
       ("raw_text", json_of_text raw_text);
       ("interpreted_text", json_of_text interpreted_text);
       ("text_similarity_score", JNum text_similarity_score);
       ("vector_similarity_score", JNum vector_similarity_score);
       ("text_similarity_threshold", text_similarity_threshold);
       ("vector_similarity_threshold", vector_similarity_threshold);
       ("confidence_score", JNum vector_similarity_score);
       ("similarity_score", JNum text_similarity_score);
       ("threshold", vector_similarity_threshold);
       ("needs_review", JBool needs_review);
       ("review_comment", JNull);
       ("reviewed_by", JNull);
       ("reviewed_at", JNull);
       ("error_occurred", JBool error_occurred) ],
     needs_review, combined_confidence).

(** The loop [for i, raw_item in enumerate(raw_items)]: the records, the
    flag of the chart and the sum of the confidences *)
Fixpoint review_items_of (template_items : list pydict)
    (raw_items : list RawItem) (interpreted_items : list InterpretedItem)
    (acc : list json * bool * float) : pyresult (list json * bool * float) :=
  match raw_items with
  | [] => Returned acc
  | raw_item :: raw_rest =>
      match interpreted_items with
      | [] => Raised IndexError
      | interpreted :: interpreted_rest =>
          let '(review_items, needs_review, total_confidence) := acc in
          r <- review_item_of template_items raw_item interpreted ;;
          let '(review_item, item_needs_review, combined_confidence) := r in
          review_items_of template_items raw_rest interpreted_rest
            ((review_items ++ [JDict review_item])%list,
             (if item_needs_review then true else needs_review),
             (total_confidence + combined_confidence)%float)
      end
  end.
End TemplateRun.

(** *** [process_chart_with_template] *)

(** The dictionary [template_service.get_template_by_id] builds: its
    [name] and its [items], one dictionary per row *)
Record Template : Type := {
  template_name : string;
  template_items : list pydict
}.

Definition ValueError (msg : string) : exn := PyExc "ValueError" msg.

Definition raw_item_json (item : RawItem) : json :=
  JDict [ ("item_name", JStr (item_name item));
          ("raw_text", json_of_text (raw_text item)) ].

Definition interpreted_item_json (item : InterpretedItem) : json :=
  JDict [ ("item_name", JStr (interpreted_item_name item));
          ("interpreted_text", json_of_text (interpreted_text item)) ].

Definition set_template_id (c : Chart) (t : string) : Chart :=
  {| status := status c; error_message := error_message c;
     overall_confidence_score := overall_confidence_score c;
     needs_review := needs_review c; reviewed_by := reviewed_by c;
     reviewed_at := reviewed_at c; template_id := Some t |}.

(** [chart.status = FAILED; chart.error_message = str(e)] *)
Definition set_failed (c : Chart) (message : string) : Chart :=
  set_error_message (set_status c FAILED) message.

Section TemplateTask.
Variable strip : string -> string.
Variable len : string -> nat.
Variable Levenshtein_distance : string -> string -> nat.
Variable fuzz_ratio : string -> string -> float.

(** What the database does with the document it is asked to store *)
Variable commit : pydict -> pyresult unit.

(** The body of the [try]: the document, the flag and the confidence of
    the chart *)
Definition template_result (template : Template) (template_id : string)
    (enabled_items : list pydict)
    (download : pyresult (option string))
    (stage1 : nat -> gemini_service.attempt (list RawItem))
    (stage2 : nat -> gemini_service.attempt (list InterpretedItem))
    : pyresult (pydict * bool * float) :=
  if negb (forallb (dmem "name") enabled_items) then Raised (KeyError "name")
  else
    _ <- download ;;
    raw_items <- gemini_service.extract_raw_data_from_image stage1 ;;
    interpreted_items <- gemini_service.interpret_extracted_data stage2 ;;
    r <- review_items_of strip len Levenshtein_distance fuzz_ratio
           enabled_items raw_items interpreted_items ([], false, 0%float) ;;
    let '(review_items, needs_review, total_confidence) := r in
    let average_confidence :=
      match raw_items with
      | [] => 0%float
      | _ => (total_confidence / float_of_nat (length raw_items))%float
      end in
    Returned
      ([ ("raw_items", JList (map raw_item_json raw_items));
         ("interpreted_items", JList (map interpreted_item_json interpreted_items));
         ("template_id", JStr template_id);
         ("template_name", JStr (template_name template));
         ("review_items", JList review_items) ],
       needs_review, average_confidence).

(** [template] is what [template_service.get_template_by_id] returns. *)
Definition process_chart_with_template (now : string) (new_id : Z)
    (chart_id : string)
    (template : option Template) (template_id : string)
    (download : pyresult (option string))
    (stage1 : nat -> gemini_service.attempt (list RawItem))
    (stage2 : nat -> gemini_service.attempt (list InterpretedItem))
    (db : Db) : Db * pyresult Chart :=
  match template with
  | None => (db, Raised (ValueError ("Template not found: " ++ template_id)))
  | Some template =>
      let enabled_items :=
        filter (fun item => truthy (dget_default "enabled" (JBool true) item))
          (template_items template) in
      match enabled_items with
      | [] =>
          (db, Raised (ValueError ("No enabled items in template: " ++ template_id)))
      | _ :: _ =>
          match chart_row db with
          | None => (db, Raised (ValueError ("Chart not found: " ++ chart_id)))
          | Some chart =>
              let chart := set_status (set_template_id chart template_id) PROCESSING in
              let db := with_chart db chart in
              match template_result template template_id enabled_items
                      download stage1 stage2 with
              | Returned (result_data, needs_review, average_confidence) =>
                  match db_service.create_extracted_data_jsonb commit now
                          new_id db result_data (Some average_confidence)
                          needs_review with
                  | (db, Returned _) =>
                      let chart :=
                        set_needs_review
                          (set_overall_confidence_score
                             (set_status chart COMPLETED) average_confidence)
                          needs_review in
                      (with_chart db chart, Returned chart)
                  | (db, Raised e) =>
                      (with_chart db (set_failed chart (exn_str e)), Raised e)
                  end
              | Raised e =>
                  (with_chart db (set_failed chart (exn_str e)), Raised e)
              end
          end
      end
  end.

(** [reprocess_chart]: the template the chart already carries is used;
    [lookup] is [template_service.get_template_by_id]. *)
Definition reprocess_chart (now : string) (new_id : Z)
    (chart_id : string)
    (lookup : string -> option Template)
    (download : pyresult (option string))
    (stage1 : nat -> gemini_service.attempt (list RawItem))
    (stage2 : nat -> gemini_service.attempt (list InterpretedItem))
    (db : Db) : Db * pyresult Chart :=
  match chart_row db with
  | None => (db, Raised (ValueError ("Chart not found: " ++ chart_id)))
  | Some chart =>
      match template_id chart with
      | None =>
          (db, Raised (ValueError ("Chart has no associated template: " ++ chart_id)))
      | Some t =>
          process_chart_with_template now new_id chart_id (lookup t) t download
            stage1 stage2 db
      end
  end.
End TemplateTask.

End chart_service.

(** ** Reference metrics on ASCII text

    The metrics of [similarity_service] come from the standard library
    ([str.strip], [len]) and from rapidfuzz.  On ASCII text they are the
    functions below: byte length, removal of leading and trailing blanks,
    the edit distance with unit costs, and [fuzz.ratio], one hundred times
    the normalized insert-delete similarity.  The examples run on them. *)

Module ascii_metrics.

Definition is_blank (c : Ascii.ascii) : bool :=
  let n := Ascii.nat_of_ascii c in
  Nat.eqb n 32 || (Nat.leb 9 n && Nat.leb n 13).

Fixpoint lstrip (s : string) : string :=
  match s with
  | String c s' => if is_blank c then lstrip s' else s
  | EmptyString => EmptyString
  end.

Fixpoint rstrip (s : string) : string :=
  match s with
  | String c s' =>
      match rstrip s' with
      | EmptyString => if is_blank c then EmptyString else String c EmptyString
      | r => String c r
      end
  | EmptyString => EmptyString
  end.

Definition strip (s : string) : string := rstrip (lstrip s).

Definition len (s : string) : nat := String.length s.

Fixpoint lev_step (c : Ascii.ascii) (t : list Ascii.ascii) (prev : list nat)
    (diag left : nat) : list nat :=
  match t, prev with
  | tj :: t', up :: prev' =>
      let cost := if Ascii.eqb c tj then 0 else 1 in
      let v := Nat.min (Nat.min (up + 1) (left + 1)) (diag + cost) in
      v :: lev_step c t' prev' up v
  | _, _ => []
  end.

Definition lev_row (t : list Ascii.ascii) (row : list nat) (c : Ascii.ascii)
    : list nat :=
  match row with
  | [] => []
  | r0 :: rest => (r0 + 1) :: lev_step c t rest r0 (r0 + 1)
  end.

Definition Levenshtein_distance (s t : string) : nat :=
  let t := list_ascii_of_string t in
  last (fold_left (lev_row t) (list_ascii_of_string s) (seq 0 (S (length t)))) 0.

Fixpoint lcs_step (c : Ascii.ascii) (t : list Ascii.ascii) (prev : list nat)
    (diag left : nat) : list nat :=
  match t, prev with
  | tj :: t', up :: prev' =>
      let v := if Ascii.eqb c tj then diag + 1 else Nat.max up left in
      v :: lcs_step c t' prev' up v
  | _, _ => []
  end.

Definition lcs_row (t : list Ascii.ascii) (row : list nat) (c : Ascii.ascii)
    : list nat :=
  match row with
  | [] => []
  | r0 :: rest => 0 :: lcs_step c t rest r0 0
  end.

Definition lcs_length (s t : string) : nat :=
  let t := list_ascii_of_string t in
  last (fold_left (lcs_row t) (list_ascii_of_string s)
          (repeat 0 (S (length t)))) 0.

Definition fuzz_ratio (s t : string) : float :=
  let total := String.length s + String.length t in
  let indel := total - 2 * lcs_length s t in
  let norm_dist :=
    if Nat.eqb total 0 then 0%float
    else (float_of_nat indel / float_of_nat total)%float in
  ((1 - norm_dist) * 100)%float.

End ascii_metrics.

(** * Properties *)

(** ** Dictionaries *)

Section DictFacts.
Variable V : Type.
Implicit Types (d : dict V) (k : string) (v : V).

Lemma dget_dset k k' v d :
  dget k (dset k' v d) = if String.eqb k k' then Some v else dget k d.
Proof.
  induction d as [|[k0 v0] d IH]; simpl.
  - reflexivity.
  - destruct (String.eqb k' k0) eqn:E'; simpl.
    + apply String.eqb_eq in E'; subst k0.
      destruct (String.eqb k k'); reflexivity.
    + destruct (String.eqb k k0) eqn:E0.
      * apply String.eqb_eq in E0; subst k0.
        rewrite String.eqb_sym, E'. reflexivity.
      * exact IH.
Qed.

Lemma dset_fresh k v d :
  dget k d = None -> dset k v d = (d ++ [(k, v)])%list.
Proof.
  induction d as [|[k0 v0] d IH]; simpl; intros H.
  - reflexivity.
  - destruct (String.eqb k k0); [discriminate|].
    rewrite IH by exact H. reflexivity.
Qed.

Lemma dget_entries (f : string -> V) k ks :
  In k ks -> dget k (map (fun k => (k, f k)) ks) = Some (f k).
Proof.
  induction ks as [|a ks IH]; simpl; intros H; [contradiction|].
  destruct (String.eqb k a) eqn:E.
  - apply String.eqb_eq in E; subst a. reflexivity.
  - destruct H as [H|H].
    + subst a. rewrite String.eqb_refl in E. discriminate.
    + exact (IH H).
Qed.


Lemma dkeys_dset k k' v d :
  In k (dkeys (dset k' v d)) <-> k = k' \/ In k (dkeys d).
Proof.
  induction d as [|[k0 v0] d IH]; simpl.
  - intuition congruence.
  - destruct (String.eqb k' k0) eqn:E; simpl.
    + apply String.eqb_eq in E; subst k0. intuition congruence.
    + rewrite IH. intuition congruence.
Qed.

Lemma dkeys_fold_dset (A : Type) (f : A -> string) (g : A -> V) k items d :
  In k (dkeys (fold_left (fun d it => dset (f it) (g it) d) items d))
  <-> In k (dkeys d) \/ In k (map f items).
Proof.
  revert d. induction items as [|a items IH]; simpl; intros d.
  - tauto.
  - rewrite IH, dkeys_dset. intuition congruence.
Qed.
End DictFacts.

(** ** The review decision *)

(** C2. [should_review] answers true exactly when an error occurred, or a
    score is absent, or the text score is strictly below the text threshold
    0.8, or the vector score is strictly below the vector threshold 0.7; so
    two present scores without an error are trusted exactly when both reach
    their threshold. *)
Theorem should_review_iff :
  similarity_service.SIMILARITY_THRESHOLD = 0.8%float /\
  similarity_service.CONFIDENCE_THRESHOLD = 0.7%float /\
  (forall (textScore vectorScore : option float) (errorOccurred : bool),
     similarity_service.should_review textScore vectorScore errorOccurred = true
     <->
     (errorOccurred = true
      \/ textScore = None
      \/ vectorScore = None
      \/ (exists s, textScore = Some s
                    /\ PrimFloat.ltb s similarity_service.SIMILARITY_THRESHOLD = true)
      \/ (exists c, vectorScore = Some c
                    /\ PrimFloat.ltb c similarity_service.CONFIDENCE_THRESHOLD = true)))
  /\
  (forall s c : float,
     similarity_service.should_review (Some s) (Some c) false = false
     <->
     (PrimFloat.ltb s similarity_service.SIMILARITY_THRESHOLD = false
      /\ PrimFloat.ltb c similarity_service.CONFIDENCE_THRESHOLD = false)).
Proof.
  split; [reflexivity|]. split; [reflexivity|]. split.
  - intros [s|] [c|] [|]; unfold similarity_service.should_review; split;
      intros H; try tauto; try reflexivity.
    + apply orb_true_iff in H. destruct H as [H|H].
      * right; right; right; left. exists s. split; [reflexivity|exact H].
      * right; right; right; right. exists c. split; [reflexivity|exact H].
    + destruct H as [H|[H|[H|[[x [Hx H]]|[x [Hx H]]]]]]; try discriminate;
        injection Hx as <-; rewrite H; [reflexivity|apply orb_true_r].
  - intros s c. unfold similarity_service.should_review. apply orb_false_iff.
Qed.

(** ** The document built by a default extraction run *)

Module process_chart_facts.
Import process_chart.

(** The five top-level keys that hold the unified structure are the keys
    the readers of [db_service] skip. *)
Definition is_special (k : string) : bool := db_service.is_special_key k.

(** The names of the fields of a run: the names of either stage, and the
    default names when neither stage names a field *)
Definition field_names (raw_items : list RawItem)
    (interpreted_items : list InterpretedItem) : list string :=
  match (map item_name raw_items
         ++ map interpreted_item_name interpreted_items)%list with
  | [] => default_keys
  | names => names
  end.

Definition review_items_of (doc : pydict) : list json :=
  match dget "review_items" doc with
  | Some (JList l) => l
  | _ => []
  end.

(** A field is present in both layouts: the document maps its name to a
    record, and [review_items] holds that record with [item_name] added *)
Definition in_both_layouts (doc : pydict) (k : string) : Prop :=
  exists record,
    dget k doc = Some (JDict record) /\
    In (JDict (dset "item_name" (JStr k) record)) (review_items_of doc).

Section Facts.
Variable strip : string -> string.
Variable len : string -> nat.
Variable Levenshtein_distance : string -> string -> nat.
Variable fuzz_ratio : string -> string -> float.
Variable set_order : list string -> list string.
Hypothesis set_order_perm : forall l, Permutation (set_order l) l.

Local Notation score_item :=
  (process_chart.score_item strip len Levenshtein_distance fuzz_ratio).
Local Notation loop_body :=
  (process_chart.loop_body strip len Levenshtein_distance fuzz_ratio).
Local Notation process_extracted_items :=
  (process_chart.process_extracted_items strip len Levenshtein_distance
     fuzz_ratio set_order).

Lemma py_set_NoDup l : NoDup (py_set set_order l).
Proof.
  unfold py_set.
  apply (Permutation_NoDup (l := nodup string_dec l)).
  - apply Permutation_sym, set_order_perm.
  - apply NoDup_nodup.
Qed.

Lemma py_set_In k l : In k (py_set set_order l) <-> In k l.
Proof.
  unfold py_set. rewrite <- (nodup_In string_dec l k). split.
  - apply Permutation_in, set_order_perm.
  - apply Permutation_in, Permutation_sym, set_order_perm.
Qed.

Lemma loop_spec raw_dict interpreted_dict ks :
  forall d b ris,
    NoDup ks ->
    (forall k, In k ks -> dget k d = None) ->
    fold_left (loop_body raw_dict interpreted_dict) ks (d, b, ris)
    = ((d ++ map (fun k => (k, JDict (item_data
                               (score_item raw_dict interpreted_dict k)))) ks)%list,
       b || existsb (fun k => sc_needs_review
                                (score_item raw_dict interpreted_dict k)) ks,
       (ris ++ map (fun k => JDict (dset "item_name" (JStr k)
                               (item_data (score_item raw_dict interpreted_dict k))))
                   ks)%list).
Proof.
  induction ks as [|a ks IH]; intros d b ris Hnd Hfresh.
  - simpl. rewrite !app_nil_r, orb_false_r. reflexivity.
  - inversion Hnd as [|? ? Ha Hnd']; subst.
    cbn [fold_left].
    change (loop_body raw_dict interpreted_dict (d, b, ris) a)
      with (dset a (JDict (item_data (score_item raw_dict interpreted_dict a))) d,
            (if sc_needs_review (score_item raw_dict interpreted_dict a)
             then true else b),
            (ris ++ [JDict (dset "item_name" (JStr a)
                       (item_data (score_item raw_dict interpreted_dict a)))])%list).
    rewrite IH.
    + rewrite dset_fresh by (apply Hfresh; left; reflexivity).
      cbn [map existsb]. rewrite <- !app_assoc. cbn [app].
      do 2 f_equal.
      destruct (sc_needs_review (score_item raw_dict interpreted_dict a));
        [rewrite orb_true_r|]; reflexivity.
    + exact Hnd'.
    + intros k Hk. rewrite dget_dset.
      destruct (String.eqb k a) eqn:E.
      * apply String.eqb_eq in E. subst k. contradiction.
      * apply Hfresh. right. exact Hk.
Qed.

(** [all_keys] as the loop of [process_extracted_items] sees it *)
Definition all_keys (raw_items : list RawItem)
    (interpreted_items : list InterpretedItem) : list string :=
  let ks :=
    py_set set_order
      (dkeys (raw_dict_of raw_items)
       ++ dkeys (interpreted_dict_of interpreted_items))%list in
  if Nat.eqb (length ks) 0 then py_set set_order default_keys else ks.

Lemma all_keys_NoDup raw_items interpreted_items :
  NoDup (all_keys raw_items interpreted_items).
Proof.
  unfold all_keys. destruct (Nat.eqb _ 0); apply py_set_NoDup.
Qed.

Lemma stage_names_In k raw_items interpreted_items :
  In k (dkeys (raw_dict_of raw_items)
        ++ dkeys (interpreted_dict_of interpreted_items))%list
  <-> In k (map item_name raw_items
            ++ map interpreted_item_name interpreted_items)%list.
Proof.
  clear strip len Levenshtein_distance fuzz_ratio set_order set_order_perm.
  unfold raw_dict_of, interpreted_dict_of.
  rewrite !in_app_iff, !dkeys_fold_dset. simpl. tauto.
Qed.

Lemma all_keys_In k raw_items interpreted_items :
  In k (all_keys raw_items interpreted_items)
  <-> In k (field_names raw_items interpreted_items).
Proof.
  clear strip len Levenshtein_distance fuzz_ratio.
  unfold all_keys, field_names.
  pose proof (fun k => stage_names_In k raw_items interpreted_items) as Hn.
  pose proof (fun k => py_set_In k
                (dkeys (raw_dict_of raw_items)
                 ++ dkeys (interpreted_dict_of interpreted_items))%list) as Hs.
  destruct (py_set set_order _) as [|k0 ks] eqn:Eks; cbn [length Nat.eqb].
  - destruct (map item_name raw_items
              ++ map interpreted_item_name interpreted_items)%list
      as [|n names] eqn:En.
    + apply py_set_In.
    + exfalso. apply (proj2 (Hs n)). apply Hn. left. reflexivity.
  - destruct (map item_name raw_items
              ++ map interpreted_item_name interpreted_items)%list
      as [|n names] eqn:En.
    + exfalso. apply (proj1 (Hn k0)). apply Hs. left. reflexivity.
    + rewrite Hs, Hn. reflexivity.
Qed.

(** The document, the flag and the list of records after the loop *)
Lemma process_extracted_items_document raw_items interpreted_items :
  let rd := raw_dict_of raw_items in
  let idd := interpreted_dict_of interpreted_items in
  let keys := all_keys raw_items interpreted_items in
  let record k := item_data (score_item rd idd k) in
  let doc := fst (fst (process_extracted_items raw_items interpreted_items)) in
  dget "review_items" doc
    = Some (JList (map (fun k => JDict (dset "item_name" (JStr k) (record k)))
                     keys))
  /\ dget "raw_items" doc
    = Some (JList (map (fun k => JDict [ ("item_name", JStr k);
                                        ("raw_text", jget "raw_text" (record k)) ])
                     keys))
  /\ dget "interpreted_items" doc
    = Some (JList (map (fun k => JDict [ ("item_name", JStr k);
                                        ("interpreted_text",
                                          jget "interpreted_text" (record k)) ])
                     keys))
  /\ dget "template_id" doc = Some JNull
  /\ dget "template_name" doc = Some JNull
  /\ (forall k, is_special k = false -> In k keys ->
        dget k doc = Some (JDict (record k)))
  /\ snd (fst (process_extracted_items raw_items interpreted_items))
     = existsb (fun k => sc_needs_review (score_item rd idd k)) keys.
Proof.
  intros rd idd keys record doc.
  unfold doc, process_chart.process_extracted_items.
  fold rd idd. fold (all_keys raw_items interpreted_items). fold keys.
  rewrite loop_spec;
    [|apply all_keys_NoDup|reflexivity].
  cbn [app orb fst snd]. unfold dupdate. cbn [fold_left fst snd].
  rewrite !map_map. cbn [fst snd].
  repeat split.
  - rewrite !dget_dset. reflexivity.
  - rewrite !dget_dset. reflexivity.
  - rewrite !dget_dset. reflexivity.
  - rewrite !dget_dset. reflexivity.
  - rewrite !dget_dset. reflexivity.
  - intros k Hk Hin. unfold is_special, db_service.is_special_key in Hk. simpl in Hk.
    repeat (apply orb_false_iff in Hk; destruct Hk as [? Hk]).
    rewrite !dget_dset.
    repeat match goal with H : String.eqb k _ = false |- _ =>
             rewrite H; clear H end.
    apply (dget_entries (fun k => JDict (record k))). exact Hin.
Qed.
End Facts.
End process_chart_facts.

(** ** Example data *)

Module examples.

(** One admissible iteration order of a set: the order of insertion *)
Definition insertion_order (l : list string) : list string := l.

Lemma insertion_order_perm l : Permutation (insertion_order l) l.
Proof. apply Permutation_refl. Defined.

Definition process_extracted_items :=
  process_chart.process_extracted_items ascii_metrics.strip ascii_metrics.len
    ascii_metrics.Levenshtein_distance ascii_metrics.fuzz_ratio
    insertion_order.

(** A database that stores every document *)
Definition accepts (document : pydict) : pyresult unit := Returned tt.

(** A text holds the character U+0000. *)
Definition has_nul (s : string) : bool :=
  existsb (Ascii.eqb Ascii.zero) (list_ascii_of_string s).

Fixpoint holds_nul (v : json) : bool :=
  match v with
  | JStr s => has_nul s
  | JList l => existsb holds_nul l
  | JDict d =>
      existsb (fun kv : string * json => let (_, v') := kv in holds_nul v') d
  | _ => false
  end.

(** A database that refuses a document with such a text, as PostgreSQL
    does for a [jsonb] column *)
Definition postgres (document : pydict) : pyresult unit :=
  if holds_nul (JDict document)
  then Raised (PyExc "DataError" "unsupported Unicode escape sequence")
  else Returned tt.

Definition unreadable_raw : list RawItem :=
  [ {| item_name := "BP";
       raw_text := Some (String Ascii.zero "120/80mmHg") |} ].

Definition run_extraction_task :=
  process_chart.run_extraction_task ascii_metrics.strip ascii_metrics.len
    ascii_metrics.Levenshtein_distance ascii_metrics.fuzz_ratio
    insertion_order accepts.

Definition pending_chart : Chart :=
  {| status := PENDING; error_message := None;
     overall_confidence_score := None; needs_review := false;
     reviewed_by := JNull; reviewed_at := None; template_id := None |}.

Definition uploaded : Db :=
  {| chart_row := Some pending_chart; extracted_row := None |}.

Definition blood_pressure_raw : list RawItem :=
  [ {| item_name := "BP"; raw_text := Some "120/80mmHg" |} ].

Definition blood_pressure_interpreted : list InterpretedItem :=
  [ {| interpreted_item_name := "BP"; interpreted_text := Some "120/80mmHg" |} ].

(** A field that carries the name of a top-level key of the unified
    structure *)
Definition template_name_raw : list RawItem :=
  [ {| item_name := "template_name"; raw_text := Some "A" |} ].

Definition template_name_interpreted : list InterpretedItem :=
  [ {| interpreted_item_name := "template_name"; interpreted_text := Some "A" |} ].

End examples.

(** C10, as amended.  The document of a default extraction run has one
    entry per field name in [review_items], [raw_items] and
    [interpreted_items], and every field whose name is not one of the five
    top-level keys of the unified structure is present in both layouts: the
    document maps the name to the record, and [review_items] holds the same
    record with [item_name] added. *)
Theorem default_document_both_layouts
    (strip : string -> string) (len : string -> nat)
    (Levenshtein_distance : string -> string -> nat)
    (fuzz_ratio : string -> string -> float)
    (set_order : list string -> list string)
    (set_order_perm : forall l, Permutation (set_order l) l)
    (raw_items : list RawItem) (interpreted_items : list InterpretedItem) :
  let doc :=
    fst (fst (process_chart.process_extracted_items strip len
                Levenshtein_distance fuzz_ratio set_order
                raw_items interpreted_items)) in
  exists keys review_items raw_mirror interpreted_mirror,
    NoDup keys
    /\ (forall k, In k keys
                  <-> In k (process_chart_facts.field_names raw_items interpreted_items))
    /\ dget "review_items" doc = Some (JList review_items)
    /\ dget "raw_items" doc = Some (JList raw_mirror)
    /\ dget "interpreted_items" doc = Some (JList interpreted_mirror)
    /\ map (process_chart.record_get "item_name") review_items = map JStr keys
    /\ map (process_chart.record_get "item_name") raw_mirror = map JStr keys
    /\ map (process_chart.record_get "item_name") interpreted_mirror = map JStr keys
    /\ (forall k, In k keys -> process_chart_facts.is_special k = false ->
          process_chart_facts.in_both_layouts doc k).
Proof.
  intros doc.
  destruct (@process_chart_facts.process_extracted_items_document
              strip len Levenshtein_distance fuzz_ratio set_order set_order_perm
              raw_items interpreted_items)
    as (Hri & Hraw & Hint & _ & _ & Hfield & _).
  fold doc in Hri, Hraw, Hint, Hfield.
  eexists _, _, _, _.
  split; [apply process_chart_facts.all_keys_NoDup; exact set_order_perm|].
  split; [intros k; apply process_chart_facts.all_keys_In; exact set_order_perm|].
  split; [exact Hri|]. split; [exact Hraw|]. split; [exact Hint|].
  split; [|split; [|split]].
  - rewrite map_map. apply map_ext. intros k.
    unfold process_chart.record_get, jget, dget_default.
    rewrite dget_dset, String.eqb_refl. reflexivity.
  - rewrite map_map. reflexivity.
  - rewrite map_map. reflexivity.
  - intros k Hin Hspecial. eexists. split.
    + apply Hfield; assumption.
    + unfold process_chart_facts.review_items_of. rewrite Hri.
      apply in_map_iff. exists k. split; [reflexivity|exact Hin].
Qed.

Lemma default_document_both_layouts_witness :
  let doc :=
    fst (fst (examples.process_extracted_items
                examples.blood_pressure_raw examples.blood_pressure_interpreted)) in
  exists keys review_items raw_mirror interpreted_mirror,
    NoDup keys
    /\ (forall k, In k keys
                  <-> In k (process_chart_facts.field_names
                              examples.blood_pressure_raw
                              examples.blood_pressure_interpreted))
    /\ dget "review_items" doc = Some (JList review_items)
    /\ dget "raw_items" doc = Some (JList raw_mirror)
    /\ dget "interpreted_items" doc = Some (JList interpreted_mirror)
    /\ map (process_chart.record_get "item_name") review_items = map JStr keys
    /\ map (process_chart.record_get "item_name") raw_mirror = map JStr keys
    /\ map (process_chart.record_get "item_name") interpreted_mirror = map JStr keys
    /\ (forall k, In k keys -> process_chart_facts.is_special k = false ->
          process_chart_facts.in_both_layouts doc k).
Proof.
  exact (@default_document_both_layouts ascii_metrics.strip ascii_metrics.len
           ascii_metrics.Levenshtein_distance ascii_metrics.fuzz_ratio
           examples.insertion_order examples.insertion_order_perm
           examples.blood_pressure_raw examples.blood_pressure_interpreted).
Defined.

(** C10, as stated, fails for a field named like a top-level key of the
    unified structure: the run on the one field [template_name] leaves
    [None] under that name, not the record. *)
Lemma reserved_name_not_in_both_layouts :
  let doc :=
    fst (fst (examples.process_extracted_items
                examples.template_name_raw examples.template_name_interpreted)) in
  In "template_name"
     (process_chart_facts.field_names
        examples.template_name_raw examples.template_name_interpreted)
  /\ dget "template_name" doc = Some JNull
  /\ ~ process_chart_facts.in_both_layouts doc "template_name".
Proof.
  split; [left; reflexivity|].
  split; [vm_compute; reflexivity|].
  intros [record [H _]]. vm_compute in H. discriminate.
Qed.

(** ** The run of the two stages *)

(** C3, at the failing input.  When the first pass of stage 1 returns the
    empty list, the run ends in [FAILED] with the message of the check
    [if not raw_items], and the stored result is the one it started with:
    the substitution of the default items below that check is never
    reached. *)
Theorem empty_extraction_fails_the_run :
  forall strip len Levenshtein_distance fuzz_ratio set_order
         (commit : pydict -> pyresult unit)
         (now : string) (new_id : Z) (gcs_uri : string)
         (c : Ascii.ascii) (image : string)
         (stage2 : nat -> gemini_service.attempt (list InterpretedItem))
         (chart : Chart) (extracted : option ExtractedData),
    let db :=
      process_chart.run_extraction_task strip len Levenshtein_distance
        fuzz_ratio set_order commit now new_id gcs_uri
        (Returned (Some (String c image)))
        (fun _ => gemini_service.AttemptReturns [])
        stage2
        {| chart_row := Some chart; extracted_row := extracted |} in
    option_map status (chart_row db) = Some FAILED
    /\ option_map error_message (chart_row db)
       = Some (Some "Failed to extract raw data from image")
    /\ extracted_row db = extracted.
Proof.
  intros. repeat split; reflexivity.
Qed.

(** ** [convert_to_standard_format] *)

Module convert_facts.
Import db_service.

(** The record without its [item_name] entry *)
Definition without_item_name (item : pydict) : pydict :=
  filter (fun kv => negb (String.eqb (fst kv) "item_name")) item.

(** The last record of the array that carries the name *)
Fixpoint last_record (name : string) (review_items : list json)
    : option pydict :=
  match review_items with
  | [] => None
  | item :: rest =>
      match last_record name rest with
      | Some r => Some r
      | None =>
          match item with
          | JDict d =>
              match dget "item_name" d with
              | Some (JStr n) => if String.eqb n name then Some d else None
              | _ => None
              end
          | _ => None
          end
      end
  end.

Lemma standard_entries_dget k review_items :
  forall acc standard_format,
    standard_entries review_items acc = Returned standard_format ->
    dget k standard_format
    = match last_record k review_items with
      | Some r => Some (JDict (without_item_name r))
      | None => dget k acc
      end.
Proof.
  induction review_items as [|item rest IH]; intros acc sf H.
  - simpl in H. injection H as <-. reflexivity.
  - cbn [standard_entries] in H. cbn [last_record].
    destruct item as [| | | | |l|d];
      try (rewrite (IH _ _ H); destruct (last_record k rest); reflexivity).
    destruct (dget "item_name" d) as [[| | | |n| |]|] eqn:En;
      try discriminate;
      try (rewrite (IH _ _ H); destruct (last_record k rest); reflexivity).
    rewrite (IH _ _ H). destruct (last_record k rest); [reflexivity|].
    rewrite dget_dset, (String.eqb_sym n k).
    destruct (String.eqb k n); reflexivity.
Qed.

Lemma keep_metadata_dget k data :
  forall acc,
    dget k (keep_metadata data acc)
    = match dget k acc with
      | Some v => Some v
      | None => if String.eqb k "review_items" then None else dget k data
      end.
Proof.
  unfold keep_metadata.
  induction data as [|[k0 v0] data IH]; intros acc; cbn [fold_left fst snd].
  - simpl. destruct (dget k acc); [|destruct (String.eqb k "review_items")];
      reflexivity.
  - rewrite IH. cbn [dget]. unfold dmem.
    destruct (String.eqb k k0) eqn:E.
    + apply String.eqb_eq in E. subst k0.
      destruct (String.eqb k "review_items") eqn:Er; cbn [negb andb].
      * reflexivity.
      * destruct (dget k acc) eqn:Ea; cbn [negb].
        -- rewrite Ea. reflexivity.
        -- rewrite dget_dset, String.eqb_refl. reflexivity.
    + destruct (negb (String.eqb k0 "review_items")
                && negb match dget k0 acc with Some _ => true | None => false end).
      * rewrite dget_dset, E. reflexivity.
      * reflexivity.
Qed.

(** A rewritten document holds no [review_items] list. *)
Lemma to_standard_format_no_array data review_items standard :
  review_items_array data = Some review_items ->
  to_standard_format data = Returned standard ->
  review_items_array standard = None.
Proof.
  unfold to_standard_format. intros Ha H. rewrite Ha in H.
  destruct (standard_entries review_items []) as [sf|e] eqn:Es;
    [|discriminate].
  cbn [bind] in H. injection H as <-.
  unfold review_items_array. rewrite keep_metadata_dget.
  rewrite (standard_entries_dget "review_items" _ _ Es).
  destruct (last_record "review_items" review_items); reflexivity.
Qed.

(** The rewriting goes from the array to the map: a named record lies
    under its name without [item_name], and a top-level key that is not
    the name of a record keeps its value. *)
Lemma to_standard_format_entries data review_items standard :
  review_items_array data = Some review_items ->
  to_standard_format data = Returned standard ->
  forall k,
    dget k standard
    = match last_record k review_items with
      | Some r => Some (JDict (without_item_name r))
      | None => if String.eqb k "review_items" then None else dget k data
      end.
Proof.
  unfold to_standard_format. intros Ha H k. rewrite Ha in H.
  destruct (standard_entries review_items []) as [sf|e] eqn:Es;
    [|discriminate].
  cbn [bind] in H. injection H as <-.
  rewrite keep_metadata_dget, (standard_entries_dget k _ _ Es).
  destruct (last_record k review_items); reflexivity.
Qed.

Lemma convert_without_array db extracted_data :
  extracted_row db = Some extracted_data ->
  review_items_array (data extracted_data) = None ->
  convert_to_standard_format db = (db, Returned true).
Proof.
  unfold convert_to_standard_format, get_extracted_data_by_chart_id.
  intros -> ->. reflexivity.
Qed.

Definition legacy_document : pydict :=
  [ ("主訴",
      JDict [ ("raw_text", JStr "頭痛"); ("interpreted_text", JStr "頭痛");
              ("similarity_score", JNum 1%float);
              ("confidence_score", JNum 1%float);
              ("needs_review", JBool false) ]) ].

Definition canonical_document : pydict :=
  [ ("review_items",
      JList [ JDict [ ("item_name", JStr "主訴");
                      ("raw_text", JStr "頭痛"); ("interpreted_text", JStr "頭痛");
                      ("similarity_score", JNum 1%float);
                      ("confidence_score", JNum 1%float);
                      ("needs_review", JBool false) ] ]);
    ("template_id", JNull) ].

Definition stored (document : pydict) : Db :=
  {| chart_row := Some examples.pending_chart;
     extracted_row := Some {| id := 7; data := document |} |}.

End convert_facts.

(** C4, as amended.  On a legacy-layout-only document, one without a
    [review_items] key, [convert_to_standard_format] returns true and
    leaves the stored document as it is: a map keyed by field name that
    holds no [review_items] list. *)
Theorem convert_leaves_legacy_document
    (db : Db) (extracted_data : ExtractedData) :
  extracted_row db = Some extracted_data ->
  dget "review_items" (data extracted_data) = None ->
  db_service.convert_to_standard_format db = (db, Returned true)
  /\ db_service.review_items_array (data extracted_data) = None.
Proof.
  intros He Hr.
  assert (Ha : db_service.review_items_array (data extracted_data) = None)
    by (unfold db_service.review_items_array; rewrite Hr; reflexivity).
  split; [exact (convert_facts.convert_without_array _ He Ha)|exact Ha].
Qed.

Lemma convert_leaves_legacy_document_witness :
  db_service.convert_to_standard_format
    (convert_facts.stored convert_facts.legacy_document)
  = (convert_facts.stored convert_facts.legacy_document, Returned true)
  /\ db_service.review_items_array convert_facts.legacy_document = None.
Proof.
  exact (@convert_leaves_legacy_document
           (convert_facts.stored convert_facts.legacy_document)
           {| id := 7; data := convert_facts.legacy_document |}
           eq_refl eq_refl).
Defined.

(** C4, as stated, fails: after the call the legacy document still has no
    [review_items] list. *)
Lemma convert_builds_no_array :
  dget "review_items" convert_facts.legacy_document = None
  /\ forall db' result,
       db_service.convert_to_standard_format
         (convert_facts.stored convert_facts.legacy_document) = (db', result) ->
       ~ exists extracted_data review_items,
           extracted_row db' = Some extracted_data
           /\ dget "review_items" (data extracted_data)
              = Some (JList review_items).
Proof.
  split; [reflexivity|].
  intros db' result H. vm_compute in H. injection H as <- _.
  intros (e & l & He & Hl). injection He as <-. discriminate Hl.
Qed.

(** C9, as amended.  Applying [convert_to_standard_format] to the rows
    its first application leaves gives the same rows and the same result;
    and on a document that holds no [review_items] list, the map layout
    the function produces, it changes nothing and returns true. *)
Theorem convert_idempotent (db : Db) :
  db_service.convert_to_standard_format
    (fst (db_service.convert_to_standard_format db))
  = db_service.convert_to_standard_format db
  /\ (forall extracted_data,
        extracted_row db = Some extracted_data ->
        db_service.review_items_array (data extracted_data) = None ->
        db_service.convert_to_standard_format db = (db, Returned true)).
Proof.
  split.
  - unfold db_service.convert_to_standard_format at 2 3.
    unfold db_service.get_extracted_data_by_chart_id.
    destruct (extracted_row db) as [e|] eqn:He; [|cbn [fst]].
    + destruct (db_service.review_items_array (data e)) as [l|] eqn:Ha.
      * destruct (db_service.to_standard_format (data e)) as [sf|err] eqn:Hs.
        -- cbn [fst].
           apply (@convert_facts.convert_without_array _ (with_data e sf));
             [reflexivity|].
           exact (convert_facts.to_standard_format_no_array _ Ha Hs).
        -- cbn [fst]. unfold db_service.convert_to_standard_format,
             db_service.get_extracted_data_by_chart_id.
           rewrite He, Ha, Hs. reflexivity.
      * cbn [fst]. apply (convert_facts.convert_without_array _ He Ha).
    + unfold db_service.convert_to_standard_format,
        db_service.get_extracted_data_by_chart_id.
      rewrite He. reflexivity.
  - intros e He Ha. exact (convert_facts.convert_without_array _ He Ha).
Qed.

Lemma convert_idempotent_witness :
  let db := convert_facts.stored convert_facts.canonical_document in
  let once := fst (db_service.convert_to_standard_format db) in
  db_service.convert_to_standard_format once
  = db_service.convert_to_standard_format db
  /\ db_service.convert_to_standard_format once = (once, Returned true).
Proof.
  split.
  - exact (proj1 (convert_idempotent
                    (convert_facts.stored convert_facts.canonical_document))).
  - exact (proj2 (convert_idempotent
                    (fst (db_service.convert_to_standard_format
                            (convert_facts.stored convert_facts.canonical_document))))
             _ eq_refl eq_refl).
Defined.

(** C9, as stated, fails in its second half: a document in the canonical
    array layout is rewritten, into the map keyed by field name. *)
Lemma convert_rewrites_canonical_document :
  let db := convert_facts.stored convert_facts.canonical_document in
  db_service.review_items_array convert_facts.canonical_document <> None
  /\ snd (db_service.convert_to_standard_format db) = Returned true
  /\ fst (db_service.convert_to_standard_format db) <> db
  /\ option_map (fun e => dkeys (data e))
       (extracted_row (fst (db_service.convert_to_standard_format db)))
     = Some ["主訴"; "template_id"].
Proof.
  split; [discriminate|]. split; [reflexivity|]. split; [|reflexivity].
  intros H. vm_compute in H. discriminate H.
Qed.

(** ** The chart aggregate *)

Module string_order.

Lemma ascii_compare_refl a : Ascii.compare a a = Eq.
Proof. unfold Ascii.compare. apply N.compare_refl. Qed.

Lemma ascii_compare_lt_trans a b c :
  Ascii.compare a b = Lt -> Ascii.compare b c = Lt -> Ascii.compare a c = Lt.
Proof.
  unfold Ascii.compare. rewrite !N.compare_lt_iff. apply N.lt_trans.
Qed.

Lemma compare_lt_trans a :
  forall b c,
    String.compare a b = Lt -> String.compare b c = Lt ->
    String.compare a c = Lt.
Proof.
  induction a as [|x a IH]; intros [|y b] [|z c]; simpl;
    try discriminate; try reflexivity.
  destruct (Ascii.compare x y) eqn:Exy; try discriminate;
    destruct (Ascii.compare y z) eqn:Eyz; try discriminate; intros H1 H2.
  - apply Ascii.compare_eq_iff in Exy, Eyz. subst.
    rewrite ascii_compare_refl. exact (IH _ _ H1 H2).
  - apply Ascii.compare_eq_iff in Exy. subst. rewrite Eyz. reflexivity.
  - apply Ascii.compare_eq_iff in Eyz. subst. rewrite Exy. reflexivity.
  - rewrite (ascii_compare_lt_trans _ _ _ Exy Eyz). reflexivity.
Qed.

Lemma ltb_compare a b : String.ltb a b = true <-> String.compare a b = Lt.
Proof.
  unfold String.ltb. destruct (String.compare a b); split;
    intros H; try reflexivity; discriminate.
Qed.

Lemma ltb_trans a b c :
  String.ltb a b = true -> String.ltb b c = true -> String.ltb a c = true.
Proof. rewrite !ltb_compare. apply compare_lt_trans. Qed.

(** [b <= a < c] gives [b < c], with [b <= a] read as "not [a < b]". *)
Lemma not_ltb_ltb_trans a b c :
  String.ltb a b = false -> String.ltb a c = true -> String.ltb b c = true.
Proof.
  intros Hab Hac. apply ltb_compare. apply ltb_compare in Hac.
  unfold String.ltb in Hab.
  destruct (String.compare a b) eqn:E; try discriminate.
  - apply String.compare_eq_iff in E. subst. exact Hac.
  - apply compare_lt_trans with (b := a); [|exact Hac].
    rewrite String.compare_antisym, E. reflexivity.
Qed.

End string_order.

Module aggregate_facts.
Import db_service.

(** [item.get("needs_review", False)] is truthy *)
Definition needs (item : pydict) : bool :=
  truthy (dget_default "needs_review" (JBool false) item).

(** [item.get("reviewed_at")] is truthy *)
Definition has_stamp (item : pydict) : bool :=
  truthy (jget "reviewed_at" item).

(** The key of [max] *)
Definition stamp_key (x : pydict) : json :=
  dget_default "reviewed_at" (JStr "") x.

(** The time stamp of a record, a string when it has one *)
Definition stamp (item : pydict) : string :=
  match jget "reviewed_at" item with
  | JStr s => s
  | _ => ""
  end.

(** [reviewed_at] is absent, null or a string, as in a Field Record *)
Definition stamp_ok (item : pydict) : bool :=
  match jget "reviewed_at" item with
  | JNull | JStr _ => true
  | _ => false
  end.

(** The record the specification names: the latest [reviewed_at], a later
    record replacing an earlier one of the same time stamp *)
Fixpoint latest_last_seen (best : pydict) (rest : list pydict) : pydict :=
  match rest with
  | [] => best
  | x :: rest' =>
      latest_last_seen
        (if String.ltb (stamp x) (stamp best) then best else x) rest'
  end.

Definition reviewed (who : string) (when : string) : pydict :=
  [ ("item_name", JStr who); ("needs_review", JBool false);
    ("reviewed_by", JStr who); ("reviewed_at", JStr when) ].

Definition alice : pydict := reviewed "alice" "2025-07-01T10:00:00".
Definition bob : pydict := reviewed "bob" "2025-07-01T10:00:00".
Definition carol : pydict := reviewed "carol" "2025-07-01T09:00:00".

Lemma candidate_key x :
  has_stamp x = true -> stamp_ok x = true -> stamp_key x = JStr (stamp x).
Proof.
  unfold has_stamp, stamp_ok, stamp_key, stamp, jget, dget_default.
  destruct (dget "reviewed_at" x) as [[| | | | | |]|]; simpl;
    intros H1 H2; try discriminate; reflexivity.
Qed.

Lemma candidate_truthy x : has_stamp x = true -> truthy (JDict x) = true.
Proof.
  destruct x; [discriminate|reflexivity].
Qed.

Lemma max_from_first_latest rest :
  forall before best mid,
    Forall (fun x => stamp_key x = JStr (stamp x)) (best :: rest) ->
    (forall x, In x before -> String.ltb (stamp x) (stamp best) = true) ->
    (forall x, In x mid -> String.ltb (stamp best) (stamp x) = false) ->
    exists r before' after',
      max_from stamp_key best rest = Returned r
      /\ (before ++ best :: mid ++ rest = before' ++ r :: after')%list
      /\ (forall x, In x before' -> String.ltb (stamp x) (stamp r) = true)
      /\ (forall x, In x after' -> String.ltb (stamp r) (stamp x) = false).
Proof.
  induction rest as [|x rest IH]; intros before best mid Hk Hb Hm.
  - exists best, before, mid. rewrite app_nil_r. auto.
  - inversion Hk as [|? ? Kbest Hk']; subst.
    inversion Hk' as [|? ? Kx Hrest]; subst.
    cbn [max_from]. rewrite Kx, Kbest. cbn [py_gt bind].
    destruct (String.ltb (stamp best) (stamp x)) eqn:E.
    + destruct (IH (before ++ best :: mid)%list x [])
        as (r & b' & a' & Hr & Heq & Hlt & Hle).
      * constructor; assumption.
      * intros y Hy. apply in_app_iff in Hy. destruct Hy as [Hy|[<-|Hy]].
        -- exact (string_order.ltb_trans _ _ _ (Hb y Hy) E).
        -- exact E.
        -- exact (string_order.not_ltb_ltb_trans _ _ _ (Hm y Hy) E).
      * intros y [].
      * exists r, b', a'. repeat split; try assumption.
        rewrite <- Heq, <- app_assoc. reflexivity.
    + destruct (IH before best (mid ++ [x])%list)
        as (r & b' & a' & Hr & Heq & Hlt & Hle).
      * constructor; assumption.
      * exact Hb.
      * intros y Hy. apply in_app_iff in Hy. destruct Hy as [Hy|[<-|[]]].
        -- exact (Hm y Hy).
        -- exact E.
      * exists r, b', a'. repeat split; try assumption.
        rewrite <- Heq, <- app_assoc. reflexivity.
Qed.

End aggregate_facts.

(** C6, as amended.  On records whose [reviewed_at] is absent, null or a
    string, the aggregate is computed; [needs_review] is true exactly when
    some record's [needs_review] is, so on the empty list it is false;
    when it is false, [reviewed_by] is the [reviewed_by] of the record with
    the latest [reviewed_at] among those that have one, the first such
    record in the list when several share that time stamp, and [None] when
    no record has one. *)
Theorem review_aggregate_first_latest (review_items : list pydict) :
  Forall (fun item => aggregate_facts.stamp_ok item = true) review_items ->
  exists needs_review reviewed_by,
    db_service.review_aggregate review_items
    = Returned (needs_review, reviewed_by)
    /\ (needs_review = true
        <-> exists item, In item review_items
                         /\ aggregate_facts.needs item = true)
    /\ (review_items = [] -> needs_review = false)
    /\ (needs_review = false ->
        match filter aggregate_facts.has_stamp review_items with
        | [] => reviewed_by = JNull
        | _ :: _ =>
            exists before latest after,
              filter aggregate_facts.has_stamp review_items
              = (before ++ latest :: after)%list
              /\ reviewed_by = jget "reviewed_by" latest
              /\ (forall x, In x before ->
                    String.ltb (aggregate_facts.stamp x)
                      (aggregate_facts.stamp latest) = true)
              /\ (forall x, In x after ->
                    String.ltb (aggregate_facts.stamp latest)
                      (aggregate_facts.stamp x) = false)
        end).
Proof.
  intros Hok. unfold db_service.review_aggregate.
  change (fun item => truthy (dget_default "needs_review" (JBool false) item))
    with aggregate_facts.needs.
  change (fun item => truthy (jget "reviewed_at" item))
    with aggregate_facts.has_stamp.
  change (fun x => dget_default "reviewed_at" (JStr "") x)
    with aggregate_facts.stamp_key.
  cbv zeta.
  change (@existsb (dict json)) with (@existsb pydict).
  destruct (existsb aggregate_facts.needs review_items) eqn:En;
    cbn [negb andb].
  - exists true, JNull. split; [reflexivity|]. split; [|split].
    + split; [intros _; apply existsb_exists; exact En|reflexivity].
    + intros ->. discriminate En.
    + discriminate.
  - assert (Hiff : false = true <->
                   exists item, In item review_items
                                /\ aggregate_facts.needs item = true).
    { split; [discriminate|]. intros H. apply existsb_exists in H. congruence. }
    destruct (Nat.eqb (length review_items) 0) eqn:El; cbn [negb].
    { exists false, JNull. split; [reflexivity|]. split; [exact Hiff|].
      split; [reflexivity|]. intros _.
      destruct review_items; [reflexivity|discriminate El]. }
    destruct (filter aggregate_facts.has_stamp review_items) as [|c cs] eqn:Ef.
    { exists false, JNull. split; [reflexivity|]. split; [exact Hiff|].
      split; reflexivity. }
    assert (Hc : Forall (fun x => aggregate_facts.stamp_key x
                                  = JStr (aggregate_facts.stamp x)) (c :: cs)).
    { rewrite <- Ef. apply Forall_forall. intros x Hx.
      apply filter_In in Hx. destruct Hx as [Hx Hs].
      apply aggregate_facts.candidate_key; [exact Hs|].
      exact (proj1 (Forall_forall _ _) Hok x Hx). }
    destruct (@aggregate_facts.max_from_first_latest cs [] c [] Hc)
      as (r & b' & a' & Hr & Heq & Hlt & Hle).
    { intros x []. } { intros x []. }
    cbn [db_service.py_max]. rewrite Hr. cbn [bind].
    assert (Hin : In r (c :: cs)).
    { cbn [app] in Heq. rewrite Heq. apply in_elt. }
    rewrite <- Ef in Hin.
    apply filter_In in Hin. destruct Hin as [_ Hs].
    rewrite (aggregate_facts.candidate_truthy _ Hs).
    exists false, (jget "reviewed_by" r). split; [reflexivity|].
    split; [exact Hiff|]. split; [reflexivity|].
    intros _. exists b', r, a'. cbn [app] in Heq. auto.
Qed.

Lemma review_aggregate_first_latest_witness :
  exists needs_review reviewed_by,
    db_service.review_aggregate
      [aggregate_facts.carol; aggregate_facts.alice; aggregate_facts.bob]
    = Returned (needs_review, reviewed_by)
    /\ needs_review = false
    /\ reviewed_by = JStr "alice".
Proof.
  destruct (@review_aggregate_first_latest
              [aggregate_facts.carol; aggregate_facts.alice; aggregate_facts.bob])
    as (nr & rb & H & _).
  - repeat constructor.
  - exists nr, rb. split; [exact H|].
    vm_compute in H. injection H as <- <-. split; reflexivity.
Defined.

(** C6, as stated, fails on a tie: of two records reviewed at the same
    time, the aggregate names the reviewer of the first, where the
    last-seen record is the second. *)
Lemma review_aggregate_tie_keeps_first :
  db_service.review_aggregate [aggregate_facts.alice; aggregate_facts.bob]
  = Returned (false, JStr "alice")
  /\ jget "reviewed_by"
       (aggregate_facts.latest_last_seen aggregate_facts.alice
          [aggregate_facts.bob])
     = JStr "bob".
Proof.
  split; vm_compute; reflexivity.
Qed.

(** ** The update of one field *)

Module update_facts.
Import db_service review.



(** No unified item carries the name. *)
Definition field_missing (db : Db) (name : string) : Prop :=
  exists items,
    get_all_items_unified db = Returned items
    /\ find_item_by_name items name = None.

Definition legacy_stored : Db :=
  {| chart_row := Some examples.pending_chart;
     extracted_row :=
       Some {| id := 7;
               data := [ ("主訴",
                           JDict [ ("raw_text", JStr "頭痛");
                                   ("interpreted_text", JStr "頭通");
                                   ("needs_review", JBool true) ]) ] |} |}.

Definition approve : ItemUpdateRequest :=
  {| req_item_name := "主訴";
     req_interpreted_text := Some "頭痛";
     req_review_comment := None;
     req_reviewed_by := "dr.sato" |}.

Definition no_chart : Db := {| chart_row := None; extracted_row := None |}.


Lemma update_chart_review_status_extracted now db needs_review score who :
  extracted_row (update_chart_review_status now db needs_review score who)
  = extracted_row db.
Proof.
  unfold update_chart_review_status, get_chart_by_id.
  destruct (chart_row db); reflexivity.
Qed.

Lemma after_item_update_extracted set_order now db :
  extracted_row
    (fst (update_chart_review_status_after_item_update set_order now db))
  = extracted_row db.
Proof.
  unfold update_chart_review_status_after_item_update.
  destruct (get_review_items set_order db true) as [items|e]; [|reflexivity].
  destruct (review_aggregate items) as [[nr rb]|e]; [|reflexivity].
  apply update_chart_review_status_extracted.
Qed.

Lemma after_item_update_raised set_order now db db' e :
  update_chart_review_status_after_item_update set_order now db
  = (db', Raised e) -> db' = db.
Proof.
  unfold update_chart_review_status_after_item_update.
  destruct (get_review_items set_order db true) as [items|e0];
    [|intros H; injection H as <- _; reflexivity].
  destruct (review_aggregate items) as [[nr rb]|e0];
    [discriminate|intros H; injection H as <- _; reflexivity].
Qed.

(** The exceptions the readers raise are Python errors, never an HTTP
    answer. *)
Definition is_http (e : exn) : bool :=
  match e with
  | HTTPException _ _ => true
  | PyExc _ _ => false
  end.

(** The answer 404 of the router *)
Definition is_not_found (e : exn) : bool :=
  match e with
  | HTTPException status_code _ => Nat.eqb status_code 404
  | PyExc _ _ => false
  end.

Lemma not_http_not_found e : is_http e = false -> is_not_found e = false.
Proof. destruct e; [reflexivity|discriminate]. Qed.

Lemma py_iter_raised v e : py_iter v = Raised e -> is_http e = false.
Proof.
  destruct v; simpl; intros H; try discriminate; injection H as <-; reflexivity.
Qed.

Lemma string_names_raised l e : string_names l = Raised e -> is_http e = false.
Proof.
  induction l as [|v rest IH]; simpl; [discriminate|].
  destruct v; try exact IH.
  - destruct (string_names rest); simpl; [discriminate|exact IH].
  - intros H. injection H as <-. reflexivity.
  - intros H. injection H as <-. reflexivity.
Qed.

Lemma mirror_names_raised l e : mirror_names l = Raised e -> is_http e = false.
Proof.
  induction l as [|v rest IH]; simpl; [discriminate|].
  destruct v as [| | | | | |d]; try exact IH.
  destruct (dget "item_name" d) as [[| | | |n| |]|]; try exact IH;
    try (intros H; injection H as <-; reflexivity).
  destruct (mirror_names rest); simpl; [discriminate|exact IH].
Qed.

Lemma get_all_items_unified_raised db e :
  get_all_items_unified db = Raised e -> is_http e = false.
Proof.
  unfold get_all_items_unified.
  destruct (get_extracted_data_by_chart_id db); [|discriminate].
  destruct (forallb hashable _); [discriminate|].
  intros H. injection H as <-. reflexivity.
Qed.

Lemma bind_raised (A B : Type) (r : pyresult A) (k : A -> pyresult B) e :
  bind r k = Raised e ->
  r = Raised e \/ exists a, r = Returned a /\ k a = Raised e.
Proof.
  destruct r as [a|e0]; simpl; intros H.
  - right. exists a. split; [reflexivity|exact H].
  - left. injection H as <-. reflexivity.
Qed.

Lemma get_review_items_raised set_order db all e :
  get_review_items set_order db all = Raised e -> is_http e = false.
Proof.
  unfold get_review_items.
  destruct (get_extracted_data_by_chart_id db) as [ed|]; [|discriminate].
  intros H.
  apply bind_raised in H. destruct H as [H|(a1 & _ & H)];
    [exact (string_names_raised _ H)|].
  apply bind_raised in H. destruct H as [H|(a2 & _ & H)];
    [exact (py_iter_raised _ H)|].
  apply bind_raised in H. destruct H as [H|(a3 & _ & H)];
    [exact (mirror_names_raised _ H)|].
  apply bind_raised in H. destruct H as [H|(a4 & _ & H)];
    [exact (py_iter_raised _ H)|].
  apply bind_raised in H. destruct H as [H|(a5 & _ & H)];
    [exact (mirror_names_raised _ H)|].
  discriminate H.
Qed.

Lemma py_gt_raised a b e : py_gt a b = Raised e -> is_http e = false.
Proof.
  destruct a, b; simpl; intros H; try discriminate;
    injection H as <-; reflexivity.
Qed.

Lemma max_from_raised key rest :
  forall best e, max_from key best rest = Raised e -> is_http e = false.
Proof.
  induction rest as [|x rest IH]; simpl; intros best e; [discriminate|].
  destruct (py_gt (key x) (key best)) as [gt|e0] eqn:E; cbn [bind].
  - apply IH.
  - intros H. injection H as <-. exact (py_gt_raised _ _ E).
Qed.

Lemma review_aggregate_raised items e :
  review_aggregate items = Raised e -> is_http e = false.
Proof.
  unfold review_aggregate.
  destruct (_ && _); [|discriminate].
  unfold py_max. destruct (filter _ items) as [|x rest]; [discriminate|].
  destruct (max_from _ x rest) as [r|e0] eqn:E; cbn [bind].
  - destruct (truthy (JDict r)); discriminate.
  - intros H. injection H as <-. exact (max_from_raised _ _ _ E).
Qed.

Lemma after_item_update_not_http set_order now db db' e :
  update_chart_review_status_after_item_update set_order now db
  = (db', Raised e) -> is_http e = false.
Proof.
  unfold update_chart_review_status_after_item_update.
  destruct (get_review_items set_order db true) as [items|e0] eqn:E1.
  - destruct (review_aggregate items) as [[nr rb]|e0] eqn:E2;
      [discriminate|].
    intros H. injection H as _ <-. exact (review_aggregate_raised _ E2).
  - intros H. injection H as _ <-. exact (get_review_items_raised _ _ _ E1).
Qed.

Lemma apply_update_raised now item_update data e :
  apply_update now item_update data = Raised e -> is_not_found e = false.
Proof.
  unfold apply_update.
  destruct (match review_items_array data with
            | Some review_items =>
                match update_in_array now item_update review_items with
                | Some l => Some (dset "review_items" (JList l) data)
                | None => None
                end
            | None => None
            end); [discriminate|].
  destruct (dget (req_item_name item_update) data) as [[| | | | | |d]|];
    try (intros H; injection H as <-; reflexivity).
  unfold update_legacy.
  destruct (py_iter _) as [elements|e0] eqn:E; cbn [bind].
  - destruct (jget "review_items" _); try discriminate;
      intros H; injection H as <-; reflexivity.
  - intros H. injection H as <-.
    exact (not_http_not_found _ (py_iter_raised _ E)).
Qed.

(** What [update_item] leaves in the two rows, by its result *)
Lemma update_item_outcome set_order now later item_id item_update db :
  forall db' result,
    update_item set_order now later item_id item_update db = (db', result) ->
    match result with
    | Raised e =>
        chart_row db' = chart_row db
        /\ (is_not_found e = true -> db' = db)
    | Returned _ =>
        exists extracted_data data',
          extracted_row db = Some extracted_data
          /\ apply_update now item_update (data extracted_data) = Returned data'
          /\ extracted_row db' = Some (with_data extracted_data data')
    end.
Proof.
  intros db' result. unfold update_item, get_chart_by_id,
    get_extracted_data_by_chart_id.
  destruct (chart_row db) as [chart|] eqn:Hc;
    [|intros H; injection H as <- <-; rewrite Hc; auto].
  destruct (extracted_row db) as [ed|] eqn:He;
    [|intros H; injection H as <- <-; rewrite Hc; auto].
  destruct (negb (Z.eqb (id ed) item_id));
    [intros H; injection H as <- <-; rewrite Hc; auto|].
  destruct (get_all_items_unified db) as [all_items|e];
    [|intros H; injection H as <- <-; rewrite Hc; auto].
  destruct (find_item_by_name all_items (req_item_name item_update));
    [|intros H; injection H as <- <-; rewrite Hc; auto].
  destruct (apply_update now item_update (data ed)) as [data'|e] eqn:Ha;
    [|intros H; injection H as <- <-; rewrite Hc; auto].
  set (db1 := with_extracted db (with_data ed data')).
  assert (Hc1 : chart_row db1 = Some chart) by exact Hc.
  destruct (get_all_items_unified db1) as [updated_items|e] eqn:Hu.
  2:{ intros H; injection H as <- <-. split; [exact Hc1|].
      rewrite (not_http_not_found _ (get_all_items_unified_raised _ Hu)).
      discriminate. }
  destruct (find_item_by_name updated_items (req_item_name item_update)).
  2:{ intros H; injection H as <- <-. split; [exact Hc1|discriminate]. }
  destruct (update_chart_review_status_after_item_update set_order later db1)
    as [db2 [u|e]] eqn:Hagg.
  - intros H. injection H as <- <-. exists ed, data'.
    split; [reflexivity|]. split; [exact Ha|].
    pose proof (after_item_update_extracted set_order later db1) as Hx.
    rewrite Hagg in Hx. exact Hx.
  - intros H. injection H as <- <-.
    rewrite (after_item_update_raised _ _ _ Hagg). split; [exact Hc1|].
    rewrite (not_http_not_found _ (after_item_update_not_http _ _ _ Hagg)).
    discriminate.
Qed.

End update_facts.

(** The scenario of the specification: "主訴" is approved on a legacy
    document without [review_items]; the request succeeds and the stored
    document holds the patched entry and the new array. *)
Example legacy_update_scenario :
  let now := "2025-07-01T10:00:00" in
  let patched :=
    [ ("raw_text", JStr "頭痛"); ("interpreted_text", JStr "頭痛");
      ("needs_review", JBool false); ("reviewed_by", JStr "dr.sato");
      ("reviewed_at", JStr now) ] in
  exists stored answer,
    review.update_item examples.insertion_order now "2025-07-01T10:00:01"
      7 update_facts.approve update_facts.legacy_stored
    = (stored, Returned answer)
    /\ option_map data (extracted_row stored)
       = Some [ ("主訴", JDict patched);
                ("review_items",
                  JList [JDict (patched ++ [("item_name", JStr "主訴")])]) ]
    /\ option_map needs_review (chart_row stored) = Some false
    /\ option_map reviewed_by (chart_row stored) = Some (JStr "dr.sato").
Proof.
  intros now patched. eexists _, _.
  split; [vm_compute; reflexivity|].
  repeat split; vm_compute; reflexivity.
Qed.

(** C8.  When the chart, the extraction result or the named field is
    missing, [update_item] answers 404 and leaves both rows as they were,
    and [update_item_review_status] returns [(None, False)] on rows it has
    not touched; whatever the failure of [update_item], the chart row is
    the one it started with, and a success has stored the updated
    document. *)
Theorem failed_update_writes_nothing
    (set_order : list string -> list string) (now later : string)
    (item_id : Z) (item_update : ItemUpdateRequest) (db : Db) :
  chart_row db = None
  \/ extracted_row db = None
  \/ update_facts.field_missing db (req_item_name item_update) ->
  (exists detail,
     review.update_item set_order now later item_id item_update db
     = (db, Raised (HTTPException 404 detail)))
  /\ (forall db' result,
        review.update_item set_order now later item_id item_update db
        = (db', result) ->
        match result with
        | Raised e =>
            chart_row db' = chart_row db
            /\ (update_facts.is_not_found e = true -> db' = db)
        | Returned _ =>
            exists extracted_data data',
              extracted_row db = Some extracted_data
              /\ review.apply_update now item_update (data extracted_data)
                 = Returned data'
              /\ extracted_row db' = Some (with_data extracted_data data')
        end)
  /\ (forall interpreted_text review_comment reviewed_by,
        extracted_row db = None
        \/ (exists extracted_data,
              extracted_row db = Some extracted_data
              /\ match db_service.review_items_array (data extracted_data) with
                 | Some review_items =>
                     db_service.find_index (req_item_name item_update)
                       review_items = None
                 | None =>
                     dget (req_item_name item_update) (data extracted_data)
                     = None
                 end) ->
        db_service.update_item_review_status now later db
          (req_item_name item_update) interpreted_text review_comment
          reviewed_by
        = (db, Returned (None, false))).
Proof.
  intros Hmissing. split; [|split].
  - unfold review.update_item, db_service.get_chart_by_id,
      db_service.get_extracted_data_by_chart_id.
    destruct (chart_row db) as [chart|]; [|eexists; reflexivity].
    destruct (extracted_row db) as [ed|] eqn:He; [|eexists; reflexivity].
    destruct (negb (Z.eqb (id ed) item_id)); [eexists; reflexivity|].
    destruct Hmissing as [H|[H|(items & Hitems & Hfind)]]; try discriminate.
    rewrite Hitems, Hfind. eexists; reflexivity.
  - apply update_facts.update_item_outcome.
  - intros it rc rb H. unfold db_service.update_item_review_status,
      db_service.get_extracted_data_by_chart_id.
    destruct H as [->|(ed & -> & H)]; [reflexivity|].
    destruct (db_service.review_items_array (data ed)); rewrite H; reflexivity.
Qed.

Lemma failed_update_writes_nothing_witness :
  exists detail,
    review.update_item examples.insertion_order "2025-07-01T10:00:00"
      "2025-07-01T10:00:01" 7 update_facts.approve update_facts.no_chart
    = (update_facts.no_chart, Raised (HTTPException 404 detail)).
Proof.
  exact (proj1 (@failed_update_writes_nothing examples.insertion_order
                  "2025-07-01T10:00:00" "2025-07-01T10:00:01" 7
                  update_facts.approve update_facts.no_chart
                  (or_introl eq_refl))).
Defined.

(** A request for a field the document does not hold is answered 404 and
    changes nothing. *)
Example unknown_field_scenario :
  let request :=
    {| req_item_name := "現病歴"; req_interpreted_text := None;
       req_review_comment := None; req_reviewed_by := "dr.sato" |} in
  update_facts.field_missing update_facts.legacy_stored "現病歴"
  /\ review.update_item examples.insertion_order "2025-07-01T10:00:00"
       "2025-07-01T10:00:01" 7 request update_facts.legacy_stored
     = (update_facts.legacy_stored,
        Raised (HTTPException 404 "Item '現病歴' not found")).
Proof.
  split; [eexists; split; vm_compute; reflexivity|vm_compute; reflexivity].
Qed.

(** ** The thresholds of a template run *)

Module threshold_facts.
Import chart_service.

(** A Template Item as [get_template_by_id] builds it from a row of
    [extraction_template_items]: its name and its three thresholds, which
    the schema and the columns fill with numbers (0.7, 0.8 and 0.7 when
    the request gives none) *)
Definition stored_item (name : string)
    (confidence_threshold text_similarity_threshold
       vector_similarity_threshold : float)
    (item : pydict) : Prop :=
  dget "name" item = Some (JStr name)
  /\ dget "confidence_threshold" item = Some (JNum confidence_threshold)
  /\ dget "text_similarity_threshold" item
     = Some (JNum text_similarity_threshold)
  /\ dget "vector_similarity_threshold" item
     = Some (JNum vector_similarity_threshold).

(** The items in front of it carry other names. *)
Definition other_names (name : string) (items : list pydict) : Prop :=
  forall other,
    In other items ->
    exists n, dget "name" other = Some (JStr n) /\ n <> name.

(** A Template Item that asks for no check of the text score: its
    [text_similarity_threshold] is 0.0 *)
Definition unchecked_item : pydict :=
  [ ("name", JStr "CC"); ("enabled", JBool true);
    ("confidence_threshold", JNum 0.95%float);
    ("text_similarity_threshold", JNum 0%float);
    ("vector_similarity_threshold", JNum 0.5%float) ].

Definition allergy_item : pydict :=
  [ ("name", JStr "allergy"); ("enabled", JBool true);
    ("confidence_threshold", JNum 0.7%float);
    ("text_similarity_threshold", JNum 0.8%float);
    ("vector_similarity_threshold", JNum 0.7%float) ].

Definition chief_complaint_raw : RawItem :=
  {| item_name := "CC"; raw_text := Some "abcdefghij" |}.

Definition chief_complaint_interpreted : InterpretedItem :=
  {| interpreted_item_name := "CC"; interpreted_text := Some "abcdefghiX" |}.

Lemma find_template_item_at (name : string) (before : list pydict)
    (item : pydict) (after : list pydict) :
  other_names name before ->
  dget "name" item = Some (JStr name) ->
  find_template_item (before ++ item :: after) name = Returned (Some item).
Proof.
  intros Hbefore Hitem.
  induction before as [|other rest IH]; cbn [app find_template_item].
  - rewrite Hitem. cbn [json_eq_str]. rewrite String.eqb_refl. reflexivity.
  - destruct (Hbefore other (or_introl eq_refl)) as (n & Hn & Hne).
    rewrite Hn. cbn [json_eq_str].
    apply String.eqb_neq in Hne. rewrite Hne.
    apply IH. intros o Ho. apply Hbefore. right. exact Ho.
Qed.

End threshold_facts.

(** C5, at the failing input.  In a template run the review decision of a
    field whose two texts are present is made with the thresholds of the
    Template Item that carries the name of the field: the text score is
    compared with the item's [text_similarity_threshold] and the vector
    score with its [vector_similarity_threshold], except that a threshold
    of 0.0 is taken as missing and the item's [confidence_threshold] is
    used in its place.  The record of the field stores the thresholds
    that were used. *)
Theorem zero_threshold_counts_as_missing
    (strip : string -> string) (len : string -> nat)
    (Levenshtein_distance : string -> string -> nat)
    (fuzz_ratio : string -> string -> float)
    (before after : list pydict) (template_item : pydict)
    (raw_item : RawItem) (interpreted : InterpretedItem)
    (raw interpreted_as : string)
    (confidence_threshold text_similarity_threshold
       vector_similarity_threshold : float) :
  threshold_facts.other_names (item_name raw_item) before ->
  threshold_facts.stored_item (item_name raw_item) confidence_threshold
    text_similarity_threshold vector_similarity_threshold template_item ->
  raw_text raw_item = Some raw ->
  interpreted_text interpreted = Some interpreted_as ->
  let text_score :=
    similarity_service.calculate_levenshtein_similarity strip len
      Levenshtein_distance (Some raw) (Some interpreted_as) in
  let vector_score :=
    similarity_service.calculate_semantic_similarity strip fuzz_ratio
      (Some raw) (Some interpreted_as) in
  let text_threshold :=
    if PrimFloat.eqb text_similarity_threshold 0
    then confidence_threshold else text_similarity_threshold in
  let vector_threshold :=
    if PrimFloat.eqb vector_similarity_threshold 0
    then confidence_threshold else vector_similarity_threshold in
  let decision :=
    PrimFloat.ltb text_score text_threshold
    || PrimFloat.ltb vector_score vector_threshold in
  exists record confidence,
    chart_service.review_item_of strip len Levenshtein_distance fuzz_ratio
      (before ++ template_item :: after) raw_item interpreted
    = Returned (record, decision, confidence)
    /\ dget "needs_review" record = Some (JBool decision)
    /\ dget "text_similarity_score" record = Some (JNum text_score)
    /\ dget "vector_similarity_score" record = Some (JNum vector_score)
    /\ dget "text_similarity_threshold" record = Some (JNum text_threshold)
    /\ dget "vector_similarity_threshold" record
       = Some (JNum vector_threshold).
Proof.
  intros Hbefore (Hname & Hc & Ht & Hv) Hraw Hint
    text_score vector_score text_threshold vector_threshold decision.
  assert (Hth : chart_service.item_thresholds (Some template_item)
                = (JNum text_threshold, JNum vector_threshold)).
  { unfold chart_service.item_thresholds, jget, dget_default.
    rewrite Ht, Hv, Hc. cbn [truthy negb].
    unfold text_threshold, vector_threshold.
    destruct (PrimFloat.eqb text_similarity_threshold 0),
      (PrimFloat.eqb vector_similarity_threshold 0); reflexivity. }
  unfold chart_service.review_item_of.
  rewrite (@threshold_facts.find_template_item_at (item_name raw_item)
             before template_item after Hbefore Hname).
  cbn [bind]. rewrite Hth, Hraw, Hint.
  cbn [process_chart.is_None orb negb].
  fold text_score. fold vector_score.
  unfold chart_service.item_needs_review, chart_service.score_lt.
  cbn [json_number bind].
  assert (Hd : (if PrimFloat.ltb text_score text_threshold then Returned true
                else Returned (PrimFloat.ltb vector_score vector_threshold))
               = Returned decision).
  { unfold decision.
    destruct (PrimFloat.ltb text_score text_threshold); reflexivity. }
  rewrite Hd. cbn [bind]. eexists _, _. split; [reflexivity|].
  repeat split; reflexivity.
Qed.

Lemma zero_threshold_counts_as_missing_witness :
  let text_score :=
    similarity_service.calculate_levenshtein_similarity ascii_metrics.strip
      ascii_metrics.len ascii_metrics.Levenshtein_distance
      (Some "abcdefghij") (Some "abcdefghiX") in
  let vector_score :=
    similarity_service.calculate_semantic_similarity ascii_metrics.strip
      ascii_metrics.fuzz_ratio (Some "abcdefghij") (Some "abcdefghiX") in
  let text_threshold :=
    if PrimFloat.eqb 0 0 then 0.95%float else 0%float in
  let vector_threshold :=
    if PrimFloat.eqb 0.5 0 then 0.95%float else 0.5%float in
  let decision :=
    PrimFloat.ltb text_score text_threshold
    || PrimFloat.ltb vector_score vector_threshold in
  exists record confidence,
    chart_service.review_item_of ascii_metrics.strip ascii_metrics.len
      ascii_metrics.Levenshtein_distance ascii_metrics.fuzz_ratio
      ([threshold_facts.allergy_item]
       ++ threshold_facts.unchecked_item :: [])
      threshold_facts.chief_complaint_raw
      threshold_facts.chief_complaint_interpreted
    = Returned (record, decision, confidence)
    /\ dget "needs_review" record = Some (JBool decision)
    /\ dget "text_similarity_score" record = Some (JNum text_score)
    /\ dget "vector_similarity_score" record = Some (JNum vector_score)
    /\ dget "text_similarity_threshold" record = Some (JNum text_threshold)
    /\ dget "vector_similarity_threshold" record
       = Some (JNum vector_threshold).
Proof.
  apply (@zero_threshold_counts_as_missing
           ascii_metrics.strip ascii_metrics.len
           ascii_metrics.Levenshtein_distance ascii_metrics.fuzz_ratio
           [threshold_facts.allergy_item] [] threshold_facts.unchecked_item
           threshold_facts.chief_complaint_raw
           threshold_facts.chief_complaint_interpreted
           "abcdefghij" "abcdefghiX" 0.95%float 0%float 0.5%float).
  - intros other [<-|[]]. exists "allergy". split; [reflexivity|discriminate].
  - repeat split.
  - reflexivity.
  - reflexivity.
Defined.

(** The failing input of C5: the Template Item of the field asks for a
    text threshold of 0.0 and a vector threshold of 0.5, the two scores
    of the field are 0.9, so no score is below its threshold; the run
    compares the text score with the item's [confidence_threshold] 0.95,
    sends the field to review and marks the chart. *)
Example zero_threshold_scenario :
  let template :=
    {| chart_service.template_name := "intake";
       chart_service.template_items :=
         [threshold_facts.allergy_item; threshold_facts.unchecked_item] |} in
  let run :=
    chart_service.process_chart_with_template ascii_metrics.strip
      ascii_metrics.len ascii_metrics.Levenshtein_distance
      ascii_metrics.fuzz_ratio examples.accepts
      "2025-07-01T10:00:00" 7 "c-1" (Some template) "t-1"
      (Returned (Some "jpeg"))
      (fun _ => gemini_service.AttemptReturns
                  [threshold_facts.chief_complaint_raw])
      (fun _ => gemini_service.AttemptReturns
                  [threshold_facts.chief_complaint_interpreted])
      examples.uploaded in
  option_map
    (fun e =>
       map (fun record =>
              (process_chart.record_get "text_similarity_score" record,
               process_chart.record_get "vector_similarity_score" record,
               process_chart.record_get "text_similarity_threshold" record,
               process_chart.record_get "vector_similarity_threshold" record,
               process_chart.record_get "needs_review" record))
           (process_chart_facts.review_items_of (data e)))
    (extracted_row (fst run))
  = Some [ (JNum 0.9%float, JNum 0.9%float, JNum 0.95%float, JNum 0.5%float,
            JBool true) ]
  /\ option_map needs_review (chart_row (fst run)) = Some true
  /\ PrimFloat.ltb 0.9 0 || PrimFloat.ltb 0.9 0.5 = false.
Proof.
  repeat split; vm_compute; reflexivity.
Qed.

(** ** A run whose second stage fails *)

Module failure_facts.
Import process_chart.

(** The locals of the loop for a field whose interpretation is missing:
    the raw text stands in for the interpreted text, the two scores are
    set to zero and both flags are raised. *)
Definition failed_item (raw : option string) : ItemScore :=
  {| sc_raw_text := raw;
     sc_interpreted_text := raw;
     sc_similarity_score := 0%float;
     sc_confidence_score := 0%float;
     sc_needs_review := true;
     sc_error_occurred := true |}.

Definition quota_exceeded : exn := PyExc "ResourceExhausted" "429 quota exceeded".

(** What a reader finds in the record of a field whose raw text stood in
    for the interpreted text *)
Definition stands_in (name : string) (raw : option string) (record : json)
    : Prop :=
  record_get "item_name" record = JStr name
  /\ record_get "raw_text" record = json_of_text raw
  /\ record_get "interpreted_text" record = json_of_text raw
  /\ record_get "similarity_score" record = JNum 0%float
  /\ record_get "confidence_score" record = JNum 0%float
  /\ record_get "error_occurred" record = JBool true
  /\ record_get "needs_review" record = JBool true.

Lemma Forall2_map (A B : Type) (P : A -> B -> Prop) (f : A -> B) l :
  (forall a, P a (f a)) -> Forall2 P l (map f l).
Proof.
  intros H. induction l as [|a l IH]; constructor; [apply H|exact IH].
Qed.

Lemma score_item_without_interpretation
    strip len Levenshtein_distance fuzz_ratio raw_dict k :
  score_item strip len Levenshtein_distance fuzz_ratio raw_dict [] k
  = failed_item (text_get k raw_dict).
Proof.
  unfold score_item, failed_item.
  change (text_get k []) with (@None string).
  destruct (text_get k raw_dict); reflexivity.
Qed.

(** When every pass raises, the loop gives up with the exception of the
    last pass. *)
Lemma retries_exhausted (A : Type) unexpected
    (outcome : nat -> gemini_service.attempt A) (errors : nat -> exn) :
  (forall n, n <= gemini_service.max_retries ->
             outcome n = gemini_service.AttemptRaises (errors n)) ->
  gemini_service.retry_from unexpected outcome 0
    (S gemini_service.max_retries)
  = Raised (errors gemini_service.max_retries).
Proof.
  intros H. unfold gemini_service.max_retries in *. cbn [gemini_service.retry_from].
  rewrite (H 0), (H 1), (H 2), (H 3) by lia. reflexivity.
Qed.

End failure_facts.

(** C1, as amended.  When stage 1 has returned a non-empty list of fields
    and every pass of stage 2 raises, the last one with a non-empty
    message, the document of the run holds in [review_items] one record
    per field name, whose [interpreted_text] is the [raw_text], whose two
    scores are 0.0 without the scorer being run, and whose
    [error_occurred] and [needs_review] are true.  When the database
    stores that document the run ends in [PARTIAL_SUCCESS] with the chart
    marked for review and the message of the failure; when the database
    refuses it the run ends in [FAILED] and the stored result is the one
    the run started with. *)
Theorem stage2_failure_partial_success
    (strip : string -> string) (len : string -> nat)
    (Levenshtein_distance : string -> string -> nat)
    (fuzz_ratio : string -> string -> float)
    (set_order : list string -> list string)
    (set_order_perm : forall l, Permutation (set_order l) l)
    (commit : pydict -> pyresult unit)
    (now : string) (new_id : Z) (gcs_uri : string)
    (c : Ascii.ascii) (image : string)
    (stage1 : nat -> gemini_service.attempt (list RawItem))
    (stage2 : nat -> gemini_service.attempt (list InterpretedItem))
    (errors : nat -> exn)
    (first : RawItem) (others : list RawItem)
    (chart : Chart) (extracted : option ExtractedData) :
  gemini_service.extract_raw_data_from_image stage1
  = Returned (first :: others) ->
  (forall n, n <= gemini_service.max_retries ->
             stage2 n = gemini_service.AttemptRaises (errors n)) ->
  exn_str (errors gemini_service.max_retries) <> "" ->
  let db :=
    process_chart.run_extraction_task strip len Levenshtein_distance
      fuzz_ratio set_order commit now new_id gcs_uri
      (Returned (Some (String c image))) stage1 stage2
      {| chart_row := Some chart; extracted_row := extracted |} in
  let document :=
    fst (fst (process_chart.process_extracted_items strip len
                Levenshtein_distance fuzz_ratio set_order
                (first :: others) [])) in
  let raw_dict := process_chart.raw_dict_of (first :: others) in
  (exists keys records,
     NoDup keys
     /\ (forall k, In k keys <-> In k (map item_name (first :: others)))
     /\ dget "review_items" document = Some (JList records)
     /\ Forall2
          (fun k record =>
             failure_facts.stands_in k (process_chart.text_get k raw_dict)
               record)
          keys records)
  /\ (commit document = Returned tt ->
      option_map status (chart_row db) = Some PARTIAL_SUCCESS
      /\ option_map needs_review (chart_row db) = Some true
      /\ option_map error_message (chart_row db)
         = Some (Some ("Text interpretation failed: "
                       ++ exn_str (errors gemini_service.max_retries)))
      /\ extracted_row db = Some {| id := new_id; data := document |})
  /\ (forall e,
        commit document = Raised e ->
        option_map status (chart_row db) = Some FAILED
        /\ option_map error_message (chart_row db)
           = Some (Some ("Error processing chart: " ++ exn_str e))
        /\ extracted_row db = extracted).
Proof.
  intros Hstage1 Hstage2 Hmsg db document raw_dict.
  pose proof (@process_chart_facts.process_extracted_items_document
                strip len Levenshtein_distance fuzz_ratio set_order
                set_order_perm (first :: others) [])
    as (Hri & _).
  fold document in Hri.
  assert (Hne : String.eqb (exn_str (errors gemini_service.max_retries)) ""
                = false) by (apply String.eqb_neq; exact Hmsg).
  assert (Hrun :
    db = match db_service.create_extracted_data_jsonb commit now new_id
                 {| chart_row := Some (set_status chart PROCESSING);
                    extracted_row := extracted |}
                 document
                 (Some (snd (process_chart.process_extracted_items strip len
                               Levenshtein_distance fuzz_ratio set_order
                               (first :: others) [])))
                 true with
         | (db1, Raised e) =>
             db_service.update_chart_status db1 FAILED
               (Some ("Error processing chart: " ++ exn_str e))
         | (db1, Returned _) =>
             db_service.update_chart_status db1 PARTIAL_SUCCESS
               (Some ("Text interpretation failed: "
                      ++ exn_str (errors gemini_service.max_retries)))
         end).
  { unfold db, document, process_chart.run_extraction_task.
    rewrite Hstage1.
    unfold gemini_service.interpret_extracted_data.
    rewrite (failure_facts.retries_exhausted _ _ errors Hstage2).
    cbn [json_of_text truthy String.eqb negb length Nat.eqb].
    destruct (process_chart.process_extracted_items strip len
                Levenshtein_distance fuzz_ratio set_order (first :: others) [])
      as [[jsonb_data needs] confidence].
    rewrite Hne. cbn [negb fst snd]. reflexivity. }
  split; [|split].
  - exists (process_chart_facts.all_keys set_order (first :: others) []).
    eexists. split;
      [apply process_chart_facts.all_keys_NoDup; exact set_order_perm|].
    split.
    { intros k.
      rewrite (@process_chart_facts.all_keys_In set_order set_order_perm).
      unfold process_chart_facts.field_names. cbn [map app].
      rewrite app_nil_r. reflexivity. }
    split; [exact Hri|].
    apply failure_facts.Forall2_map. intros k.
    change (process_chart.interpreted_dict_of [])
      with (@nil (string * option string)).
    rewrite failure_facts.score_item_without_interpretation.
    fold raw_dict. repeat split.
  - intros Hc. rewrite Hrun.
    unfold db_service.create_extracted_data_jsonb. cbn [chart_row].
    rewrite Hc. cbn. repeat split.
  - intros e Hc. rewrite Hrun.
    unfold db_service.create_extracted_data_jsonb. cbn [chart_row].
    rewrite Hc. cbn. repeat split.
Qed.

Lemma stage2_failure_partial_success_witness :
  let stage1 := fun _ : nat =>
    gemini_service.AttemptReturns examples.blood_pressure_raw in
  let stage2 := fun _ : nat =>
    @gemini_service.AttemptRaises (list InterpretedItem)
      failure_facts.quota_exceeded in
  let db :=
    examples.run_extraction_task "2025-07-01T09:00:00" 1 "gs://charts/1.jpg"
      (Returned (Some "image")) stage1 stage2 examples.uploaded in
  let document :=
    fst (fst (examples.process_extracted_items examples.blood_pressure_raw
                [])) in
  let raw_dict := process_chart.raw_dict_of examples.blood_pressure_raw in
  (exists keys records,
     NoDup keys
     /\ (forall k, In k keys
                   <-> In k (map item_name examples.blood_pressure_raw))
     /\ dget "review_items" document = Some (JList records)
     /\ Forall2
          (fun k record =>
             failure_facts.stands_in k (process_chart.text_get k raw_dict)
               record)
          keys records)
  /\ (examples.accepts document = Returned tt ->
      option_map status (chart_row db) = Some PARTIAL_SUCCESS
      /\ option_map needs_review (chart_row db) = Some true
      /\ option_map error_message (chart_row db)
         = Some (Some ("Text interpretation failed: "
                       ++ exn_str failure_facts.quota_exceeded))
      /\ extracted_row db = Some {| id := 1; data := document |})
  /\ (forall e,
        examples.accepts document = Raised e ->
        option_map status (chart_row db) = Some FAILED
        /\ option_map error_message (chart_row db)
           = Some (Some ("Error processing chart: " ++ exn_str e))
        /\ extracted_row db = None).
Proof.
  apply (@stage2_failure_partial_success
           ascii_metrics.strip ascii_metrics.len
           ascii_metrics.Levenshtein_distance ascii_metrics.fuzz_ratio
           examples.insertion_order examples.insertion_order_perm
           examples.accepts
           "2025-07-01T09:00:00" 1 "gs://charts/1.jpg"
           "i"%char "mage"
           (fun _ => gemini_service.AttemptReturns examples.blood_pressure_raw)
           (fun _ => gemini_service.AttemptRaises failure_facts.quota_exceeded)
           (fun _ => failure_facts.quota_exceeded)
           {| item_name := "BP"; raw_text := Some "120/80mmHg" |} []
           examples.pending_chart None).
  - reflexivity.
  - intros n _. reflexivity.
  - discriminate.
Defined.

(** C1, as stated, fails in three ways.  The scorer is not run on the raw
    text: the record of a field whose interpretation failed carries the
    scores 0.0, where the raw text scored against itself gives 1.0.  And
    when the exception of the last pass has an empty message and the only
    field is named like a top-level key of the unified structure, the run
    ends in [COMPLETED]: the empty message is falsy in
    [if interpretation_error:], and the record whose [error_occurred] is
    set lies only in [review_items], since the entry under the field name
    was overwritten with [None].  And when the database refuses the
    document, here for a raw text that holds the character U+0000, the
    run ends in [FAILED] and nothing is stored. *)
Lemma stage2_failure_as_stated_fails :
  let run stage1 stage2 :=
    examples.run_extraction_task "2025-07-01T09:00:00" 1 "gs://charts/1.jpg"
      (Returned (Some "image")) stage1 stage2 examples.uploaded in
  let scored :=
    run (fun _ => gemini_service.AttemptReturns examples.blood_pressure_raw)
        (fun _ => gemini_service.AttemptRaises failure_facts.quota_exceeded) in
  let silent := fun _ : nat =>
    @gemini_service.AttemptRaises (list InterpretedItem) (PyExc "Exception" "") in
  let completed :=
    run (fun _ => gemini_service.AttemptReturns examples.template_name_raw)
        silent in
  let refused :=
    process_chart.run_extraction_task ascii_metrics.strip ascii_metrics.len
      ascii_metrics.Levenshtein_distance ascii_metrics.fuzz_ratio
      examples.insertion_order examples.postgres
      "2025-07-01T09:00:00" 1 "gs://charts/1.jpg" (Returned (Some "image"))
      (fun _ => gemini_service.AttemptReturns examples.unreadable_raw)
      (fun _ => gemini_service.AttemptRaises failure_facts.quota_exceeded)
      examples.uploaded in
  (option_map
     (fun e =>
        map (fun item =>
               (process_chart.record_get "similarity_score" item,
                process_chart.record_get "confidence_score" item))
            (process_chart_facts.review_items_of (data e)))
     (extracted_row scored)
   = Some [(JNum 0%float, JNum 0%float)]
   /\ similarity_service.calculate_levenshtein_similarity ascii_metrics.strip
        ascii_metrics.len ascii_metrics.Levenshtein_distance
        (Some "120/80mmHg") (Some "120/80mmHg") = 1%float
   /\ similarity_service.calculate_semantic_similarity ascii_metrics.strip
        ascii_metrics.fuzz_ratio (Some "120/80mmHg") (Some "120/80mmHg")
      = 1%float)
  /\ (gemini_service.interpret_extracted_data silent
      = Raised (PyExc "Exception" "")
      /\ option_map status (chart_row completed) = Some COMPLETED
      /\ option_map status (chart_row completed) <> Some PARTIAL_SUCCESS
      /\ option_map
           (fun e => process_chart.any_error_occurred (data e))
           (extracted_row completed)
         = Some false)
  /\ (option_map status (chart_row refused) = Some FAILED
      /\ option_map error_message (chart_row refused)
         = Some (Some "Error processing chart: unsupported Unicode escape sequence")
      /\ extracted_row refused = None).
Proof.
  split; [|split].
  - repeat split; vm_compute; reflexivity.
  - split; [vm_compute; reflexivity|]. split; [vm_compute; reflexivity|].
    split; [|vm_compute; reflexivity].
    intros H. vm_compute in H. discriminate H.
  - repeat split; vm_compute; reflexivity.
Qed.

(** * Further properties of the code *)

(** ** The retry loop of the two provider calls *)

Module retry_facts.
Import gemini_service.

Lemma retry_from_agree (A : Type) unexpected
    (outcome outcome' : nat -> attempt A) :
  (forall n, n <= max_retries -> outcome n = outcome' n) ->
  retry_from unexpected outcome 0 (S max_retries)
  = retry_from unexpected outcome' 0 (S max_retries).
Proof.
  intros H. unfold max_retries in *. cbn [retry_from].
  rewrite (H 0), (H 1), (H 2), (H 3) by lia. reflexivity.
Qed.

Lemma retry_from_first_success (A : Type) unexpected
    (outcome : nat -> attempt A) (errors : nat -> exn) (k : nat) (v : A) :
  k <= max_retries ->
  (forall n, n < k -> outcome n = AttemptRaises (errors n)) ->
  outcome k = AttemptReturns v ->
  retry_from unexpected outcome 0 (S max_retries) = Returned v.
Proof.
  unfold max_retries. intros Hk Hbefore Hv. cbn [retry_from].
  destruct k as [|[|[|[|k]]]]; try lia.
  - rewrite Hv. reflexivity.
  - rewrite (Hbefore 0), Hv by lia. reflexivity.
  - rewrite (Hbefore 0), (Hbefore 1), Hv by lia. reflexivity.
  - rewrite (Hbefore 0), (Hbefore 1), (Hbefore 2), Hv by lia. reflexivity.
Qed.

(** Three failures, then an answer *)
Definition flaky (A : Type) (answer : A) (n : nat) : attempt A :=
  if Nat.ltb n 3 then AttemptRaises (PyExc "ServiceUnavailable" "503")
  else AttemptReturns answer.

(** An answer that comes one pass too late *)
Definition too_late (A : Type) (answer : A) (n : nat) : attempt A :=
  if Nat.ltb n 4 then AttemptRaises (PyExc "ServiceUnavailable" "503")
  else AttemptReturns answer.

End retry_facts.

(** X1.  Both provider calls return the value of the first pass that
    succeeds, when it is among the first [max_retries + 1] passes and the
    passes before it raised. *)
Theorem provider_call_first_success
    (A : Type) (outcome : nat -> gemini_service.attempt A)
    (errors : nat -> exn) (k : nat) (v : A) :
  k <= gemini_service.max_retries ->
  (forall n, n < k -> outcome n = gemini_service.AttemptRaises (errors n)) ->
  outcome k = gemini_service.AttemptReturns v ->
  gemini_service.extract_raw_data_from_image outcome = Returned v
  /\ gemini_service.interpret_extracted_data outcome = Returned v.
Proof.
  intros Hk Hb Hv. split;
    exact (retry_facts.retry_from_first_success _ outcome errors Hk Hb Hv).
Qed.

Lemma provider_call_first_success_witness :
  gemini_service.extract_raw_data_from_image
    (retry_facts.flaky examples.blood_pressure_raw)
  = Returned examples.blood_pressure_raw
  /\ gemini_service.interpret_extracted_data
       (retry_facts.flaky examples.blood_pressure_raw)
     = Returned examples.blood_pressure_raw.
Proof.
  apply (@provider_call_first_success _
           (retry_facts.flaky examples.blood_pressure_raw)
           (fun _ => PyExc "ServiceUnavailable" "503") 3
           examples.blood_pressure_raw).
  - unfold gemini_service.max_retries. lia.
  - intros n Hn. unfold retry_facts.flaky.
    destruct n as [|[|[|n]]]; try reflexivity; lia.
  - reflexivity.
Defined.

(** X2.  A provider call makes at most [max_retries + 1] passes: its
    result depends on the outcomes of the first four passes only, and
    when all four raise it raises the exception of the last of them. *)
Theorem provider_call_retry_cap
    (A : Type) (outcome outcome' : nat -> gemini_service.attempt A)
    (errors : nat -> exn) :
  (forall n, n <= gemini_service.max_retries -> outcome n = outcome' n) ->
  gemini_service.extract_raw_data_from_image outcome
  = gemini_service.extract_raw_data_from_image outcome'
  /\ gemini_service.interpret_extracted_data outcome
     = gemini_service.interpret_extracted_data outcome'
  /\ ((forall n, n <= gemini_service.max_retries ->
                 outcome n = gemini_service.AttemptRaises (errors n)) ->
      gemini_service.extract_raw_data_from_image outcome'
      = Raised (errors gemini_service.max_retries)
      /\ gemini_service.interpret_extracted_data outcome'
         = Raised (errors gemini_service.max_retries)).
Proof.
  intros Hagree. split; [|split].
  - exact (retry_facts.retry_from_agree _ outcome outcome' Hagree).
  - exact (retry_facts.retry_from_agree _ outcome outcome' Hagree).
  - intros Hraise.
    assert (Hraise' : forall n, n <= gemini_service.max_retries ->
                        outcome' n = gemini_service.AttemptRaises (errors n)).
    { intros n Hn. rewrite <- (Hagree n Hn). exact (Hraise n Hn). }
    split; exact (failure_facts.retries_exhausted _ outcome' errors Hraise').
Qed.

Lemma provider_call_retry_cap_witness :
  gemini_service.extract_raw_data_from_image
    (fun _ => @gemini_service.AttemptRaises (list RawItem)
                (PyExc "ServiceUnavailable" "503"))
  = gemini_service.extract_raw_data_from_image
      (retry_facts.too_late examples.blood_pressure_raw)
  /\ gemini_service.extract_raw_data_from_image
       (retry_facts.too_late examples.blood_pressure_raw)
     = Raised (PyExc "ServiceUnavailable" "503").
Proof.
  assert (H : forall n, n <= gemini_service.max_retries ->
                (fun _ : nat => @gemini_service.AttemptRaises (list RawItem)
                                  (PyExc "ServiceUnavailable" "503")) n
                = retry_facts.too_late examples.blood_pressure_raw n).
  { unfold gemini_service.max_retries. intros n Hn.
    unfold retry_facts.too_late.
    destruct n as [|[|[|[|n]]]]; try reflexivity; lia. }
  destruct (@provider_call_retry_cap _ _ _
              (fun _ => PyExc "ServiceUnavailable" "503") H)
    as (H1 & _ & H3).
  split; [exact H1|]. apply H3. intros n _. reflexivity.
Defined.

(** ** The endings of a default run *)

Module run_facts.
Import process_chart.

(** The four causes for which [run_extraction_task] gives the run up
    before it has a document, each with the message it stores *)
Definition fatal (gcs_uri : string) (download : pyresult (option string))
    (stage1 : nat -> gemini_service.attempt (list RawItem))
    (message : string) : Prop :=
  (exists e, download = Raised e
             /\ message = "Error processing chart: " ++ exn_str e)
  \/ (exists image, download = Returned image
                    /\ truthy (json_of_text image) = false
                    /\ message = "Failed to download image from " ++ gcs_uri)
  \/ (exists image, download = Returned image
                    /\ truthy (json_of_text image) = true
                    /\ ((exists e,
                           gemini_service.extract_raw_data_from_image stage1
                           = Raised e
                           /\ message
                              = "Error during raw text extraction: " ++ exn_str e)
                        \/ (gemini_service.extract_raw_data_from_image stage1
                            = Returned []
                            /\ message = "Failed to extract raw data from image"))).

Definition failed_before : Chart :=
  {| status := FAILED; error_message := Some "Failed to download image from gs://charts/1.jpg";
     overall_confidence_score := None; needs_review := false;
     reviewed_by := JNull; reviewed_at := None; template_id := None |}.

Definition retried : Db :=
  {| chart_row := Some failed_before; extracted_row := None |}.

Section Run.
Variable strip : string -> string.
Variable len : string -> nat.
Variable Levenshtein_distance : string -> string -> nat.
Variable fuzz_ratio : string -> string -> float.
Variable set_order : list string -> list string.
Variable commit : pydict -> pyresult unit.

Local Notation run :=
  (run_extraction_task strip len Levenshtein_distance fuzz_ratio set_order
     commit).

(** The document the run asks the database to store, when stage 1 has
    returned [raw_items]: stage 2 contributes its items, or none when it
    raised. *)
Definition document_of (raw_items : list RawItem)
    (stage2 : nat -> gemini_service.attempt (list InterpretedItem))
    : pydict :=
  fst (fst (process_extracted_items strip len Levenshtein_distance
              fuzz_ratio set_order raw_items
              match gemini_service.interpret_extracted_data stage2 with
              | Returned items => items
              | Raised _ => []
              end)).

(** The fifth cause: both checks of the image and of stage 1 are passed
    and the database refuses the document. *)
Definition refused (download : pyresult (option string))
    (stage1 : nat -> gemini_service.attempt (list RawItem))
    (stage2 : nat -> gemini_service.attempt (list InterpretedItem))
    (message : string) : Prop :=
  exists image first others e,
    download = Returned image
    /\ truthy (json_of_text image) = true
    /\ gemini_service.extract_raw_data_from_image stage1
       = Returned (first :: others)
    /\ commit (document_of (first :: others) stage2) = Raised e
    /\ message = "Error processing chart: " ++ exn_str e.

(** Every way through [run_extraction_task] on an existing chart *)
Lemma run_cases now new_id gcs_uri download stage1 stage2 chart extracted :
  let db' :=
    run now new_id gcs_uri download stage1 stage2
      {| chart_row := Some chart; extracted_row := extracted |} in
  (exists message,
     (fatal gcs_uri download stage1 message
      \/ refused download stage1 stage2 message)
     /\ db' = {| chart_row :=
                   Some (set_error_message (set_status chart FAILED) message);
                 extracted_row := extracted |})
  \/ (exists chart' document,
        db' = {| chart_row := Some chart';
                 extracted_row := Some {| id := new_id; data := document |} |}
        /\ (status chart' = COMPLETED
            /\ error_message chart' = error_message chart
            \/ status chart' = PARTIAL_SUCCESS)
        /\ (forall message, ~ fatal gcs_uri download stage1 message)
        /\ (forall message, ~ refused download stage1 stage2 message)).
Proof.
  unfold run_extraction_task.
  destruct download as [image|e].
  2:{ left. eexists. split; [left; left; eexists; split; reflexivity|reflexivity]. }
  destruct (truthy (json_of_text image)) eqn:Himg; cbn [negb].
  2:{ left. eexists. split; [|reflexivity].
      left; right; left. exists image. repeat split; auto. }
  destruct (gemini_service.extract_raw_data_from_image stage1)
    as [[|r rs]|e] eqn:H1.
  3:{ left. eexists. split; [|reflexivity].
      left; right; right. exists image. repeat split; auto. left. eauto. }
  1:{ left. eexists. split; [|reflexivity].
      left; right; right. exists image. repeat split; auto. }
  assert (Hnot : forall message, ~ fatal gcs_uri (Returned image) stage1 message).
  { intros m [(e & He & _)|[(i & Hi & Hf & _)|(i & Hi & _ & [(e & He & _)|(He & _)])]];
      try discriminate; try (rewrite H1 in He; discriminate).
    injection Hi as <-. rewrite Himg in Hf. discriminate. }
  cbn [length Nat.eqb].
  assert (Hdoc :
    forall items,
      match gemini_service.interpret_extracted_data stage2 with
      | Returned items' => items'
      | Raised _ => []
      end = items ->
      forall doc nr conf st message flag,
        process_extracted_items strip len Levenshtein_distance fuzz_ratio
          set_order (r :: rs) items = (doc, nr, conf) ->
        (st = COMPLETED /\ message = None \/ st = PARTIAL_SUCCESS) ->
        let db1 :=
          {| chart_row := Some (set_status chart PROCESSING);
             extracted_row := extracted |} in
        let db' :=
          match db_service.create_extracted_data_jsonb commit now new_id db1
                  doc (Some conf) flag with
          | (db, Raised e) =>
              db_service.update_chart_status db FAILED
                (Some ("Error processing chart: " ++ exn_str e))
          | (db, Returned _) => db_service.update_chart_status db st message
          end in
        (exists m,
           (fatal gcs_uri (Returned image) stage1 m
            \/ refused (Returned image) stage1 stage2 m)
           /\ db' = {| chart_row :=
                         Some (set_error_message (set_status chart FAILED) m);
                       extracted_row := extracted |})
        \/ (exists chart' document,
              db' = {| chart_row := Some chart';
                       extracted_row :=
                         Some {| id := new_id; data := document |} |}
              /\ (status chart' = COMPLETED
                  /\ error_message chart' = error_message chart
                  \/ status chart' = PARTIAL_SUCCESS)
              /\ (forall m, ~ fatal gcs_uri (Returned image) stage1 m)
              /\ (forall m, ~ refused (Returned image) stage1 stage2 m))).
  { intros items Hitems doc nr conf st message flag Hp Hst db1 db'.
    assert (Hd : document_of (r :: rs) stage2 = doc).
    { unfold document_of. rewrite Hitems, Hp. reflexivity. }
    unfold db', db_service.create_extracted_data_jsonb. cbn [chart_row db1].
    destruct (commit doc) as [u|e] eqn:Hc.
    - right. eexists _, doc. split; [|split; [|split; [exact Hnot|]]].
      + unfold db_service.update_chart_status, db_service.get_chart_by_id,
          db_service.update_chart_review_status.
        cbn [chart_row with_chart with_extracted extracted_row].
        reflexivity.
      + destruct Hst as [[-> ->] | ->]; [left|right].
        * split; reflexivity.
        * destruct message as [m|]; [destruct (String.eqb m "")|];
            reflexivity.
      + intros m (i & f & o & e & Hi & _ & H1' & Hc' & _).
        rewrite H1 in H1'. injection H1' as <- <-.
        rewrite Hd, Hc in Hc'. discriminate.
    - left. eexists. split; [|reflexivity].
      right. exists image, r, rs, e. rewrite Hd. repeat split; auto. }
  destruct (gemini_service.interpret_extracted_data stage2) as [items|e]
    eqn:H2.
  - destruct (process_extracted_items strip len Levenshtein_distance
                fuzz_ratio set_order (r :: rs) items)
      as [[doc nr] conf] eqn:Hp.
    cbn [json_of_text truthy].
    destruct (any_error_occurred doc).
    + apply (Hdoc items eq_refl doc nr conf PARTIAL_SUCCESS _ nr Hp).
      right. reflexivity.
    + apply (Hdoc items eq_refl doc nr conf COMPLETED None nr Hp).
      left. split; reflexivity.
  - destruct (process_extracted_items strip len Levenshtein_distance
                fuzz_ratio set_order (r :: rs) [])
      as [[doc nr] conf] eqn:Hp.
    destruct (truthy (json_of_text (Some (exn_str e)))).
    + apply (Hdoc [] eq_refl doc nr conf PARTIAL_SUCCESS _ true Hp).
      right. reflexivity.
    + destruct (any_error_occurred doc).
      * apply (Hdoc [] eq_refl doc nr conf PARTIAL_SUCCESS _ nr Hp).
        right. reflexivity.
      * apply (Hdoc [] eq_refl doc nr conf COMPLETED None nr Hp).
        left. split; reflexivity.
Qed.
End Run.

End run_facts.


(** X4.  On an existing chart, and for answers of the two stages that
    are lists of items with a name and a text, [run_extraction_task] ends
    in [FAILED] exactly for five causes: the download raises, the image
    is missing or empty, stage 1 raises on its last pass, stage 1 returns
    an empty list, or the database refuses the document of the run.  The
    chart then carries the message of that cause and the stored result
    is the one the run started with.  A failure of stage 2 is none of
    them. *)
Theorem run_fails_for_five_causes
    strip len Levenshtein_distance fuzz_ratio set_order
    (commit : pydict -> pyresult unit)
    (now : string) (new_id : Z) (gcs_uri : string)
    (download : pyresult (option string))
    (stage1 : nat -> gemini_service.attempt (list RawItem))
    (stage2 : nat -> gemini_service.attempt (list InterpretedItem))
    (chart : Chart) (extracted : option ExtractedData) :
  let db' :=
    process_chart.run_extraction_task strip len Levenshtein_distance
      fuzz_ratio set_order commit now new_id gcs_uri download stage1 stage2
      {| chart_row := Some chart; extracted_row := extracted |} in
  let cause message :=
    run_facts.fatal gcs_uri download stage1 message
    \/ run_facts.refused strip len Levenshtein_distance fuzz_ratio set_order
         commit download stage1 stage2 message in
  (option_map status (chart_row db') = Some FAILED
   <-> exists message, cause message)
  /\ (forall message,
        cause message ->
        option_map error_message (chart_row db') = Some (Some message)
        /\ extracted_row db' = extracted).
Proof.
  intros db' cause.
  destruct (run_facts.run_cases strip len Levenshtein_distance fuzz_ratio
              set_order commit now new_id gcs_uri download stage1 stage2
              chart extracted)
    as [(m & Hm & H)|(c' & doc & H & Hs & Hnot & Hnot')]; fold db' in H;
    rewrite H; cbn [chart_row extracted_row option_map].
  - split; [split; [intros _; exists m; exact Hm|reflexivity]|].
    intros m' Hm'.
    assert (m' = m).
    { clear H db'. unfold cause in Hm'. clear cause.
      destruct Hm as [Hm|(i & f & o & e & Hi & Ht & H1 & Hc & ->)];
        destruct Hm' as [Hm'|(i' & f' & o' & e' & Hi' & Ht' & H1' & Hc' & ->)].
      - destruct Hm as [(e & He & ->)|[(i & Hi & Hf & ->)|(i & Hi & Ht & [(e & He & ->)|(He & ->)])]];
        destruct Hm' as [(e' & He' & ->)|[(i' & Hi' & Hf' & ->)|(i' & Hi' & Ht' & [(e' & He' & ->)|(He' & ->)])]];
        subst; try discriminate; try reflexivity;
        try (injection He' as <-; reflexivity);
        try (injection Hi' as <-; congruence);
        try (rewrite He in He'; discriminate);
        try (rewrite He in He'; injection He' as <-; reflexivity).
      - exfalso.
        destruct Hm as [(e & He & _)|[(i & Hi & Hf & _)|(i & Hi & _ & [(e & He & _)|(He & _)])]];
          subst; try discriminate;
          try (injection Hi' as <-; congruence);
          try (rewrite H1' in He; discriminate).
      - exfalso.
        destruct Hm' as [(e' & He' & _)|[(i' & Hi' & Hf' & _)|(i' & Hi' & _ & [(e' & He' & _)|(He' & _)])]];
          subst; try discriminate;
          try (injection Hi' as <-; congruence);
          try (rewrite H1 in He'; discriminate).
      - rewrite H1 in H1'. injection H1' as <- <-.
        rewrite Hc in Hc'. injection Hc' as <-. reflexivity. }
    subst m'. split; reflexivity.
  - split.
    + split.
      * intros Hf. exfalso.
        destruct Hs as [[Hs _]|Hs]; cbn in Hf; rewrite Hs in Hf; discriminate.
      * intros (m & [Hm|Hm]); exfalso;
          [exact (Hnot m Hm)|exact (Hnot' m Hm)].
    + intros m [Hm|Hm]; exfalso; [exact (Hnot m Hm)|exact (Hnot' m Hm)].
Qed.

Lemma run_fails_for_five_causes_witness :
  let db' :=
    process_chart.run_extraction_task ascii_metrics.strip ascii_metrics.len
      ascii_metrics.Levenshtein_distance ascii_metrics.fuzz_ratio
      examples.insertion_order examples.postgres
      "2025-07-01T09:00:00" 1 "gs://charts/1.jpg"
      (Returned (Some "image"))
      (fun _ => gemini_service.AttemptReturns examples.unreadable_raw)
      (fun _ => gemini_service.AttemptReturns
                  examples.blood_pressure_interpreted)
      examples.uploaded in
  option_map error_message (chart_row db')
  = Some (Some "Error processing chart: unsupported Unicode escape sequence")
  /\ extracted_row db' = None.
Proof.
  apply (proj2 (@run_fails_for_five_causes
                  ascii_metrics.strip ascii_metrics.len
                  ascii_metrics.Levenshtein_distance ascii_metrics.fuzz_ratio
                  examples.insertion_order examples.postgres
                  "2025-07-01T09:00:00" 1
                  "gs://charts/1.jpg" (Returned (Some "image"))
                  (fun _ => gemini_service.AttemptReturns
                              examples.unreadable_raw)
                  (fun _ => gemini_service.AttemptReturns
                              examples.blood_pressure_interpreted)
                  examples.pending_chart None)).
  right.
  exists (Some "image"),
    {| item_name := "BP";
       raw_text := Some (String Ascii.zero "120/80mmHg") |},
    [], (PyExc "DataError" "unsupported Unicode escape sequence").
  repeat split; vm_compute; reflexivity.
Defined.

(** X5.  A run that ends in [COMPLETED] leaves [error_message] as it
    found it: the message of an earlier failed run stays on the chart. *)
Theorem completed_run_keeps_error_message
    strip len Levenshtein_distance fuzz_ratio set_order
    (commit : pydict -> pyresult unit)
    (now : string) (new_id : Z) (gcs_uri : string)
    (download : pyresult (option string))
    (stage1 : nat -> gemini_service.attempt (list RawItem))
    (stage2 : nat -> gemini_service.attempt (list InterpretedItem))
    (chart : Chart) (extracted : option ExtractedData) (chart' : Chart) :
  chart_row
    (process_chart.run_extraction_task strip len Levenshtein_distance
       fuzz_ratio set_order commit now new_id gcs_uri download stage1 stage2
       {| chart_row := Some chart; extracted_row := extracted |})
  = Some chart' ->
  status chart' = COMPLETED ->
  error_message chart' = error_message chart.
Proof.
  intros Hrow Hst.
  destruct (run_facts.run_cases strip len Levenshtein_distance fuzz_ratio
              set_order commit now new_id gcs_uri download stage1 stage2
              chart extracted)
    as [(m & _ & H)|(c' & doc & H & Hs & _)]; cbv zeta in H;
    rewrite H in Hrow; injection Hrow as <-.
  - discriminate Hst.
  - destruct Hs as [[_ He]|Hs]; [exact He|congruence].
Qed.

Lemma completed_run_keeps_error_message_witness :
  let db' :=
    examples.run_extraction_task "2025-07-02T09:00:00" 2 "gs://charts/1.jpg"
      (Returned (Some "image"))
      (fun _ => gemini_service.AttemptReturns examples.blood_pressure_raw)
      (fun _ => gemini_service.AttemptReturns examples.blood_pressure_interpreted)
      run_facts.retried in
  option_map status (chart_row db') = Some COMPLETED
  /\ option_map error_message (chart_row db')
     = Some (Some "Failed to download image from gs://charts/1.jpg").
Proof.
  intros db'.
  destruct (chart_row db') as [c'|] eqn:Hrow; [|discriminate].
  assert (Hst : status c' = COMPLETED).
  { vm_compute in Hrow. injection Hrow as <-. reflexivity. }
  pose proof (@completed_run_keeps_error_message
                ascii_metrics.strip ascii_metrics.len
                ascii_metrics.Levenshtein_distance ascii_metrics.fuzz_ratio
                examples.insertion_order examples.accepts
                "2025-07-02T09:00:00" 2
                "gs://charts/1.jpg" (Returned (Some "image"))
                (fun _ => gemini_service.AttemptReturns examples.blood_pressure_raw)
                (fun _ => gemini_service.AttemptReturns
                            examples.blood_pressure_interpreted)
                run_facts.failed_before None c' Hrow Hst) as He.
  cbn [option_map]. rewrite Hst, He. split; reflexivity.
Defined.

(** ** The status and the records of a default run *)

Module status_facts.
Import process_chart.





Lemma existsb_map (A B : Type) (f : A -> B) (p : B -> bool) l :
  existsb p (map f l) = existsb (fun x => p (f x)) l.
Proof.
  induction l as [|a l IH]; simpl; [reflexivity|]. rewrite IH. reflexivity.
Qed.

Lemma existsb_pointwise (A : Type) (p q : A -> bool) l :
  (forall x, p x = q x) -> existsb p l = existsb q l.
Proof.
  intros H. induction l as [|a l IH]; simpl; [reflexivity|].
  rewrite H, IH. reflexivity.
Qed.



Section Status.
Variable strip : string -> string.
Variable len : string -> nat.
Variable Levenshtein_distance : string -> string -> nat.
Variable fuzz_ratio : string -> string -> float.
Variable set_order : list string -> list string.
Hypothesis set_order_perm : forall l, Permutation (set_order l) l.

Local Notation score_item :=
  (process_chart.score_item strip len Levenshtein_distance fuzz_ratio).
Local Notation process_extracted_items :=
  (process_chart.process_extracted_items strip len Levenshtein_distance
     fuzz_ratio set_order).


Lemma score_item_error_needs_review raw_dict interpreted_dict k :
  sc_error_occurred (score_item raw_dict interpreted_dict k) = true ->
  sc_needs_review (score_item raw_dict interpreted_dict k) = true.
Proof.
  unfold process_chart.score_item. cbn [sc_error_occurred sc_needs_review].
  intros ->. reflexivity.
Qed.

End Status.

End status_facts.

Module record_facts.
Import process_chart.




Lemma fold_dset_keeps (A V : Type) (f : A -> string) (g : A -> V) k items :
  forall d,
    (forall x, In x items -> f x <> k) ->
    dget k (fold_left (fun d it => dset (f it) (g it) d) items d) = dget k d.
Proof.
  induction items as [|a items IH]; intros d H; [reflexivity|].
  cbn [fold_left]. rewrite IH by (intros x Hx; apply H; right; exact Hx).
  rewrite dget_dset.
  destruct (String.eqb k (f a)) eqn:E; [|reflexivity].
  apply String.eqb_eq in E. exfalso. apply (H a); [left; reflexivity|].
  symmetry. exact E.
Qed.

Lemma fold_dset_last (A V : Type) (f : A -> string) (g : A -> V)
    before it after :
  (forall x, In x after -> f x <> f it) ->
  dget (f it)
    (fold_left (fun d it => dset (f it) (g it) d) (before ++ it :: after) [])
  = Some (g it).
Proof.
  intros H. rewrite fold_left_app. cbn [fold_left].
  rewrite fold_dset_keeps by exact H.
  rewrite dget_dset, String.eqb_refl. reflexivity.
Qed.

Lemma record_get_error_occurred k sc :
  record_get "error_occurred" (JDict (dset "item_name" (JStr k) (item_data sc)))
  = JBool (sc_error_occurred sc).
Proof.
  unfold record_get, jget, dget_default. rewrite dget_dset. reflexivity.
Qed.

Lemma record_get_needs_review k sc :
  record_get "needs_review" (JDict (dset "item_name" (JStr k) (item_data sc)))
  = JBool (sc_needs_review sc).
Proof.
  unfold record_get, jget, dget_default. rewrite dget_dset. reflexivity.
Qed.


Definition repeated_raw : list RawItem :=
  [ {| item_name := "BP"; raw_text := Some "120/80" |};
    {| item_name := "HR"; raw_text := Some "72" |};
    {| item_name := "BP"; raw_text := Some "130/85" |} ].

Definition pulse_interpreted : list InterpretedItem :=
  [ {| interpreted_item_name := "HR"; interpreted_text := Some "72" |} ].

End record_facts.



(** X7.  In the document of [process_extracted_items] every record of
    [review_items] whose [error_occurred] is true has [needs_review] true,
    and the flag returned for the chart is true exactly when some record
    needs review. *)
Theorem records_keep_review_invariant
    (strip : string -> string) (len : string -> nat)
    (Levenshtein_distance : string -> string -> nat)
    (fuzz_ratio : string -> string -> float)
    (set_order : list string -> list string)
    (set_order_perm : forall l, Permutation (set_order l) l)
    (raw_items : list RawItem) (interpreted_items : list InterpretedItem) :
  let result :=
    process_chart.process_extracted_items strip len Levenshtein_distance
      fuzz_ratio set_order raw_items interpreted_items in
  exists review_items,
    dget "review_items" (fst (fst result)) = Some (JList review_items)
    /\ Forall
         (fun record =>
            process_chart.record_get "error_occurred" record = JBool true ->
            process_chart.record_get "needs_review" record = JBool true)
         review_items
    /\ snd (fst result)
       = existsb
           (fun record =>
              truthy (process_chart.record_get "needs_review" record))
           review_items.
Proof.
  intros result.
  destruct (@process_chart_facts.process_extracted_items_document
              strip len Levenshtein_distance fuzz_ratio set_order
              set_order_perm raw_items interpreted_items)
    as (Hri & _ & _ & _ & _ & _ & Hflag).
  fold result in Hri, Hflag.
  eexists. split; [exact Hri|]. split.
  - apply Forall_forall. intros record Hin.
    apply in_map_iff in Hin. destruct Hin as (k & <- & _).
    rewrite record_facts.record_get_error_occurred,
      record_facts.record_get_needs_review.
    intros H. injection H as H.
    rewrite (status_facts.score_item_error_needs_review _ _ _ _ _ _ _ H).
    reflexivity.
  - rewrite Hflag, status_facts.existsb_map.
    apply status_facts.existsb_pointwise. intros k.
    rewrite record_facts.record_get_needs_review. reflexivity.
Qed.

Lemma records_keep_review_invariant_witness :
  let result :=
    examples.process_extracted_items record_facts.repeated_raw
      record_facts.pulse_interpreted in
  exists review_items,
    dget "review_items" (fst (fst result)) = Some (JList review_items)
    /\ Forall
         (fun record =>
            process_chart.record_get "error_occurred" record = JBool true ->
            process_chart.record_get "needs_review" record = JBool true)
         review_items
    /\ snd (fst result)
       = existsb
           (fun record =>
              truthy (process_chart.record_get "needs_review" record))
           review_items.
Proof.
  exact (@records_keep_review_invariant
           ascii_metrics.strip ascii_metrics.len
           ascii_metrics.Levenshtein_distance ascii_metrics.fuzz_ratio
           examples.insertion_order examples.insertion_order_perm
           record_facts.repeated_raw record_facts.pulse_interpreted).
Defined.



(** X9.  When a stage returns the same name more than once, the text of
    the last item of that name is the one the run uses: it is the value
    the name has in the dictionary built from the items. *)
Theorem last_item_of_a_name_wins
    (raw_before raw_after : list RawItem) (raw_item : RawItem)
    (interpreted_before interpreted_after : list InterpretedItem)
    (interpreted : InterpretedItem) :
  (forall x, In x raw_after -> item_name x <> item_name raw_item) ->
  (forall x, In x interpreted_after ->
             interpreted_item_name x <> interpreted_item_name interpreted) ->
  process_chart.text_get (item_name raw_item)
    (process_chart.raw_dict_of (raw_before ++ raw_item :: raw_after))
  = raw_text raw_item
  /\ process_chart.text_get (interpreted_item_name interpreted)
       (process_chart.interpreted_dict_of
          (interpreted_before ++ interpreted :: interpreted_after))
     = interpreted_text interpreted.
Proof.
  intros Hr Hi. unfold process_chart.text_get, process_chart.raw_dict_of,
    process_chart.interpreted_dict_of.
  rewrite (record_facts.fold_dset_last item_name raw_text raw_before
             raw_item raw_after Hr).
  rewrite (record_facts.fold_dset_last interpreted_item_name interpreted_text
             interpreted_before interpreted interpreted_after Hi).
  split; reflexivity.
Qed.

Lemma last_item_of_a_name_wins_witness :
  process_chart.text_get "BP"
    (process_chart.raw_dict_of record_facts.repeated_raw)
  = Some "130/85"
  /\ process_chart.text_get "HR"
       (process_chart.interpreted_dict_of record_facts.pulse_interpreted)
     = Some "72".
Proof.
  apply (@last_item_of_a_name_wins
           [ {| item_name := "BP"; raw_text := Some "120/80" |};
             {| item_name := "HR"; raw_text := Some "72" |} ]
           []
           {| item_name := "BP"; raw_text := Some "130/85" |}
           [] []
           {| interpreted_item_name := "HR"; interpreted_text := Some "72" |}).
  - intros x [].
  - intros x [].
Defined.

(** ** The run with a template *)

Module template_facts.
Import chart_service.

(** The record pairs the raw item with the interpreted item of the same
    position. *)
Definition pairs_with (pair : RawItem * InterpretedItem) (record : pydict)
    : Prop :=
  dget "item_name" record = Some (JStr (item_name (fst pair)))
  /\ dget "raw_text" record = Some (json_of_text (raw_text (fst pair)))
  /\ dget "interpreted_text" record
     = Some (json_of_text (interpreted_text (snd pair)))
  /\ dget "error_occurred" record
     = Some (JBool (process_chart.is_None (raw_text (fst pair))
                    || process_chart.is_None (interpreted_text (snd pair)))).

Definition record_needs_review (record : pydict) : bool :=
  truthy (jget "needs_review" record).

Definition records_of (items : list json) : list pydict :=
  flat_map (fun v => match v with JDict d => [d] | _ => [] end) items.

Lemma records_of_map (records : list pydict) :
  records_of (map JDict records) = records.
Proof.
  induction records as [|r rest IH]; [reflexivity|].
  simpl. rewrite IH. reflexivity.
Qed.

Section Facts.
Variable strip : string -> string.
Variable len : string -> nat.
Variable Levenshtein_distance : string -> string -> nat.
Variable fuzz_ratio : string -> string -> float.

Lemma review_item_of_record template_items raw_item interpreted
    record flag confidence :
  review_item_of strip len Levenshtein_distance fuzz_ratio template_items
    raw_item interpreted
  = Returned (record, flag, confidence) ->
  pairs_with (raw_item, interpreted) record
  /\ record_needs_review record = flag.
Proof.
  unfold review_item_of.
  destruct (find_template_item template_items (item_name raw_item))
    as [found|e]; cbn [bind]; [|discriminate].
  destruct (item_thresholds found) as [t1 t2].
  destruct (item_needs_review _ _ t1 t2) as [b|e]; cbn [bind]; [|discriminate].
  intros H. injection H as <- <- _.
  split; [repeat split|reflexivity].
Qed.

Lemma review_items_of_records template_items :
  forall raw_items interpreted_items items flag total items' flag' total',
    review_items_of strip len Levenshtein_distance fuzz_ratio template_items
      raw_items interpreted_items (items, flag, total)
    = Returned (items', flag', total') ->
    exists records,
      items' = (items ++ map JDict records)%list
      /\ Forall2 pairs_with (combine raw_items interpreted_items) records
      /\ length records = length raw_items
      /\ length raw_items <= length interpreted_items
      /\ flag' = flag || existsb record_needs_review records.
Proof.
  induction raw_items as [|raw_item raw_rest IH];
    intros interpreted_items items flag total items' flag' total'.
  - cbn [review_items_of]. intros H. injection H as <- <- _.
    exists []. simpl. rewrite app_nil_r, orb_false_r.
    repeat split; [constructor|lia].
  - cbn [review_items_of].
    destruct interpreted_items as [|interpreted interpreted_rest];
      [discriminate|].
    destruct (review_item_of strip len Levenshtein_distance fuzz_ratio
                template_items raw_item interpreted)
      as [[[record item_flag] confidence]|e] eqn:Hitem; cbn [bind];
      [|discriminate].
    intros H. apply IH in H.
    destruct H as (records & -> & Hpairs & Hlen & Hle & ->).
    destruct (review_item_of_record _ _ _ Hitem) as [Hpair Hflag].
    exists (record :: records). cbn [map combine length existsb].
    rewrite <- app_assoc. repeat split.
    + constructor; assumption.
    + rewrite Hlen. reflexivity.
    + lia.
    + rewrite Hflag. destruct item_flag, flag; reflexivity.
Qed.

(** What the chart row holds when the [try] block is entered *)
Definition started (chart : Chart) (template_id : string) : Chart :=
  set_status (set_template_id chart template_id) PROCESSING.

Definition enabled_items (template : Template) : list pydict :=
  filter (fun item => truthy (dget_default "enabled" (JBool true) item))
    (template_items template).

Lemma run_after_checks commit now new_id chart_id template template_id
    download stage1 stage2 db chart item items :
  chart_row db = Some chart ->
  enabled_items template = item :: items ->
  let failed e :=
    ({| chart_row :=
          Some (set_failed (started chart template_id) (exn_str e));
        extracted_row := extracted_row db |},
     @Raised Chart e) in
  process_chart_with_template strip len Levenshtein_distance fuzz_ratio
    commit now new_id chart_id (Some template) template_id download
    stage1 stage2 db
  = match template_result strip len Levenshtein_distance fuzz_ratio
            template template_id (item :: items) download stage1 stage2 with
    | Returned (result_data, flag, average_confidence) =>
        match commit result_data with
        | Returned _ =>
            let final :=
              set_needs_review
                (set_overall_confidence_score
                   (set_status (started chart template_id) COMPLETED)
                   average_confidence) flag in
            ({| chart_row := Some final;
                extracted_row :=
                  Some {| id := new_id; data := result_data |} |},
             Returned final)
        | Raised e => failed e
        end
    | Raised e => failed e
    end.
Proof.
  intros Hc He failed. unfold process_chart_with_template.
  unfold enabled_items in He. rewrite He, Hc.
  destruct (template_result _ _ _ _ _ _ _ _ _ _)
    as [[[result_data flag] average]|e]; [|reflexivity].
  unfold db_service.create_extracted_data_jsonb. cbn [chart_row with_chart].
  destruct (commit result_data); reflexivity.
Qed.

End Facts.

(** A template of two fields; the second one has no threshold above
    zero. *)
Definition vitals : Template :=
  {| template_name := "vitals";
     template_items :=
       [ [ ("name", JStr "BP"); ("enabled", JBool true);
           ("confidence_threshold", JNum 0.7%float);
           ("text_similarity_threshold", JNum 0.8%float);
           ("vector_similarity_threshold", JNum 0.7%float) ];
         [ ("name", JStr "HR"); ("enabled", JBool true);
           ("confidence_threshold", JNum 0%float);
           ("text_similarity_threshold", JNum 0%float);
           ("vector_similarity_threshold", JNull) ];
         [ ("name", JStr "SpO2"); ("enabled", JBool false);
           ("confidence_threshold", JNum 0.7%float);
           ("text_similarity_threshold", JNum 0.8%float);
           ("vector_similarity_threshold", JNum 0.7%float) ] ] |}.

Definition vitals_raw : list RawItem :=
  [ {| item_name := "BP"; raw_text := Some "120/80" |};
    {| item_name := "HR"; raw_text := None |} ].

(** The second stage answers with other names and one item more. *)
Definition vitals_interpreted : list InterpretedItem :=
  [ {| interpreted_item_name := "blood pressure";
       interpreted_text := Some "120/80" |};
    {| interpreted_item_name := "pulse"; interpreted_text := Some "72" |};
    {| interpreted_item_name := "note"; interpreted_text := Some "-" |} ].

Definition image : pyresult (option string) := Returned (Some "jpeg").

Definition unavailable : exn := PyExc "ResourceExhausted" "429 quota exceeded".

Definition run (stage2 : nat -> gemini_service.attempt (list InterpretedItem))
    : Db * pyresult Chart :=
  process_chart_with_template ascii_metrics.strip ascii_metrics.len
    ascii_metrics.Levenshtein_distance ascii_metrics.fuzz_ratio
    examples.accepts
    "2025-07-01T10:00:00" 7 "c-1" (Some vitals) "t-1" image
    (fun _ => gemini_service.AttemptReturns vitals_raw) stage2
    examples.uploaded.

End template_facts.

(** X10.  [process_chart_with_template] ends in one of three ways.  It
    refuses the request with a [ValueError] and writes nothing, when the
    template, its enabled items or the chart are missing.  Or it raises
    the exception of the [try] block, the chart is FAILED with the text of
    the exception as message, and the stored extraction result is the one
    it was.  Or it returns the chart, which is COMPLETED, and the stored
    extraction result is the new document.  In the last two cases the
    chart carries the template id.  The status is never
    PARTIAL_SUCCESS. *)
Theorem template_run_refused_failed_or_completed
    (strip : string -> string) (len : string -> nat)
    (Levenshtein_distance : string -> string -> nat)
    (fuzz_ratio : string -> string -> float)
    (commit : pydict -> pyresult unit)
    (now : string) (new_id : Z) (chart_id : string)
    (template : option chart_service.Template) (template_key : string)
    (download : pyresult (option string))
    (stage1 : nat -> gemini_service.attempt (list RawItem))
    (stage2 : nat -> gemini_service.attempt (list InterpretedItem))
    (db : Db) :
  let run :=
    chart_service.process_chart_with_template strip len Levenshtein_distance
      fuzz_ratio commit now new_id chart_id template template_key download
      stage1 stage2 db in
  (fst run = db
   /\ (exists msg, snd run = Raised (PyExc "ValueError" msg))
   /\ (template = None
       \/ (exists t, template = Some t /\ template_facts.enabled_items t = [])
       \/ chart_row db = None))
  \/ (exists chart failed e,
        chart_row db = Some chart
        /\ snd run = Raised e
        /\ chart_row (fst run) = Some failed
        /\ status failed = FAILED
        /\ error_message failed = Some (exn_str e)
        /\ template_id failed = Some template_key
        /\ overall_confidence_score failed = overall_confidence_score chart
        /\ needs_review failed = needs_review chart
        /\ reviewed_by failed = reviewed_by chart
        /\ reviewed_at failed = reviewed_at chart
        /\ extracted_row (fst run) = extracted_row db)
  \/ (exists chart final document,
        chart_row db = Some chart
        /\ snd run = Returned final
        /\ chart_row (fst run) = Some final
        /\ status final = COMPLETED
        /\ template_id final = Some template_key
        /\ error_message final = error_message chart
        /\ commit document = Returned tt
        /\ extracted_row (fst run) = Some {| id := new_id; data := document |}).
Proof.
  intros run. subst run.
  destruct template as [t|].
  2:{ left. split; [reflexivity|]. split; [eexists; reflexivity|].
      left. reflexivity. }
  destruct (template_facts.enabled_items t) as [|item items] eqn:He.
  { left. unfold chart_service.process_chart_with_template.
    unfold template_facts.enabled_items in He. rewrite He.
    split; [reflexivity|]. split; [eexists; reflexivity|].
    right. left. exists t. split; [reflexivity|exact He]. }
  destruct (chart_row db) as [chart|] eqn:Hc.
  2:{ left. unfold chart_service.process_chart_with_template.
      unfold template_facts.enabled_items in He. rewrite He, Hc.
      split; [reflexivity|]. split; [eexists; reflexivity|].
      right. right. reflexivity. }
  right.
  rewrite (template_facts.run_after_checks strip len Levenshtein_distance
             fuzz_ratio commit now new_id chart_id t template_key download
             stage1 stage2 db Hc He).
  cbv zeta.
  destruct (chart_service.template_result _ _ _ _ _ _ _ _ _ _)
    as [[[result_data flag] average]|e].
  - destruct (commit result_data) as [u|e] eqn:Hcommit.
    + right. destruct u. eexists chart, _, result_data.
      repeat split. exact Hcommit.
    + left. eexists chart, _, e. repeat split.
  - left. eexists chart, _, e. repeat split.
Qed.

(** X11.  In a run with a template a failure of the second stage fails
    the whole run: when the image is read and the first stage returns its
    items, but the second stage raises in each of its four passes, the
    chart is FAILED with the text of the last exception and nothing is
    stored.  (The run without a template ends PARTIAL_SUCCESS there.) *)
Theorem template_run_fails_without_interpretation
    (strip : string -> string) (len : string -> nat)
    (Levenshtein_distance : string -> string -> nat)
    (fuzz_ratio : string -> string -> float)
    (commit : pydict -> pyresult unit)
    (now : string) (new_id : Z) (chart_id : string)
    (template : chart_service.Template) (template_id : string)
    (image : option string) (raw_items : list RawItem)
    (stage1 : nat -> gemini_service.attempt (list RawItem))
    (stage2 : nat -> gemini_service.attempt (list InterpretedItem))
    (failure : nat -> exn)
    (db : Db) (chart : Chart) :
  chart_row db = Some chart ->
  template_facts.enabled_items template <> [] ->
  forallb (dmem "name") (template_facts.enabled_items template) = true ->
  gemini_service.extract_raw_data_from_image stage1 = Returned raw_items ->
  (forall pass, pass <= gemini_service.max_retries ->
                stage2 pass = gemini_service.AttemptRaises (failure pass)) ->
  let run :=
    chart_service.process_chart_with_template strip len Levenshtein_distance
      fuzz_ratio commit now new_id chart_id (Some template) template_id
      (Returned image) stage1 stage2 db in
  snd run = Raised (failure gemini_service.max_retries)
  /\ option_map status (chart_row (fst run)) = Some FAILED
  /\ option_map error_message (chart_row (fst run))
     = Some (Some (exn_str (failure gemini_service.max_retries)))
  /\ extracted_row (fst run) = extracted_row db.
Proof.
  intros Hc He Hnames H1 H2 run. subst run.
  destruct (template_facts.enabled_items template) as [|item items] eqn:Hitems;
    [contradiction|].
  rewrite (template_facts.run_after_checks strip len Levenshtein_distance
             fuzz_ratio commit now new_id chart_id template template_id
             (Returned image) stage1 stage2 db Hc Hitems).
  cbv zeta.
  assert (Hint : gemini_service.interpret_extracted_data stage2
                 = Raised (failure gemini_service.max_retries)).
  { unfold gemini_service.interpret_extracted_data, gemini_service.max_retries
      in *.
    cbn [gemini_service.retry_from].
    rewrite (H2 0), (H2 1), (H2 2), (H2 3) by lia. reflexivity. }
  unfold chart_service.template_result.
  rewrite Hnames. cbn [negb bind]. rewrite H1. cbn [bind]. rewrite Hint.
  cbn [bind]. repeat split.
Qed.

Lemma template_run_fails_without_interpretation_witness :
  let run :=
    template_facts.run
      (fun _ => gemini_service.AttemptRaises template_facts.unavailable) in
  snd run = Raised template_facts.unavailable
  /\ option_map status (chart_row (fst run)) = Some FAILED
  /\ option_map error_message (chart_row (fst run))
     = Some (Some "429 quota exceeded")
  /\ extracted_row (fst run) = None.
Proof.
  apply (@template_run_fails_without_interpretation
           ascii_metrics.strip ascii_metrics.len
           ascii_metrics.Levenshtein_distance ascii_metrics.fuzz_ratio
           examples.accepts
           "2025-07-01T10:00:00" 7 "c-1" template_facts.vitals "t-1"
           (Some "jpeg") template_facts.vitals_raw
           (fun _ => gemini_service.AttemptReturns template_facts.vitals_raw)
           (fun _ => gemini_service.AttemptRaises template_facts.unavailable)
           (fun _ => template_facts.unavailable)
           examples.uploaded examples.pending_chart).
  - reflexivity.
  - vm_compute. discriminate.
  - vm_compute. reflexivity.
  - reflexivity.
  - intros pass _. reflexivity.
Defined.

(** X12.  A run with a template that returns has stored one record per
    item of the first stage, in their order, and the record of position
    [i] joins the raw item [i] with the interpreted item [i], whatever
    name the latter carries; interpreted items beyond the raw ones leave
    no record.  The chart needs review exactly when some record does. *)
Theorem template_run_pairs_by_position
    (strip : string -> string) (len : string -> nat)
    (Levenshtein_distance : string -> string -> nat)
    (fuzz_ratio : string -> string -> float)
    (commit : pydict -> pyresult unit)
    (now : string) (new_id : Z) (chart_id : string)
    (template : option chart_service.Template) (template_id : string)
    (download : pyresult (option string))
    (stage1 : nat -> gemini_service.attempt (list RawItem))
    (stage2 : nat -> gemini_service.attempt (list InterpretedItem))
    (db db' : Db) (final : Chart) :
  chart_service.process_chart_with_template strip len Levenshtein_distance
    fuzz_ratio commit now new_id chart_id template template_id download
    stage1 stage2 db
  = (db', Returned final) ->
  exists raw_items interpreted_items records document,
    gemini_service.extract_raw_data_from_image stage1 = Returned raw_items
    /\ gemini_service.interpret_extracted_data stage2
       = Returned interpreted_items
    /\ extracted_row db' = Some {| id := new_id; data := document |}
    /\ dget "review_items" document = Some (JList (map JDict records))
    /\ length records = length raw_items
    /\ length raw_items <= length interpreted_items
    /\ Forall2 template_facts.pairs_with
         (combine raw_items interpreted_items) records
    /\ needs_review final
       = existsb template_facts.record_needs_review records.
Proof.
  destruct template as [t|]; [|discriminate].
  destruct (template_facts.enabled_items t) as [|item items] eqn:He.
  { unfold chart_service.process_chart_with_template.
    unfold template_facts.enabled_items in He. rewrite He. discriminate. }
  destruct (chart_row db) as [chart|] eqn:Hc.
  2:{ unfold chart_service.process_chart_with_template.
      unfold template_facts.enabled_items in He. rewrite He, Hc.
      discriminate. }
  rewrite (template_facts.run_after_checks strip len Levenshtein_distance
             fuzz_ratio commit now new_id chart_id t template_id download
             stage1 stage2 db Hc He).
  cbv zeta.
  unfold chart_service.template_result.
  destruct (negb (forallb (dmem "name") (item :: items))); [discriminate|].
  destruct download as [image|e]; cbn [bind]; [|discriminate].
  destruct (gemini_service.extract_raw_data_from_image stage1)
    as [raw_items|e]; cbn [bind]; [|discriminate].
  destruct (gemini_service.interpret_extracted_data stage2)
    as [interpreted_items|e]; cbn [bind]; [|discriminate].
  destruct (chart_service.review_items_of strip len Levenshtein_distance
              fuzz_ratio (item :: items) raw_items interpreted_items
              ([], false, 0%float))
    as [[[review_items flag] total]|e] eqn:Hloop; cbn [bind]; [|discriminate].
  apply template_facts.review_items_of_records in Hloop.
  destruct Hloop as (records & -> & Hpairs & Hlen & Hle & ->).
  destruct (commit _); [|discriminate].
  intros H. injection H as <- <-.
  exists raw_items, interpreted_items, records. eexists.
  split; [reflexivity|]. split; [reflexivity|]. split; [reflexivity|].
  split; [reflexivity|]. repeat split; assumption.
Qed.

Lemma template_run_pairs_by_position_witness :
  let run :=
    template_facts.run
      (fun _ => gemini_service.AttemptReturns
                  template_facts.vitals_interpreted) in
  exists raw_items interpreted_items records document,
    gemini_service.extract_raw_data_from_image
      (fun _ => gemini_service.AttemptReturns template_facts.vitals_raw)
    = Returned raw_items
    /\ gemini_service.interpret_extracted_data
         (fun _ => gemini_service.AttemptReturns
                     template_facts.vitals_interpreted)
       = Returned interpreted_items
    /\ extracted_row (fst run) = Some {| id := 7; data := document |}
    /\ dget "review_items" document = Some (JList (map JDict records))
    /\ length records = length raw_items
    /\ length raw_items <= length interpreted_items
    /\ Forall2 template_facts.pairs_with
         (combine raw_items interpreted_items) records
    /\ needs_review
         (set_needs_review
            (set_overall_confidence_score
               (set_status
                  (template_facts.started examples.pending_chart "t-1")
                  COMPLETED) 0.5%float) false)
       = existsb template_facts.record_needs_review records.
Proof.
  intros run.
  refine (@template_run_pairs_by_position
            ascii_metrics.strip ascii_metrics.len
            ascii_metrics.Levenshtein_distance ascii_metrics.fuzz_ratio
            examples.accepts
            "2025-07-01T10:00:00" 7 "c-1" (Some template_facts.vitals) "t-1"
            template_facts.image
            (fun _ => gemini_service.AttemptReturns template_facts.vitals_raw)
            (fun _ => gemini_service.AttemptReturns
                        template_facts.vitals_interpreted)
            examples.uploaded (fst run) _ _).
  vm_compute. reflexivity.
Defined.

(** X13.  In a run with a template a field without a raw or an
    interpreted text gets both scores 0.0 and [error_occurred] true, and
    it is sent to review only when one of its two thresholds is above
    zero: with thresholds that are not, the record has [error_occurred]
    true and [needs_review] false. *)
Theorem template_missing_text_needs_positive_threshold
    (strip : string -> string) (len : string -> nat)
    (Levenshtein_distance : string -> string -> nat)
    (fuzz_ratio : string -> string -> float)
    (template_items : list pydict)
    (raw_item : RawItem) (interpreted : InterpretedItem)
    (template_item : option pydict) (text_threshold vector_threshold : float) :
  raw_text raw_item = None \/ interpreted_text interpreted = None ->
  chart_service.find_template_item template_items (item_name raw_item)
  = Returned template_item ->
  chart_service.item_thresholds template_item
  = (JNum text_threshold, JNum vector_threshold) ->
  exists record,
    chart_service.review_item_of strip len Levenshtein_distance fuzz_ratio
      template_items raw_item interpreted
    = Returned
        (record,
         PrimFloat.ltb 0 text_threshold || PrimFloat.ltb 0 vector_threshold,
         0%float)
    /\ dget "error_occurred" record = Some (JBool true)
    /\ dget "text_similarity_score" record = Some (JNum 0)
    /\ dget "vector_similarity_score" record = Some (JNum 0)
    /\ dget "needs_review" record
       = Some (JBool (PrimFloat.ltb 0 text_threshold
                      || PrimFloat.ltb 0 vector_threshold)).
Proof.
  intros Hmissing Hfind Hthresholds.
  assert (Herr : process_chart.is_None (raw_text raw_item)
                 || process_chart.is_None (interpreted_text interpreted)
                 = true).
  { destruct Hmissing as [-> | ->]; [reflexivity|apply orb_true_r]. }
  unfold chart_service.review_item_of.
  rewrite Hfind. cbn [bind]. rewrite Hthresholds, Herr. cbn [negb].
  unfold chart_service.item_needs_review, chart_service.score_lt.
  cbn [json_number bind].
  destruct (PrimFloat.ltb 0 text_threshold); cbn [orb];
    eexists; (split; [reflexivity|repeat split]).
Qed.

Lemma template_missing_text_needs_positive_threshold_witness :
  exists record,
    chart_service.review_item_of ascii_metrics.strip ascii_metrics.len
      ascii_metrics.Levenshtein_distance ascii_metrics.fuzz_ratio
      (template_facts.enabled_items template_facts.vitals)
      {| item_name := "HR"; raw_text := None |}
      {| interpreted_item_name := "pulse"; interpreted_text := Some "72" |}
    = Returned
        (record, PrimFloat.ltb 0 0 || PrimFloat.ltb 0 0, 0%float)
    /\ dget "error_occurred" record = Some (JBool true)
    /\ dget "text_similarity_score" record = Some (JNum 0)
    /\ dget "vector_similarity_score" record = Some (JNum 0)
    /\ dget "needs_review" record
       = Some (JBool (PrimFloat.ltb 0 0 || PrimFloat.ltb 0 0)).
Proof.
  apply (@template_missing_text_needs_positive_threshold
           ascii_metrics.strip ascii_metrics.len
           ascii_metrics.Levenshtein_distance ascii_metrics.fuzz_ratio
           (template_facts.enabled_items template_facts.vitals)
           {| item_name := "HR"; raw_text := None |}
           {| interpreted_item_name := "pulse"; interpreted_text := Some "72" |}
           (Some (nth 1 (chart_service.template_items template_facts.vitals) []))
           0%float 0%float).
  - left. reflexivity.
  - vm_compute. reflexivity.
  - vm_compute. reflexivity.
Defined.

(** ** Reading the stored document *)

Module review_facts.
Import db_service.

Lemma truthy_get_False k (d : pydict) :
  truthy (dget_default k (JBool false) d) = truthy (jget k d).
Proof.
  unfold jget, dget_default. destruct (dget k d); reflexivity.
Qed.

Lemma dget_set_if_missing_other k k' v (d : pydict) :
  k <> k' -> dget k (set_if_missing k' v d) = dget k d.
Proof.
  intros H. unfold set_if_missing. destruct (dmem k' d); [reflexivity|].
  rewrite dget_dset. apply String.eqb_neq in H. rewrite H. reflexivity.
Qed.

Lemma dget_dset_other k k' v (d : pydict) :
  k <> k' -> dget k (dset k' v d) = dget k d.
Proof.
  intros H. rewrite dget_dset. apply String.eqb_neq in H. rewrite H.
  reflexivity.
Qed.

(** The record [get_review_items] makes of a legacy entry *)
Definition legacy_copy (extracted_id : Z) (key : string) (value : pydict)
    : pydict :=
  set_if_missing "error_occurred" (JBool false)
    (set_if_missing "reviewed_at" JNull
       (set_if_missing "reviewed_by" JNull
          (set_if_missing "review_comment" JNull
             (set_if_missing "threshold" (JNum 0.7%float)
                (dset "item_name" (JStr key)
                   (dset "id" (JInt extracted_id) value)))))).

Lemma legacy_copy_field extracted_id key value k :
  k <> "id" -> k <> "item_name" -> k <> "threshold" ->
  k <> "review_comment" -> k <> "reviewed_by" -> k <> "reviewed_at" ->
  k <> "error_occurred" ->
  dget k (legacy_copy extracted_id key value) = dget k value.
Proof.
  intros. unfold legacy_copy.
  rewrite !dget_set_if_missing_other, !dget_dset_other by assumption.
  reflexivity.
Qed.


Lemma legacy_copy_name extracted_id key value :
  dget "item_name" (legacy_copy extracted_id key value) = Some (JStr key).
Proof.
  unfold legacy_copy.
  rewrite !dget_set_if_missing_other by discriminate.
  rewrite dget_dset. reflexivity.
Qed.

Lemma string_names_In values :
  forall names s,
    string_names values = Returned names -> In s names -> In (JStr s) values.
Proof.
  induction values as [|v rest IH]; simpl; intros names s.
  - intros H. injection H as <-. contradiction.
  - destruct v as [| | | |s'| |]; try (intros H Hin; right; eapply IH; eassumption);
      try discriminate.
    destruct (string_names rest) as [names'|e] eqn:E; cbn [bind];
      [|discriminate].
    intros H. injection H as <-. intros [->|Hin]; [left; reflexivity|].
    right. eapply IH; [reflexivity|exact Hin].
Qed.

(** The records [get_review_items] takes from the array *)
Definition from_array (extracted_id : Z) (get_all_items : bool)
    (review_items : list json) : list pydict :=
  flat_map
    (fun item =>
       match item with
       | JDict d =>
           if get_all_items
              || truthy (dget_default "needs_review" (JBool false) d)
           then [dset "id" (JInt extracted_id) d]
           else []
       | _ => []
       end)
    review_items.

Lemma from_array_In extracted_id get_all_items review_items item :
  In item (from_array extracted_id get_all_items review_items) ->
  exists d,
    In (JDict d) review_items
    /\ item = dset "id" (JInt extracted_id) d
    /\ (get_all_items = true \/ truthy (jget "needs_review" d) = true).
Proof.
  unfold from_array. intros H. apply in_flat_map in H.
  destruct H as (v & Hv & H). destruct v as [| | | | | |d]; try contradiction.
  rewrite truthy_get_False in H.
  destruct get_all_items; cbn [orb] in H.
  - destruct H as [<-|[]]. exists d. auto.
  - destruct (truthy (jget "needs_review" d)) eqn:E; [|contradiction].
    destruct H as [<-|[]]. exists d. auto.
Qed.

(** A chart whose extraction finished, with a document that holds one
    field in both layouts *)
Definition finished_chart : Chart :=
  set_needs_review (set_status examples.pending_chart COMPLETED) true.

Definition both_layouts : pydict :=
  [ ("BP",
      JDict [ ("raw_text", JStr "120/80"); ("interpreted_text", JStr "120/8O");
              ("needs_review", JBool true) ]);
    ("HR",
      JDict [ ("raw_text", JStr "72"); ("interpreted_text", JStr "72");
              ("needs_review", JBool false) ]);
    ("review_items",
      JList [ JDict [ ("item_name", JStr "BP"); ("raw_text", JStr "120/80");
                      ("interpreted_text", JStr "120/8O");
                      ("needs_review", JBool true) ];
              JDict [ ("item_name", JStr "HR"); ("raw_text", JStr "72");
                      ("interpreted_text", JStr "72");
                      ("needs_review", JBool false) ] ]) ].

Definition finished : Db :=
  {| chart_row := Some finished_chart;
     extracted_row := Some {| id := 7; data := both_layouts |} |}.

End review_facts.



(** ** The answer of a review update *)

Module answer_facts.
Import db_service review.

(** The records of [review_items], none when the document has no such
    list *)
Definition array_of (data : pydict) : list json :=
  match review_items_array data with
  | Some l => l
  | None => []
  end.

Lemma dget_In (V : Type) k (v : V) (d : dict V) :
  dget k d = Some v -> In (k, v) d.
Proof.
  induction d as [|[k0 v0] d IH]; simpl; [discriminate|].
  destruct (String.eqb k k0) eqn:E.
  - apply String.eqb_eq in E. subst k0. intros H. injection H as ->.
    left. reflexivity.
  - intros H. right. exact (IH H).
Qed.

Lemma json_eq_str_eq v s : json_eq_str v s = true <-> v = JStr s.
Proof.
  destruct v; simpl; split; intros H; try discriminate.
  - apply String.eqb_eq in H. subst. reflexivity.
  - injection H as ->. apply String.eqb_refl.
Qed.

Lemma get_review_items_eq set_order db extracted_data get_all_items :
  extracted_row db = Some extracted_data ->
  get_review_items set_order db get_all_items
  = (let data := data extracted_data in
     let extracted_id := id extracted_data in
     let review_items_from_array :=
       review_facts.from_array extracted_id get_all_items (array_of data) in
     items_in_array <-
       string_names
         (filter truthy (map (jget "item_name") review_items_from_array)) ;;
     raw_items <- py_iter (dget_default "raw_items" (JList []) data) ;;
     raw_names <- mirror_names raw_items ;;
     interpreted_items <-
       py_iter (dget_default "interpreted_items" (JList []) data) ;;
     interpreted_names <- mirror_names interpreted_items ;;
     let item_names :=
       set_order (nodup string_dec (raw_names ++ interpreted_names)%list) in
     let raw_dict := mirror_dict "raw_text" raw_items in
     let interpreted_dict := mirror_dict "interpreted_text" interpreted_items in
     let review_items :=
       flat_map
         (fun kv =>
            let key := fst kv in
            if is_special_key key then []
            else if existsb (String.eqb key) items_in_array then []
            else
              match snd kv with
              | JDict value =>
                  if get_all_items
                     || truthy (dget_default "needs_review" (JBool false) value)
                  then [review_facts.legacy_copy extracted_id key value]
                  else []
              | _ => []
              end)
         data in
     let review_items :=
       match review_items with
       | [] =>
           if get_all_items
           then
             flat_map
               (fun item_name =>
                  if existsb (String.eqb item_name) items_in_array then []
                  else [restored_item extracted_id item_name
                          (jget item_name raw_dict)
                          (jget item_name interpreted_dict)])
               item_names
           else []
       | _ => review_items
       end in
     Returned (review_items ++ review_items_from_array)%list).
Proof.
  intros He. unfold get_review_items, get_extracted_data_by_chart_id.
  rewrite He. unfold array_of, review_facts.from_array.
  destruct (review_items_array (data extracted_data)); reflexivity.
Qed.

(** A legacy entry is listed when no listed record of the array carries
    its name. *)
Lemma legacy_entry_listed set_order db extracted_data get_all_items items
    key value :
  extracted_row db = Some extracted_data ->
  get_review_items set_order db get_all_items = Returned items ->
  In (key, JDict value) (data extracted_data) ->
  is_special_key key = false ->
  get_all_items = true \/ truthy (jget "needs_review" value) = true ->
  (forall d, In (JDict d) (array_of (data extracted_data)) ->
             get_all_items = true \/ truthy (jget "needs_review" d) = true ->
             jget "item_name" d <> JStr key) ->
  In (review_facts.legacy_copy (id extracted_data) key value) items.
Proof.
  intros He Hrun Hin Hspecial Hlisted Harray.
  rewrite (@get_review_items_eq set_order db extracted_data get_all_items He) in Hrun.
  cbv zeta in Hrun.
  destruct (string_names _) as [items_in_array|e] eqn:Hnames;
    cbn [bind] in Hrun; [|discriminate].
  destruct (py_iter (dget_default "raw_items" _ _)) as [raw_items|e];
    cbn [bind] in Hrun; [|discriminate].
  destruct (mirror_names raw_items) as [raw_names|e];
    cbn [bind] in Hrun; [|discriminate].
  destruct (py_iter (dget_default "interpreted_items" _ _))
    as [interpreted_items|e]; cbn [bind] in Hrun; [|discriminate].
  destruct (mirror_names interpreted_items) as [interpreted_names|e];
    cbn [bind] in Hrun; [|discriminate].
  injection Hrun as <-. apply in_or_app. left.
  assert (Hnot : existsb (String.eqb key) items_in_array = false).
  { destruct (existsb (String.eqb key) items_in_array) eqn:E; [|reflexivity].
    exfalso. apply existsb_exists in E. destruct E as (s & Hs & E).
    apply String.eqb_eq in E. subst s.
    apply (@review_facts.string_names_In _ _ _ Hnames) in Hs.
    apply filter_In in Hs. destruct Hs as [Hs _].
    apply in_map_iff in Hs. destruct Hs as (item & Hname & Hitem).
    apply review_facts.from_array_In in Hitem.
    destruct Hitem as (d & Hd & -> & Hl).
    apply (Harray d Hd Hl). rewrite <- Hname.
    unfold jget, dget_default.
    rewrite review_facts.dget_dset_other by discriminate. reflexivity. }
  match goal with
  | |- In ?x (match ?l with [] => _ | _ :: _ => _ end) =>
      assert (Hl : In x l); [|destruct l; [contradiction|exact Hl]]
  end.
  apply in_flat_map. exists (key, JDict value). split; [exact Hin|].
  cbn [fst snd]. rewrite Hspecial, Hnot, review_facts.truthy_get_False.
  destruct Hlisted as [-> | ->]; [left; reflexivity|].
  rewrite orb_true_r. left. reflexivity.
Qed.

Lemma update_in_array_first now item_update before record after :
  (forall d, In (JDict d) before ->
             jget "item_name" d <> JStr (req_item_name item_update)) ->
  jget "item_name" record = JStr (req_item_name item_update) ->
  update_in_array now item_update (before ++ JDict record :: after)%list
  = Some (before ++ JDict (apply_request now item_update record) :: after)%list.
Proof.
  intros Hbefore Hrecord.
  induction before as [|item rest IH]; cbn [app update_in_array].
  - apply json_eq_str_eq in Hrecord. rewrite Hrecord. reflexivity.
  - rewrite IH by (intros d Hd; apply Hbefore; right; exact Hd).
    destruct item as [| | | | | |d]; try reflexivity.
    destruct (json_eq_str (jget "item_name" d) (req_item_name item_update))
      eqn:E; [|reflexivity].
    apply json_eq_str_eq in E. exfalso.
    exact (Hbefore d (or_introl eq_refl) E).
Qed.

Lemma apply_request_field now item_update record k :
  k <> "interpreted_text" -> k <> "review_comment" -> k <> "reviewed_by" ->
  k <> "reviewed_at" -> k <> "needs_review" ->
  dget k (apply_request now item_update record) = dget k record.
Proof.
  intros. unfold apply_request.
  rewrite !review_facts.dget_dset_other by assumption.
  destruct (req_review_comment item_update);
    rewrite ?review_facts.dget_dset_other by assumption;
    (destruct (req_interpreted_text item_update);
     rewrite ?review_facts.dget_dset_other by assumption; reflexivity).
Qed.

Lemma apply_request_needs_review now item_update record :
  dget "needs_review" (apply_request now item_update record)
  = Some (JBool false).
Proof. unfold apply_request. rewrite dget_dset. reflexivity. Qed.

Lemma apply_request_reviewed_at now item_update record :
  dget "reviewed_at" (apply_request now item_update record)
  = Some (JStr now).
Proof.
  unfold apply_request.
  rewrite review_facts.dget_dset_other by discriminate.
  rewrite dget_dset. reflexivity.
Qed.

Lemma apply_request_reviewed_by now item_update record :
  dget "reviewed_by" (apply_request now item_update record)
  = Some (JStr (req_reviewed_by item_update)).
Proof.
  unfold apply_request.
  rewrite !review_facts.dget_dset_other by discriminate.
  rewrite dget_dset. reflexivity.
Qed.

Lemma apply_request_interpreted_text now item_update record t :
  req_interpreted_text item_update = Some t ->
  dget "interpreted_text" (apply_request now item_update record)
  = Some (JStr t).
Proof.
  intros H. unfold apply_request. rewrite H.
  rewrite !review_facts.dget_dset_other by discriminate.
  destruct (req_review_comment item_update);
    rewrite ?review_facts.dget_dset_other by discriminate;
    rewrite dget_dset; reflexivity.
Qed.

Lemma apply_request_review_comment now item_update record c :
  req_review_comment item_update = Some c ->
  dget "review_comment" (apply_request now item_update record)
  = Some (JStr c).
Proof.
  intros H. unfold apply_request. rewrite H.
  rewrite !review_facts.dget_dset_other by discriminate.
  rewrite dget_dset. reflexivity.
Qed.

(** What a successful [update_item] has gone through *)
Lemma update_item_returned set_order now later item_id item_update db db'
    answer :
  update_item set_order now later item_id item_update db
  = (db', Returned answer) ->
  exists chart extracted_data data' updated_items updated_item,
    chart_row db = Some chart
    /\ extracted_row db = Some extracted_data
    /\ id extracted_data = item_id
    /\ apply_update now item_update (data extracted_data) = Returned data'
    /\ get_all_items_unified
         (with_extracted db (with_data extracted_data data'))
       = Returned updated_items
    /\ find_item_by_name updated_items (req_item_name item_update)
       = Some updated_item
    /\ answer = response updated_item
    /\ update_chart_review_status_after_item_update set_order later
         (with_extracted db (with_data extracted_data data'))
       = (db', Returned tt).
Proof.
  unfold update_item, get_chart_by_id, get_extracted_data_by_chart_id.
  destruct (chart_row db) as [chart|]; [|discriminate].
  destruct (extracted_row db) as [ed|]; [|discriminate].
  destruct (Z.eqb (id ed) item_id) eqn:Hid; cbn [negb]; [|discriminate].
  apply Z.eqb_eq in Hid.
  destruct (get_all_items_unified db) as [all_items|e]; [|discriminate].
  destruct (find_item_by_name all_items (req_item_name item_update));
    [|discriminate].
  destruct (apply_update now item_update (data ed)) as [data'|e] eqn:Ha;
    [|discriminate].
  destruct (get_all_items_unified (with_extracted db (with_data ed data')))
    as [updated_items|e] eqn:Hu; [|discriminate].
  destruct (find_item_by_name updated_items (req_item_name item_update))
    as [updated_item|] eqn:Hf; [|discriminate].
  destruct (update_chart_review_status_after_item_update set_order later
              (with_extracted db (with_data ed data')))
    as [db2 [[]|e]] eqn:Hagg; [|discriminate].
  intros H. injection H as <- <-.
  exists chart, ed, data', updated_items, updated_item.
  split; [reflexivity|]. split; [reflexivity|]. split; [exact Hid|]. split; [exact Ha|].
  split; [exact Hu|]. split; [exact Hf|]. split; [reflexivity|exact Hagg].
Qed.

(** The assignments of [apply_request], as a reader of the record sees
    them *)
Definition patched_by (now : string) (item_update : ItemUpdateRequest)
    (record : pydict) : Prop :=
  dget "needs_review" record = Some (JBool false)
  /\ dget "reviewed_by" record = Some (JStr (req_reviewed_by item_update))
  /\ dget "reviewed_at" record = Some (JStr now)
  /\ (forall t, req_interpreted_text item_update = Some t ->
                dget "interpreted_text" record = Some (JStr t))
  /\ (forall c, req_review_comment item_update = Some c ->
                dget "review_comment" record = Some (JStr c)).

Lemma apply_request_patched now item_update record :
  patched_by now item_update (apply_request now item_update record).
Proof.
  repeat split.
  - apply apply_request_needs_review.
  - apply apply_request_reviewed_by.
  - apply apply_request_reviewed_at.
  - apply apply_request_interpreted_text.
  - apply apply_request_review_comment.
Qed.

Lemma mirrored_patched now item_update record name :
  patched_by now item_update record ->
  patched_by now item_update (dset "item_name" name record).
Proof.
  intros (H1 & H2 & H3 & H4 & H5). unfold patched_by.
  rewrite !review_facts.dget_dset_other by discriminate.
  repeat split; assumption.
Qed.

Lemma unified_item_name extracted_id name record :
  jget "item_name" (unified_item extracted_id name record) = name.
Proof. reflexivity. Qed.

Lemma truthy_name name : name <> "" -> truthy (JStr name) = true.
Proof.
  intros H. simpl. apply String.eqb_neq in H. rewrite H. reflexivity.
Qed.

Lemma unified_skips extracted_id name item :
  match item with
  | JDict d => json_eq_str (jget "item_name" d) name = false
  | _ => True
  end ->
  forall tail rest,
    find_item_by_name
      (unified_from_array extracted_id (item :: tail) ++ rest)%list name
    = find_item_by_name (unified_from_array extracted_id tail ++ rest)%list
        name.
Proof.
  intros H tail rest. cbn [unified_from_array flat_map].
  destruct item as [| | | | | |d]; try reflexivity.
  destruct (truthy (jget "item_name" d)); [|reflexivity].
  unfold find_item_by_name. cbn [app find].
  rewrite unified_item_name, H. reflexivity.
Qed.

Lemma unified_finds extracted_id name record tail rest :
  name <> "" ->
  jget "item_name" record = JStr name ->
  find_item_by_name
    (unified_from_array extracted_id (JDict record :: tail) ++ rest)%list name
  = Some (unified_item extracted_id (JStr name) record).
Proof.
  intros Hname Hrec. cbn [unified_from_array flat_map].
  rewrite Hrec, (truthy_name Hname).
  unfold find_item_by_name. cbn [app find].
  rewrite unified_item_name. cbn [json_eq_str]. rewrite String.eqb_refl.
  reflexivity.
Qed.

(** The unified view finds the record step 2 has mirrored into the
    array. *)
Lemma mirrored_record_found extracted_id name record :
  name <> "" ->
  jget "item_name" record = JStr name ->
  forall review_items rest,
    find_item_by_name
      (unified_from_array extracted_id
         match find_index name review_items with
         | Some i => list_set i (JDict record) review_items
         | None => (review_items ++ [JDict record])%list
         end ++ rest)%list name
    = Some (unified_item extracted_id (JStr name) record).
Proof.
  intros Hname Hrec.
  induction review_items as [|item items IH]; intros rest.
  - cbn [find_index app]. apply unified_finds; assumption.
  - cbn [find_index].
    assert (Hnext :
      json_eq_str (match item with JDict d => jget "item_name" d | _ => JNull end)
        name = false ->
      find_item_by_name
        (unified_from_array extracted_id
           match option_map S (find_index name items) with
           | Some i => list_set i (JDict record) (item :: items)
           | None => ((item :: items) ++ [JDict record])%list
           end ++ rest)%list name
      = Some (unified_item extracted_id (JStr name) record)).
    { intros Hno. specialize (IH rest).
      destruct (find_index name items) as [i|]; cbn [option_map list_set app].
      - rewrite unified_skips; [exact IH|].
        destruct item; try exact I. exact Hno.
      - rewrite unified_skips; [exact IH|].
        destruct item; try exact I. exact Hno. }
    destruct item as [| | | | | |d]; try (apply Hnext; reflexivity).
    destruct (json_eq_str (jget "item_name" d) name) eqn:E.
    + cbn [list_set]. apply unified_finds; assumption.
    + apply Hnext. reflexivity.
Qed.

Lemma legacy_found now item_update item_data data data' :
  req_item_name item_update <> "" ->
  update_legacy now item_update item_data data = Returned data' ->
  exists review_items record,
    review_items_array data' = Some review_items
    /\ patched_by now item_update record
    /\ forall extracted_id rest,
         find_item_by_name
           (unified_from_array extracted_id review_items ++ rest)%list
           (req_item_name item_update)
         = Some (unified_item extracted_id
                   (JStr (req_item_name item_update)) record).
Proof.
  intros Hname. unfold update_legacy.
  set (patched := apply_request now item_update item_data).
  set (data1 := dset (req_item_name item_update) (JDict patched) data).
  set (data2 := if dmem "review_items" data1 then data1
                else dset "review_items" (JList []) data1).
  destruct (jget "review_items" data2) as [| | | | |l|] eqn:Harr;
    cbn [py_iter bind]; try discriminate.
  intros H. injection H as <-.
  set (mirror := dset "item_name" (JStr (req_item_name item_update)) patched).
  eexists _, mirror. split; [|split].
  - unfold review_items_array. rewrite dget_dset. reflexivity.
  - apply mirrored_patched. apply apply_request_patched.
  - intros extracted_id rest. apply mirrored_record_found; [exact Hname|].
    unfold mirror, jget, dget_default. rewrite dget_dset. reflexivity.
Qed.

(** After [apply_update] the array of the document holds the patched
    record of the field, and the unified view finds it there. *)
Lemma apply_update_found now item_update data data' :
  req_item_name item_update <> "" ->
  apply_update now item_update data = Returned data' ->
  exists review_items record,
    review_items_array data' = Some review_items
    /\ patched_by now item_update record
    /\ forall extracted_id rest,
         find_item_by_name
           (unified_from_array extracted_id review_items ++ rest)%list
           (req_item_name item_update)
         = Some (unified_item extracted_id
                   (JStr (req_item_name item_update)) record).
Proof.
  intros Hname. unfold apply_update.
  destruct (review_items_array data) as [l|] eqn:Harr.
  - destruct (update_in_array now item_update l) as [l'|] eqn:Hup.
    + intros H. injection H as <-.
      exists l'. 
      assert (Hex : exists record, forall extracted_id rest,
                find_item_by_name
                  (unified_from_array extracted_id l' ++ rest)%list
                  (req_item_name item_update)
                = Some (unified_item extracted_id
                          (JStr (req_item_name item_update))
                          (apply_request now item_update record))).
      { clear Harr. revert l' Hup.
        induction l as [|item items IH]; intros l';
          cbn [update_in_array]; [discriminate|].
        assert (Hskip :
          match item with
          | JDict d =>
              json_eq_str (jget "item_name" d) (req_item_name item_update)
              = false
          | _ => True
          end ->
          option_map (cons item) (update_in_array now item_update items)
          = Some l' ->
          exists record, forall extracted_id rest,
            find_item_by_name
              (unified_from_array extracted_id l' ++ rest)%list
              (req_item_name item_update)
            = Some (unified_item extracted_id
                      (JStr (req_item_name item_update))
                      (apply_request now item_update record))).
        { intros Hno H.
          destruct (update_in_array now item_update items) as [l''|];
            [|discriminate].
          injection H as <-. destruct (IH l'' eq_refl) as (record & Hrec).
          exists record. intros extracted_id rest.
          rewrite unified_skips by exact Hno. apply Hrec. }
        destruct item as [| | | | | |d]; try (apply Hskip; exact I).
        destruct (json_eq_str (jget "item_name" d)
                    (req_item_name item_update)) eqn:E;
          [|apply Hskip; reflexivity].
        intros H. injection H as <-. apply json_eq_str_eq in E.
        exists d. intros extracted_id rest.
        apply unified_finds; [exact Hname|].
        unfold jget, dget_default in *.
        rewrite apply_request_field by discriminate. exact E. }
      destruct Hex as (record & Hrec).
      exists (apply_request now item_update record).
      split; [|split; [apply apply_request_patched|exact Hrec]].
      unfold review_items_array. rewrite dget_dset. reflexivity.
    + destruct (dget (req_item_name item_update) data)
        as [[| | | | | |item_data]|]; try discriminate.
      apply legacy_found. exact Hname.
  - destruct (dget (req_item_name item_update) data)
      as [[| | | | | |item_data]|]; try discriminate.
    apply legacy_found. exact Hname.
Qed.

Lemma review_aggregate_flag review_items flag reviewer :
  review_aggregate review_items = Returned (flag, reviewer) ->
  flag = existsb (fun item => truthy (jget "needs_review" item)) review_items.
Proof.
  unfold review_aggregate.
  rewrite (status_facts.existsb_pointwise _
             (fun item => truthy (jget "needs_review" item)) review_items)
    by (intros item; apply review_facts.truthy_get_False).
  destruct (_ && _).
  - destruct (py_max _ _) as [[item|]|e]; cbn [bind]; try discriminate.
    + destruct (truthy (JDict item)); intros H; injection H as <- _;
        reflexivity.
    + intros H. injection H as <- _. reflexivity.
  - intros H. injection H as <- _. reflexivity.
Qed.

Lemma get_review_items_same_document set_order db db' get_all_items :
  extracted_row db = extracted_row db' ->
  get_review_items set_order db get_all_items
  = get_review_items set_order db' get_all_items.
Proof.
  intros H. unfold get_review_items, get_extracted_data_by_chart_id.
  rewrite H. reflexivity.
Qed.

End answer_facts.




(** X15.  A field held in both layouts, approved through [update_item]:
    the record of the array is patched, the entry of the legacy map is left
    as it was, and when that entry has a true [needs_review] the list of
    pending items still reports the field, from the legacy entry. *)
Theorem approved_field_stays_pending
    (set_order : list string -> list string) (now later : string)
    (item_id : Z) (item_update : ItemUpdateRequest) (db db' : Db)
    (answer : pydict) (extracted_data : ExtractedData)
    (before after : list json) (record legacy : pydict)
    (pending : list pydict) :
  let name := req_item_name item_update in
  extracted_row db = Some extracted_data ->
  dget "review_items" (data extracted_data)
  = Some (JList (before ++ JDict record :: after)) ->
  jget "item_name" record = JStr name ->
  (forall d, In (JDict d) before \/ In (JDict d) after ->
             jget "item_name" d <> JStr name) ->
  dget name (data extracted_data) = Some (JDict legacy) ->
  truthy (jget "needs_review" legacy) = true ->
  db_service.is_special_key name = false ->
  review.update_item set_order now later item_id item_update db
  = (db', Returned answer) ->
  db_service.get_review_items set_order db' false = Returned pending ->
  exists stored,
    extracted_row db' = Some stored
    /\ id stored = id extracted_data
    /\ dget "review_items" (data stored)
       = Some (JList (before
                      ++ JDict (review.apply_request now item_update record)
                      :: after))
    /\ dget name (data stored) = Some (JDict legacy)
    /\ In (review_facts.legacy_copy (id stored) name legacy) pending
    /\ truthy (jget "needs_review"
                 (review_facts.legacy_copy (id stored) name legacy)) = true.
Proof.
  intros name He Harr Hrecord Hothers Hlegacy Hneeds Hspecial Hrun Hpending.
  destruct (answer_facts.update_item_returned _ _ _ _ _ _ Hrun)
    as (chart & ed & data' & updated_items & updated_item
        & _ & He' & _ & Ha & _ & _ & _ & Hagg).
  rewrite He in He'. injection He' as <-.
  assert (Hdata :
    data' = dset "review_items"
              (JList (before
                      ++ JDict (review.apply_request now item_update record)
                      :: after))
              (data extracted_data)).
  { unfold review.apply_update, db_service.review_items_array in Ha.
    rewrite Harr in Ha.
    rewrite (@answer_facts.update_in_array_first now item_update before
               record after) in Ha.
    - injection Ha as <-. reflexivity.
    - intros d Hd. apply Hothers. left. exact Hd.
    - exact Hrecord. }
  assert (Hstored : extracted_row db' = Some (with_data extracted_data data')).
  { pose proof (update_facts.after_item_update_extracted set_order later
                  (with_extracted db (with_data extracted_data data'))) as Hx.
    rewrite Hagg in Hx. exact Hx. }
  assert (Hne : name <> "review_items").
  { intros E. rewrite E in Hspecial. discriminate. }
  assert (Hentry : dget name data' = Some (JDict legacy)).
  { rewrite Hdata, review_facts.dget_dset_other by exact Hne. exact Hlegacy. }
  exists (with_data extracted_data data').
  split; [exact Hstored|]. split; [reflexivity|].
  split; [cbn [data with_data]; rewrite Hdata, dget_dset; reflexivity|].
  split; [exact Hentry|]. split.
  - apply (@answer_facts.legacy_entry_listed set_order db'
             (with_data extracted_data data') false pending name legacy
             Hstored Hpending).
    + apply answer_facts.dget_In. exact Hentry.
    + exact Hspecial.
    + right. exact Hneeds.
    + intros d Hd [Hall|Hd'] ; [discriminate|].
      unfold answer_facts.array_of, db_service.review_items_array in Hd.
      cbn [data with_data] in Hd. rewrite Hdata, dget_dset in Hd.
      cbn in Hd. apply in_app_iff in Hd. destruct Hd as [Hd|[Hd|Hd]].
      * apply Hothers. left. exact Hd.
      * injection Hd as <-. unfold jget, dget_default in Hd'.
        rewrite answer_facts.apply_request_needs_review in Hd'.
        discriminate.
      * apply Hothers. right. exact Hd.
  - unfold jget, dget_default in *.
    rewrite review_facts.legacy_copy_field by discriminate. exact Hneeds.
Qed.

Lemma approved_field_stays_pending_witness :
  let approve_bp :=
    {| req_item_name := "BP"; req_interpreted_text := Some "120/80";
       req_review_comment := None; req_reviewed_by := "dr.sato" |} in
  let record :=
    [ ("item_name", JStr "BP"); ("raw_text", JStr "120/80");
      ("interpreted_text", JStr "120/8O"); ("needs_review", JBool true) ] in
  let legacy :=
    [ ("raw_text", JStr "120/80"); ("interpreted_text", JStr "120/8O");
      ("needs_review", JBool true) ] in
  let after :=
    [ JDict [ ("item_name", JStr "HR"); ("raw_text", JStr "72");
              ("interpreted_text", JStr "72");
              ("needs_review", JBool false) ] ] in
  let run :=
    review.update_item examples.insertion_order "2025-07-01T10:00:00"
      "2025-07-01T10:00:01" 7 approve_bp review_facts.finished in
  exists stored,
    extracted_row (fst run) = Some stored
    /\ id stored = 7%Z
    /\ dget "review_items" (data stored)
       = Some (JList ([]
                      ++ JDict (review.apply_request "2025-07-01T10:00:00"
                                  approve_bp record)
                      :: after))
    /\ dget "BP" (data stored) = Some (JDict legacy)
    /\ In (review_facts.legacy_copy (id stored) "BP" legacy)
         [ review_facts.legacy_copy 7 "BP" legacy ]
    /\ truthy (jget "needs_review"
                 (review_facts.legacy_copy (id stored) "BP" legacy)) = true.
Proof.
  intros approve_bp record legacy after run.
  refine (@approved_field_stays_pending examples.insertion_order
            "2025-07-01T10:00:00" "2025-07-01T10:00:01" 7 approve_bp
            review_facts.finished (fst run) _
            {| id := 7; data := review_facts.both_layouts |}
            [] after record legacy
            [ review_facts.legacy_copy 7 "BP" legacy ]
            _ _ _ _ _ _ _ _ _).
  - reflexivity.
  - reflexivity.
  - reflexivity.
  - intros d [[]|[H|[]]]. injection H as <-. discriminate.
  - reflexivity.
  - reflexivity.
  - reflexivity.
  - vm_compute. reflexivity.
  - vm_compute. reflexivity.
Defined.

(** X16.  The answer of a successful [update_item] for a field with a
    non-empty name is the patched record as the unified view reads it from
    the array: it carries the id of the extraction result and the name of
    the field, [needs_review] false, the reviewer and the time of the
    request, and the text and the comment the request supplies. *)
Theorem update_item_answers_patched_record
    (set_order : list string -> list string) (now later : string)
    (item_id : Z) (item_update : ItemUpdateRequest) (db db' : Db)
    (answer : pydict) :
  req_item_name item_update <> "" ->
  review.update_item set_order now later item_id item_update db
  = (db', Returned answer) ->
  jget "id" answer = JInt item_id
  /\ jget "item_name" answer = JStr (req_item_name item_update)
  /\ jget "needs_review" answer = JBool false
  /\ jget "reviewed_by" answer = JStr (req_reviewed_by item_update)
  /\ jget "reviewed_at" answer = JStr now
  /\ (forall t, req_interpreted_text item_update = Some t ->
                jget "interpreted_text" answer = JStr t)
  /\ (forall c, req_review_comment item_update = Some c ->
                jget "review_comment" answer = JStr c).
Proof.
  intros Hname Hrun.
  destruct (answer_facts.update_item_returned _ _ _ _ _ _ Hrun)
    as (chart & ed & data' & updated_items & updated_item
        & _ & He & Hid & Ha & Hu & Hf & -> & _).
  destruct (@answer_facts.apply_update_found now item_update _ _ Hname Ha)
    as (review_items & record & Harr & Hpatched & Hfind).
  unfold db_service.get_all_items_unified,
    db_service.get_extracted_data_by_chart_id in Hu.
  cbn [extracted_row with_extracted data with_data id] in Hu.
  rewrite Harr in Hu.
  destruct (forallb db_service.hashable _); [|discriminate].
  injection Hu as <-. rewrite Hfind in Hf. injection Hf as <-.
  destruct Hpatched as (H1 & H2 & H3 & H4 & H5).
  unfold review.response, db_service.unified_item, jget, dget_default.
  cbn [dget String.eqb Ascii.eqb Bool.eqb].
  rewrite H1, H2, H3, Hid. repeat split.
  - intros t Ht. rewrite (H4 t Ht). reflexivity.
  - intros c Hc. rewrite (H5 c Hc). reflexivity.
Qed.

Lemma update_item_answers_patched_record_witness :
  let answer :=
    [ ("id", JInt 7); ("item_name", JStr "主訴");
      ("raw_text", JStr "頭痛"); ("interpreted_text", JStr "頭痛");
      ("similarity_score", JNull); ("confidence_score", JNull);
      ("needs_review", JBool false); ("review_comment", JNull);
      ("reviewed_by", JStr "dr.sato");
      ("reviewed_at", JStr "2025-07-01T10:00:00") ] in
  jget "id" answer = JInt 7
  /\ jget "item_name" answer = JStr "主訴"
  /\ jget "needs_review" answer = JBool false
  /\ jget "reviewed_by" answer = JStr "dr.sato"
  /\ jget "reviewed_at" answer = JStr "2025-07-01T10:00:00"
  /\ (forall t, req_interpreted_text update_facts.approve = Some t ->
                jget "interpreted_text" answer = JStr t)
  /\ (forall c, req_review_comment update_facts.approve = Some c ->
                jget "review_comment" answer = JStr c).
Proof.
  intros answer.
  refine (@update_item_answers_patched_record examples.insertion_order
            "2025-07-01T10:00:00" "2025-07-01T10:00:01" 7
            update_facts.approve update_facts.legacy_stored
            (fst (review.update_item examples.insertion_order
                    "2025-07-01T10:00:00" "2025-07-01T10:00:01" 7
                    update_facts.approve update_facts.legacy_stored))
            answer _ _).
  - discriminate.
  - vm_compute. reflexivity.
Defined.

(** X17.  A successful [update_item] leaves the chart with the flag of
    the stored document: [needs_review] of the chart row is true exactly
    when some item of [get_review_items] with [get_all_items] true, read
    from the rows after the update, has a true [needs_review]. *)
Theorem update_item_recomputes_chart_flag
    (set_order : list string -> list string) (now later : string)
    (item_id : Z) (item_update : ItemUpdateRequest) (db db' : Db)
    (answer : pydict) :
  review.update_item set_order now later item_id item_update db
  = (db', Returned answer) ->
  exists chart items,
    chart_row db' = Some chart
    /\ db_service.get_review_items set_order db' true = Returned items
    /\ needs_review chart
       = existsb (fun item => truthy (jget "needs_review" item)) items.
Proof.
  intros Hrun.
  destruct (answer_facts.update_item_returned _ _ _ _ _ _ Hrun)
    as (chart & ed & data' & updated_items & updated_item
        & Hc & _ & _ & _ & _ & _ & _ & Hagg).
  set (db1 := with_extracted db (with_data ed data')) in *.
  assert (Hc1 : chart_row db1 = Some chart) by exact Hc.
  pose proof (update_facts.after_item_update_extracted set_order later db1)
    as Hx. rewrite Hagg in Hx. cbn [fst] in Hx.
  rewrite (answer_facts.get_review_items_same_document set_order db' db1
             true Hx).
  unfold db_service.update_chart_review_status_after_item_update in Hagg.
  destruct (db_service.get_review_items set_order db1 true)
    as [items|e]; [|discriminate].
  destruct (db_service.review_aggregate items) as [[flag reviewer]|e] eqn:Hr;
    [|discriminate].
  injection Hagg as <-.
  apply answer_facts.review_aggregate_flag in Hr. subst flag.
  unfold db_service.update_chart_review_status, db_service.get_chart_by_id.
  rewrite Hc1. eexists _, items. split; [reflexivity|].
  split; [reflexivity|].
  destruct (truthy reviewer && _); reflexivity.
Qed.

Lemma update_item_recomputes_chart_flag_witness :
  let run :=
    review.update_item examples.insertion_order "2025-07-01T10:00:00"
      "2025-07-01T10:00:01" 7 update_facts.approve
      update_facts.legacy_stored in
  exists chart items,
    chart_row (fst run) = Some chart
    /\ db_service.get_review_items examples.insertion_order (fst run) true
       = Returned items
    /\ needs_review chart
       = existsb (fun item => truthy (jget "needs_review" item)) items.
Proof.
  intros run.
  refine (@update_item_recomputes_chart_flag examples.insertion_order
            "2025-07-01T10:00:00" "2025-07-01T10:00:01" 7
            update_facts.approve update_facts.legacy_stored (fst run)
            (match snd run with Returned a => a | Raised _ => [] end) _).
  vm_compute. reflexivity.
Defined.

(** ** The conversion and the unified view *)

Module view_facts.
Import db_service.

Lemma last_record_none name review_items :
  (forall d, In (JDict d) review_items -> jget "item_name" d <> JStr name) ->
  convert_facts.last_record name review_items = None.
Proof.
  induction review_items as [|item rest IH]; intros H; [reflexivity|].
  cbn [convert_facts.last_record].
  rewrite IH by (intros d Hd; apply H; right; exact Hd).
  destruct item as [| | | | | |d]; try reflexivity.
  specialize (H d (or_introl eq_refl)). unfold jget, dget_default in H.
  destruct (dget "item_name" d) as [[| | | |n| |]|]; try reflexivity.
  destruct (String.eqb n name) eqn:E; [|reflexivity].
  apply String.eqb_eq in E. subst n. contradiction.
Qed.

Lemma last_record_only name before record after :
  jget "item_name" record = JStr name ->
  (forall d, In (JDict d) after -> jget "item_name" d <> JStr name) ->
  convert_facts.last_record name (before ++ JDict record :: after)%list
  = Some record.
Proof.
  intros Hrecord Hafter.
  induction before as [|item rest IH]; cbn [app convert_facts.last_record].
  - rewrite (last_record_none _ Hafter).
    unfold jget, dget_default in Hrecord.
    destruct (dget "item_name" record) as [v|]; [|discriminate].
    subst v. rewrite String.eqb_refl. reflexivity.
  - rewrite IH. reflexivity.
Qed.

Lemma array_record_found extracted_id name before record after rest :
  name <> "" ->
  jget "item_name" record = JStr name ->
  (forall d, In (JDict d) before -> jget "item_name" d <> JStr name) ->
  find_item_by_name
    (unified_from_array extracted_id (before ++ JDict record :: after)
     ++ rest)%list name
  = Some (unified_item extracted_id (JStr name) record).
Proof.
  intros Hname Hrecord Hbefore.
  induction before as [|item items IH]; cbn [app].
  - apply answer_facts.unified_finds; assumption.
  - rewrite answer_facts.unified_skips.
    + apply IH. intros d Hd. apply Hbefore. right. exact Hd.
    + destruct item as [| | | | | |d]; try exact I.
      destruct (json_eq_str (jget "item_name" d) name) eqn:E; [|reflexivity].
      apply answer_facts.json_eq_str_eq in E. exfalso.
      exact (Hbefore d (or_introl eq_refl) E).
Qed.

Lemma jget_without_item_name k record :
  k <> "item_name" ->
  dget k (convert_facts.without_item_name record) = dget k record.
Proof.
  intros Hk. unfold convert_facts.without_item_name.
  induction record as [|[k0 v0] record IH]; [reflexivity|].
  cbn [filter fst dget].
  destruct (String.eqb k0 "item_name") eqn:E0; cbn [negb dget].
  - apply String.eqb_eq in E0. subst k0.
    apply String.eqb_neq in Hk. rewrite Hk. exact IH.
  - rewrite IH. reflexivity.
Qed.

Lemma unified_item_without_item_name extracted_id name record :
  unified_item extracted_id name (convert_facts.without_item_name record)
  = unified_item extracted_id name record.
Proof.
  unfold unified_item, jget, dget_default.
  rewrite !jget_without_item_name by discriminate. reflexivity.
Qed.

(** The legacy part of the unified view, read by name, on a document
    without repeated keys *)
Lemma legacy_entry_found extracted_id name value :
  is_special_key name = false ->
  forall document,
    NoDup (dkeys document) ->
    dget name document = Some (JDict value) ->
    find_item_by_name (unified_from_legacy extracted_id [] document) name
    = Some (unified_item extracted_id (JStr name) value).
Proof.
  intros Hspecial. induction document as [|[k v] document IH]; intros Hnd;
    [discriminate|].
  cbn [dget]. unfold unified_from_legacy. cbn [flat_map fst snd existsb].
  inversion Hnd as [|? ? Hk Hnd']; subst.
  destruct (String.eqb name k) eqn:E.
  - apply String.eqb_eq in E. subst k. intros H. injection H as ->.
    rewrite Hspecial. unfold find_item_by_name. cbn [app find].
    rewrite answer_facts.unified_item_name. cbn [json_eq_str].
    rewrite String.eqb_refl. reflexivity.
  - intros H. specialize (IH Hnd' H).
    assert (Hskip :
      forall items,
        (forall item, In item items -> jget "item_name" item = JStr k) ->
        find_item_by_name
          (items ++ unified_from_legacy extracted_id [] document)%list name
        = find_item_by_name (unified_from_legacy extracted_id [] document) name).
    { intros items Hitems. induction items as [|item items IHi];
        [reflexivity|].
      unfold find_item_by_name. cbn [app find].
      rewrite (Hitems item (or_introl eq_refl)). cbn [json_eq_str].
      rewrite String.eqb_sym, E.
      apply IHi. intros item' Hin. apply Hitems. right. exact Hin. }
    fold (unified_from_legacy extracted_id [] document).
    rewrite Hskip; [exact IH|].
    intros item Hin. destruct (is_special_key k); [contradiction|].
    destruct v as [| | | | | |d]; try contradiction.
    destruct Hin as [<-|[]]. reflexivity.
Qed.

Lemma dset_NoDup (V : Type) k (v : V) (d : dict V) :
  NoDup (dkeys d) -> NoDup (dkeys (dset k v d)).
Proof.
  induction d as [|[k0 v0] d IH]; cbn [dset dkeys map fst]; intros H.
  - constructor; [intros []|constructor].
  - inversion H as [|? ? Hk Hd]; subst.
    destruct (String.eqb k k0) eqn:E; cbn [dkeys map fst].
    + apply String.eqb_eq in E. subst k0. constructor; assumption.
    + constructor.
      * fold (dkeys (dset k v d)). rewrite dkeys_dset. intros [->|Hin].
        -- rewrite String.eqb_refl in E. discriminate.
        -- exact (Hk Hin).
      * apply IH. exact Hd.
Qed.

Lemma standard_entries_NoDup review_items :
  forall acc standard_format,
    NoDup (dkeys acc) ->
    standard_entries review_items acc = Returned standard_format ->
    NoDup (dkeys standard_format).
Proof.
  induction review_items as [|item rest IH]; intros acc sf Hnd;
    cbn [standard_entries].
  - intros H. injection H as <-. exact Hnd.
  - destruct item as [| | | | | |d]; try (apply IH; exact Hnd).
    destruct (dget "item_name" d) as [[| | | |n| |]|]; try discriminate;
      try (apply IH; exact Hnd).
    apply IH. apply dset_NoDup. exact Hnd.
Qed.

Lemma keep_metadata_NoDup data :
  forall acc, NoDup (dkeys acc) -> NoDup (dkeys (keep_metadata data acc)).
Proof.
  unfold keep_metadata.
  induction data as [|[k v] data IH]; intros acc Hnd; cbn [fold_left];
    [exact Hnd|].
  apply IH. destruct (_ && _); [apply dset_NoDup|]; exact Hnd.
Qed.

Lemma to_standard_format_NoDup data review_items standard :
  review_items_array data = Some review_items ->
  to_standard_format data = Returned standard ->
  NoDup (dkeys standard).
Proof.
  unfold to_standard_format. intros -> H.
  destruct (standard_entries review_items []) as [sf|e] eqn:Es;
    [|discriminate].
  cbn [bind] in H. injection H as <-.
  apply keep_metadata_NoDup.
  apply (@standard_entries_NoDup review_items [] sf); [constructor|exact Es].
Qed.

Lemma convert_returned db db' answer extracted_data review_items :
  extracted_row db = Some extracted_data ->
  review_items_array (data extracted_data) = Some review_items ->
  convert_to_standard_format db = (db', Returned answer) ->
  exists standard,
    to_standard_format (data extracted_data) = Returned standard
    /\ db' = with_extracted db (with_data extracted_data standard)
    /\ answer = true.
Proof.
  unfold convert_to_standard_format, get_extracted_data_by_chart_id.
  intros -> ->.
  destruct (to_standard_format (data extracted_data)) as [standard|e];
    [|discriminate].
  intros H. injection H as <- <-. exists standard. repeat split.
Qed.

(** Two records of the same name, the second one approved *)
Definition repeated_array : pydict :=
  [ ("BP", JDict [ ("raw_text", JStr "stale") ]);
    ("template_id", JStr "t-1");
    ("review_items",
      JList [ JDict [ ("item_name", JStr "BP"); ("raw_text", JStr "120/80");
                      ("needs_review", JBool true) ];
              JDict [ ("item_name", JStr "HR"); ("raw_text", JStr "72") ];
              JDict [ ("item_name", JStr "BP"); ("raw_text", JStr "130/85");
                      ("needs_review", JBool false) ] ]) ].

End view_facts.

(** X18.  [convert_to_standard_format] on a document that holds a
    [review_items] list: the chart row is not touched, the id of the
    extraction result is kept, and the stored document maps every name of
    a record of the list to the last record of that name, without its
    [item_name]; a top-level key that names no record keeps its value,
    and [review_items] is gone.  So a record of the list replaces a
    top-level entry of its name. *)
Theorem convert_moves_records_under_names
    (db db' : Db) (answer : bool) (extracted_data : ExtractedData)
    (review_items : list json) :
  extracted_row db = Some extracted_data ->
  db_service.review_items_array (data extracted_data) = Some review_items ->
  db_service.convert_to_standard_format db = (db', Returned answer) ->
  answer = true
  /\ chart_row db' = chart_row db
  /\ exists stored,
       extracted_row db' = Some stored
       /\ id stored = id extracted_data
       /\ forall k,
            dget k (data stored)
            = match convert_facts.last_record k review_items with
              | Some record =>
                  Some (JDict (convert_facts.without_item_name record))
              | None =>
                  if String.eqb k "review_items" then None
                  else dget k (data extracted_data)
              end.
Proof.
  intros He Harr Hrun.
  destruct (view_facts.convert_returned _ He Harr Hrun)
    as (standard & Hs & -> & ->).
  split; [reflexivity|]. split; [reflexivity|].
  exists (with_data extracted_data standard).
  split; [reflexivity|]. split; [reflexivity|].
  exact (convert_facts.to_standard_format_entries _ Harr Hs).
Qed.

Lemma convert_moves_records_under_names_witness :
  let run :=
    db_service.convert_to_standard_format
      (convert_facts.stored view_facts.repeated_array) in
  true = true
  /\ chart_row (fst run)
     = chart_row (convert_facts.stored view_facts.repeated_array)
  /\ exists stored,
       extracted_row (fst run) = Some stored
       /\ id stored = 7%Z
       /\ forall k,
            dget k (data stored)
            = match convert_facts.last_record k
                      [ JDict [ ("item_name", JStr "BP");
                                ("raw_text", JStr "120/80");
                                ("needs_review", JBool true) ];
                        JDict [ ("item_name", JStr "HR");
                                ("raw_text", JStr "72") ];
                        JDict [ ("item_name", JStr "BP");
                                ("raw_text", JStr "130/85");
                                ("needs_review", JBool false) ] ] with
              | Some record =>
                  Some (JDict (convert_facts.without_item_name record))
              | None =>
                  if String.eqb k "review_items" then None
                  else dget k view_facts.repeated_array
              end.
Proof.
  intros run.
  refine (@convert_moves_records_under_names
            (convert_facts.stored view_facts.repeated_array) (fst run) true
            {| id := 7; data := view_facts.repeated_array |} _ _ _ _).
  - reflexivity.
  - reflexivity.
  - vm_compute. reflexivity.
Defined.

(** X19.  The conversion keeps what the unified view reports for a field:
    when exactly one record of [review_items] carries the name, a name
    that is not empty and not one of the five reserved keys, then
    [get_all_items_unified] followed by [find_item_by_name] gives the same
    item before and after [convert_to_standard_format], the item of that
    record. *)
Theorem convert_keeps_unified_item
    (db db' : Db) (answer : bool) (extracted_data : ExtractedData)
    (before after : list json) (record : pydict) (name : string)
    (items : list pydict) :
  extracted_row db = Some extracted_data ->
  dget "review_items" (data extracted_data)
  = Some (JList (before ++ JDict record :: after)) ->
  jget "item_name" record = JStr name ->
  (forall d, In (JDict d) before \/ In (JDict d) after ->
             jget "item_name" d <> JStr name) ->
  name <> "" ->
  db_service.is_special_key name = false ->
  db_service.get_all_items_unified db = Returned items ->
  db_service.convert_to_standard_format db = (db', Returned answer) ->
  exists items',
    db_service.get_all_items_unified db' = Returned items'
    /\ db_service.find_item_by_name items' name
       = db_service.find_item_by_name items name
    /\ db_service.find_item_by_name items name
       = Some (db_service.unified_item (id extracted_data) (JStr name) record).
Proof.
  intros He Hdoc Hrecord Hothers Hname Hspecial Hitems Hrun.
  assert (Harr : db_service.review_items_array (data extracted_data)
                 = Some (before ++ JDict record :: after)%list)
    by (unfold db_service.review_items_array; rewrite Hdoc; reflexivity).
  destruct (view_facts.convert_returned _ He Harr Hrun)
    as (standard & Hs & -> & _).
  assert (Hbefore :
    db_service.find_item_by_name items name
    = Some (db_service.unified_item (id extracted_data) (JStr name) record)).
  { unfold db_service.get_all_items_unified,
      db_service.get_extracted_data_by_chart_id in Hitems.
    rewrite He, Harr in Hitems.
    destruct (forallb db_service.hashable _); [|discriminate].
    injection Hitems as <-.
    apply view_facts.array_record_found; [exact Hname|exact Hrecord|].
    intros d Hd. apply Hothers. left. exact Hd. }
  assert (Hentry :
    dget name standard
    = Some (JDict (convert_facts.without_item_name record))).
  { rewrite (convert_facts.to_standard_format_entries _ Harr Hs name).
    rewrite view_facts.last_record_only; [reflexivity|exact Hrecord|].
    intros d Hd. apply Hothers. right. exact Hd. }
  unfold db_service.get_all_items_unified,
    db_service.get_extracted_data_by_chart_id.
  cbn [extracted_row with_extracted data with_data id].
  rewrite (convert_facts.to_standard_format_no_array _ Harr Hs).
  cbn [map forallb app]. eexists. split; [reflexivity|].
  split; [|exact Hbefore]. rewrite Hbefore.
  rewrite (@view_facts.legacy_entry_found (id extracted_data) name _ Hspecial
             standard (view_facts.to_standard_format_NoDup _ Harr Hs) Hentry).
  rewrite view_facts.unified_item_without_item_name. reflexivity.
Qed.

Lemma convert_keeps_unified_item_witness :
  let db := convert_facts.stored review_facts.both_layouts in
  let record :=
    [ ("item_name", JStr "BP"); ("raw_text", JStr "120/80");
      ("interpreted_text", JStr "120/8O"); ("needs_review", JBool true) ] in
  let items :=
    match db_service.get_all_items_unified db with
    | Returned items => items
    | Raised _ => []
    end in
  exists items',
    db_service.get_all_items_unified
      (fst (db_service.convert_to_standard_format db))
    = Returned items'
    /\ db_service.find_item_by_name items' "BP"
       = db_service.find_item_by_name items "BP"
    /\ db_service.find_item_by_name items "BP"
       = Some (db_service.unified_item 7 (JStr "BP") record).
Proof.
  intros db record items.
  refine (@convert_keeps_unified_item db
            (fst (db_service.convert_to_standard_format db)) true
            {| id := 7; data := review_facts.both_layouts |}
            []
            [ JDict [ ("item_name", JStr "HR"); ("raw_text", JStr "72");
                      ("interpreted_text", JStr "72");
                      ("needs_review", JBool false) ] ]
            record "BP" items _ _ _ _ _ _ _ _).
  - reflexivity.
  - reflexivity.
  - reflexivity.
  - intros d [[]|[H|[]]]. injection H as <-. discriminate.
  - discriminate.
  - reflexivity.
  - vm_compute. reflexivity.
  - vm_compute. reflexivity.
Defined.

(** X20.  A run with a template that got past its three checks leaves
    the template id on the chart, whether it failed or completed, so
    [reprocess_chart] on the rows it leaves is the run with that template
    again. *)
Theorem reprocess_repeats_template_run
    (strip : string -> string) (len : string -> nat)
    (Levenshtein_distance : string -> string -> nat)
    (fuzz_ratio : string -> string -> float)
    (commit : pydict -> pyresult unit)
    (now now' : string) (new_id new_id' : Z) (chart_id : string)
    (template : chart_service.Template) (template_key : string)
    (lookup : string -> option chart_service.Template)
    (download download' : pyresult (option string))
    (stage1 stage1' : nat -> gemini_service.attempt (list RawItem))
    (stage2 stage2' : nat -> gemini_service.attempt (list InterpretedItem))
    (db : Db) (chart : Chart) :
  chart_row db = Some chart ->
  template_facts.enabled_items template <> [] ->
  let db' :=
    fst (chart_service.process_chart_with_template strip len
           Levenshtein_distance fuzz_ratio commit now new_id chart_id
           (Some template) template_key download stage1 stage2 db) in
  option_map template_id (chart_row db') = Some (Some template_key)
  /\ chart_service.reprocess_chart strip len Levenshtein_distance fuzz_ratio
       commit now' new_id' chart_id lookup download' stage1' stage2' db'
     = chart_service.process_chart_with_template strip len
         Levenshtein_distance fuzz_ratio commit now' new_id' chart_id
         (lookup template_key) template_key download' stage1' stage2' db'.
Proof.
  intros Hc He db'. subst db'.
  destruct (template_facts.enabled_items template) as [|item items] eqn:Hitems;
    [contradiction|].
  rewrite (template_facts.run_after_checks strip len Levenshtein_distance
             fuzz_ratio commit now new_id chart_id template template_key
             download stage1 stage2 db Hc Hitems).
  cbv zeta. unfold chart_service.reprocess_chart.
  destruct (chart_service.template_result _ _ _ _ _ _ _ _ _ _)
    as [[[result_data flag] average]|e];
    [destruct (commit result_data)|]; split; reflexivity.
Qed.

Lemma reprocess_repeats_template_run_witness :
  let db' :=
    fst (template_facts.run
           (fun _ => gemini_service.AttemptRaises template_facts.unavailable)) in
  option_map template_id (chart_row db') = Some (Some "t-1")
  /\ chart_service.reprocess_chart ascii_metrics.strip ascii_metrics.len
       ascii_metrics.Levenshtein_distance ascii_metrics.fuzz_ratio
       examples.accepts "2025-07-01T11:00:00" 8 "c-1"
       (fun _ => Some template_facts.vitals) template_facts.image
       (fun _ => gemini_service.AttemptReturns template_facts.vitals_raw)
       (fun _ => gemini_service.AttemptReturns
                   template_facts.vitals_interpreted) db'
     = chart_service.process_chart_with_template ascii_metrics.strip
         ascii_metrics.len ascii_metrics.Levenshtein_distance
         ascii_metrics.fuzz_ratio examples.accepts
         "2025-07-01T11:00:00" 8 "c-1"
         (Some template_facts.vitals) "t-1" template_facts.image
         (fun _ => gemini_service.AttemptReturns template_facts.vitals_raw)
         (fun _ => gemini_service.AttemptReturns
                     template_facts.vitals_interpreted) db'.
Proof.
  apply (@reprocess_repeats_template_run
           ascii_metrics.strip ascii_metrics.len
           ascii_metrics.Levenshtein_distance ascii_metrics.fuzz_ratio
           examples.accepts
           "2025-07-01T10:00:00" "2025-07-01T11:00:00" 7 8 "c-1"
           template_facts.vitals "t-1" (fun _ => Some template_facts.vitals)
           template_facts.image template_facts.image
           (fun _ => gemini_service.AttemptReturns template_facts.vitals_raw)
           (fun _ => gemini_service.AttemptReturns template_facts.vitals_raw)
           (fun _ => gemini_service.AttemptRaises template_facts.unavailable)
           (fun _ => gemini_service.AttemptReturns
                       template_facts.vitals_interpreted)
           examples.uploaded examples.pending_chart).
  - reflexivity.
  - vm_compute. discriminate.
Defined.

(** ** The list of items after a run *)

Module listing_facts.
Import db_service.

Lemma from_array_all extracted_id records :
  review_facts.from_array extracted_id true (map JDict records)
  = map (dset "id" (JInt extracted_id)) records.
Proof.
  induction records as [|r rest IH]; [reflexivity|].
  cbn [map]. rewrite <- IH. reflexivity.
Qed.

Lemma string_names_strings names :
  string_names (map JStr names) = Returned names.
Proof.
  induction names as [|n rest IH]; [reflexivity|].
  cbn [map string_names]. rewrite IH. reflexivity.
Qed.

Lemma filter_truthy_names names :
  ~ In "" names -> filter truthy (map JStr names) = map JStr names.
Proof.
  induction names as [|n rest IH]; intros H; [reflexivity|].
  cbn [map filter truthy].
  destruct (String.eqb n "") eqn:E.
  - apply String.eqb_eq in E. subst n. exfalso. apply H. left. reflexivity.
  - cbn [negb]. rewrite IH; [reflexivity|].
    intros Hin. apply H. right. exact Hin.
Qed.

Lemma mirror_names_named (rest_of : string -> pydict) names :
  mirror_names
    (map (fun k => JDict (("item_name", JStr k) :: rest_of k)) names)
  = Returned names.
Proof.
  induction names as [|n rest IH]; [reflexivity|].
  cbn [map mirror_names]. cbn [dget String.eqb Ascii.eqb Bool.eqb].
  rewrite IH. reflexivity.
Qed.

Lemma flat_map_nil (A B : Type) (f : A -> list B) l :
  (forall x, In x l -> f x = []) -> flat_map f l = [].
Proof.
  induction l as [|a l IH]; intros H; [reflexivity|].
  cbn [flat_map]. rewrite (H a (or_introl eq_refl)), IH; [reflexivity|].
  intros x Hx. apply H. right. exact Hx.
Qed.

Lemma existsb_eqb_In k names :
  In k names -> existsb (String.eqb k) names = true.
Proof.
  intros H. apply existsb_exists. exists k. split; [exact H|].
  apply String.eqb_refl.
Qed.

Section Listing.
Variable strip : string -> string.
Variable len : string -> nat.
Variable Levenshtein_distance : string -> string -> nat.
Variable fuzz_ratio : string -> string -> float.
Variable set_order : list string -> list string.
Hypothesis set_order_perm : forall l, Permutation (set_order l) l.

(** The record of the array the run writes for a field *)
Definition array_record (raw_items : list RawItem)
    (interpreted_items : list InterpretedItem) (k : string) : pydict :=
  dset "item_name" (JStr k)
    (process_chart.item_data
       (process_chart.score_item strip len Levenshtein_distance fuzz_ratio
          (process_chart.raw_dict_of raw_items)
          (process_chart.interpreted_dict_of interpreted_items) k)).

Definition array_records (raw_items : list RawItem)
    (interpreted_items : list InterpretedItem) : list pydict :=
  map (array_record raw_items interpreted_items)
    (process_chart_facts.all_keys set_order raw_items interpreted_items).

(** Every top-level key of the document is a reserved key or the name of
    a field. *)
Lemma document_keys raw_items interpreted_items k :
  In k (dkeys (fst (fst (process_chart.process_extracted_items strip len
                           Levenshtein_distance fuzz_ratio set_order
                           raw_items interpreted_items)))) ->
  is_special_key k = true
  \/ In k (process_chart_facts.all_keys set_order raw_items interpreted_items).
Proof.
  unfold process_chart.process_extracted_items.
  fold (process_chart_facts.all_keys set_order raw_items interpreted_items).
  rewrite process_chart_facts.loop_spec;
    [|apply process_chart_facts.all_keys_NoDup; exact set_order_perm
     |reflexivity].
  cbn [app orb fst snd]. unfold dupdate. cbn [fold_left fst snd].
  rewrite !dkeys_dset. unfold dkeys. rewrite map_map. cbn [fst].
  rewrite map_id.
  intros [->|[->|[->|[->|[->|H]]]]]; try (left; reflexivity).
  right. exact H.
Qed.

End Listing.

End listing_facts.

(** X21.  After [process_extracted_items] the list of all items,
    [get_review_items] with [get_all_items] true, is the array
    [review_items] of the stored document with the id of the extraction
    result added to each record: when no field has the empty name, every
    field is listed once, in the order of the array, and no item comes
    from the top-level entries or from [raw_items] and
    [interpreted_items]. *)
Theorem review_list_after_run
    (strip : string -> string) (len : string -> nat)
    (Levenshtein_distance : string -> string -> nat)
    (fuzz_ratio : string -> string -> float)
    (set_order set_order' : list string -> list string)
    (set_order_perm : forall l, Permutation (set_order l) l)
    (set_order_perm' : forall l, Permutation (set_order' l) l)
    (raw_items : list RawItem) (interpreted_items : list InterpretedItem)
    (extracted_id : Z) (db : Db) :
  let document :=
    fst (fst (process_chart.process_extracted_items strip len
                Levenshtein_distance fuzz_ratio set_order
                raw_items interpreted_items)) in
  let records :=
    listing_facts.array_records strip len Levenshtein_distance fuzz_ratio
      set_order raw_items interpreted_items in
  ~ In "" (process_chart_facts.field_names raw_items interpreted_items) ->
  extracted_row db = Some {| id := extracted_id; data := document |} ->
  dget "review_items" document = Some (JList (map JDict records))
  /\ db_service.get_review_items set_order' db true
     = Returned (map (dset "id" (JInt extracted_id)) records).
Proof.
  intros document records Hnames He.
  destruct (@process_chart_facts.process_extracted_items_document
              strip len Levenshtein_distance fuzz_ratio set_order
              set_order_perm raw_items interpreted_items)
    as (Hri & Hraw & Hint & _).
  fold document in Hri, Hraw, Hint.
  set (keys := process_chart_facts.all_keys set_order raw_items
                 interpreted_items) in *.
  assert (Hkeys : ~ In "" keys).
  { intros H. apply Hnames.
    apply (process_chart_facts.all_keys_In set_order set_order_perm ""
             raw_items interpreted_items). exact H. }
  assert (Harray : dget "review_items" document
                   = Some (JList (map JDict records))).
  { rewrite Hri. unfold records, listing_facts.array_records.
    rewrite map_map. reflexivity. }
  split; [exact Harray|].
  rewrite (@answer_facts.get_review_items_eq set_order' db _ true He).
  cbn [data id]. cbv zeta.
  assert (Harr : answer_facts.array_of document = map JDict records).
  { unfold answer_facts.array_of, db_service.review_items_array.
    rewrite Harray. reflexivity. }
  rewrite Harr, listing_facts.from_array_all.
  assert (Hn : map (jget "item_name")
                 (map (dset "id" (JInt extracted_id)) records)
               = map JStr keys).
  { unfold records, listing_facts.array_records. fold keys.
    rewrite !map_map. apply map_ext. intros k.
    unfold listing_facts.array_record, jget, dget_default.
    rewrite review_facts.dget_dset_other by discriminate.
    rewrite dget_dset. reflexivity. }
  rewrite Hn, (@listing_facts.filter_truthy_names keys Hkeys),
    listing_facts.string_names_strings.
  cbn [bind]. unfold dget_default at 1. rewrite Hraw.
  cbn [db_service.py_iter bind].
  rewrite (listing_facts.mirror_names_named
             (fun k => [("raw_text", _)])).
  cbn [bind]. unfold dget_default at 1. rewrite Hint.
  cbn [db_service.py_iter bind].
  rewrite (listing_facts.mirror_names_named
             (fun k => [("interpreted_text", _)])).
  cbn [bind].
  rewrite listing_facts.flat_map_nil.
  - rewrite listing_facts.flat_map_nil; [reflexivity|].
    intros item_name Hin.
    rewrite listing_facts.existsb_eqb_In; [reflexivity|].
    apply (Permutation_in _ (set_order_perm' _)) in Hin.
    apply nodup_In in Hin. apply in_app_iff in Hin. tauto.
  - intros [key value] Hin. cbn [fst snd].
    destruct (db_service.is_special_key key) eqn:Hs; [reflexivity|].
    rewrite listing_facts.existsb_eqb_In; [reflexivity|].
    destruct (@listing_facts.document_keys strip len Levenshtein_distance
                fuzz_ratio set_order set_order_perm raw_items
                interpreted_items key) as [H|H].
    + apply in_map_iff. exists (key, value). split; [reflexivity|exact Hin].
    + rewrite H in Hs. discriminate.
    + exact H.
Qed.

Lemma review_list_after_run_witness :
  let document :=
    fst (fst (examples.process_extracted_items record_facts.repeated_raw
                record_facts.pulse_interpreted)) in
  let records :=
    listing_facts.array_records ascii_metrics.strip ascii_metrics.len
      ascii_metrics.Levenshtein_distance ascii_metrics.fuzz_ratio
      examples.insertion_order record_facts.repeated_raw
      record_facts.pulse_interpreted in
  dget "review_items" document = Some (JList (map JDict records))
  /\ db_service.get_review_items examples.insertion_order
       (convert_facts.stored document) true
     = Returned (map (dset "id" (JInt 7)) records).
Proof.
  apply (@review_list_after_run
           ascii_metrics.strip ascii_metrics.len
           ascii_metrics.Levenshtein_distance ascii_metrics.fuzz_ratio
           examples.insertion_order examples.insertion_order
           examples.insertion_order_perm examples.insertion_order_perm
           record_facts.repeated_raw record_facts.pulse_interpreted
           7 (convert_facts.stored
                (fst (fst (examples.process_extracted_items
                             record_facts.repeated_raw
                             record_facts.pulse_interpreted))))).
  - vm_compute. intros H.
    repeat (destruct H as [H|H]; [discriminate H|]). exact H.
  - reflexivity.
Defined.
